(** * OmniAD: detector lifecycle, sklearn adapter layer, registry and factory

    A shallow embedding of [omniad/core/base.py],
    [omniad/core/adapters/sklearn_adapter.py], [omniad/utils/validation.py],
    [omniad/algos/tabular/iforest.py], [omniad/registry.py] and
    [omniad/__init__.py].

    Python objects live in a heap of attribute dictionaries, and every
    method is a computation in a state and exception monad over the heap and
    the file system: an exception leaves the mutations made before it in
    place, exactly as in Python.  Floats are the kernel's binary64 numbers.
    NumPy, scikit-learn, the import system and the file-system calls of [os]
    and [shutil] are outside the repository; they are the fields of [Libs],
    over which every definition and theorem is parametric. *)

From Stdlib Require Import ZArith String Ascii List.
From Stdlib Require Import Floats.PrimFloat Floats.SpecFloat Floats.FloatOps.
From Stdlib Require Import Floats.FloatAxioms Lia.
From stdpp Require Import gmap strings list fin_maps.

Local Open Scope string_scope.

(** ** Exceptions *)

Inductive ExnType :=
| ModelNotFittedError
| DataFormatError
| ConfigError
| ValueError
| TypeError
| AttributeError
| ImportError
| FileNotFoundError
| ReadError
| UnpicklingError
| ReferenceError.

Record Exn := mkExn { exn_type : ExnType; exn_msg : string }.

Definition Exc (A : Type) : Type := (Exn + A)%type.

Definition ExnType_eqb (a b : ExnType) : bool :=
  match a, b with
  | ModelNotFittedError, ModelNotFittedError
  | DataFormatError, DataFormatError
  | ConfigError, ConfigError
  | ValueError, ValueError
  | TypeError, TypeError
  | AttributeError, AttributeError
  | ImportError, ImportError
  | FileNotFoundError, FileNotFoundError
  | ReadError, ReadError
  | UnpicklingError, UnpicklingError
  | ReferenceError, ReferenceError => true
  | _, _ => false
  end.

(** ** State and exception monad

    [ST S A] is a computation over a mutable state [S] that returns an [A] or
    raises; the state is returned in both cases. *)

Definition ST (S A : Type) : Type := S -> Exc A * S.

Definition ret {S A : Type} (a : A) : ST S A := fun s => (inr a, s).

Definition bind {S A B : Type} (m : ST S A) (k : A -> ST S B) : ST S B :=
  fun s =>
    match m s with
    | (inr a, s') => k a s'
    | (inl e, s') => (inl e, s')
    end.

Definition raise {S A : Type} (t : ExnType) (msg : string) : ST S A :=
  fun s => (inl (mkExn t msg), s).

Definition lift {S A : Type} (r : Exc A) : ST S A := fun s => (r, s).

Declare Scope st_scope.
Delimit Scope st_scope with st.

Notation "'let*' x ':=' c 'in' k" := (bind c (fun x => k))
  (at level 10, x name, c at level 100, k at level 200) : st_scope.
Notation "c '>>' k" := (bind c (fun _ => k))
  (at level 90, right associativity) : st_scope.

Local Open Scope st_scope.

(** ** Numeric data *)

(** A NumPy array: its shape and its elements in row-major order. *)
Record ndarray := mk_ndarray { shape : list nat; data : list float }.

Definition ndim (a : ndarray) : nat := List.length (shape a).

(** [a.reshape(-1, 1)] *)
Definition reshape_column (a : ndarray) : ndarray :=
  {| shape := [List.length (data a); 1]; data := data a |}.

Definition n_samples (a : ndarray) : nat := hd 0 (shape a).

(** The objects a caller may pass as [X] (or [y]). *)
Inductive PyAny :=
| XArray (a : ndarray)
| XPandas (to_numpy : option PyAny) (has_values : bool)
| XList (items : list PyAny)
| XNum (x : float)
| XStr (s : string).

(** ** Backend estimators

    A scikit-learn shaped estimator is an object of some estimator class:
    the class fixes the type of the fitted state and the methods; [fit]
    mutates the state in place (the mutated state is returned also when
    [fit] raises), and each of the two scoring methods may or may not
    exist. *)
Record EstimatorClass := {
  est_type : string;
  est_state : Type;
  est_fit : est_state -> ndarray -> option PyAny -> Exc unit * est_state;
  est_score_samples : option (est_state -> ndarray -> Exc (list float));
  est_decision_function : option (est_state -> ndarray -> Exc (list float))
}.

Record Estimator := {
  est_class : EstimatorClass;
  est_self : est_state est_class
}.

(** [e.fit(X, y)] *)
Definition estimator_fit (e : Estimator) (X : ndarray) (y : option PyAny)
  : Exc unit * Estimator :=
  let (r, st) := est_fit (est_class e) (est_self e) X y in
  (r, {| est_class := est_class e; est_self := st |}).

(** ** Python values held in attributes, keyword arguments and pickles *)
Inductive PyVal :=
| VNone
| VBool (b : bool)
| VInt (z : Z)
| VFloat (x : float)
| VStr (s : string)
| VDict (d : gmap string PyVal)
| VObj (e : Estimator).

Abbreviation Dict := (gmap string PyVal).

Definition is_None (v : PyVal) : bool :=
  match v with VNone => true | _ => false end.

(** Python truthiness. *)
Definition truthy (v : PyVal) : bool :=
  match v with
  | VNone => false
  | VBool b => b
  | VInt z => negb (Z.eqb z 0)
  | VFloat x => negb (PrimFloat.eqb x 0)
  | VStr s => negb (String.eqb s EmptyString)
  | VDict d => negb (bool_decide (d = ∅))
  | VObj _ => true
  end.

(** [float(z)] for a Python integer: the nearest binary64 number. *)
Definition Z_to_float (z : Z) : float :=
  SF2Prim (binary_normalize prec emax z 0%Z false).

(** Numeric coercion to a float, as NumPy does for Python numbers. *)
Definition as_float (v : PyVal) : Exc float :=
  match v with
  | VFloat x => inr x
  | VInt z => inr (Z_to_float z)
  | VBool b => inr (if b then 1%float else 0%float)
  | _ => inl (mkExn TypeError "unsupported operand type(s)")
  end.

(** [1 - v] as NumPy receives it: integers are subtracted exactly. *)
Definition one_minus (v : PyVal) : Exc float :=
  match v with
  | VFloat x => inr (PrimFloat.sub 1 x)
  | VInt z => inr (Z_to_float (1 - z))
  | VBool b => inr (if b then 0%float else 1%float)
  | _ => inl (mkExn TypeError "unsupported operand type(s) for -")
  end.

Definition as_dict (v : PyVal) : Exc Dict :=
  match v with
  | VDict d => inr d
  | _ => inl (mkExn TypeError "object is not a mapping")
  end.

(** [repr(type(v))] *)
Definition type_repr (v : PyVal) : string :=
  "<class '" +:+
  match v with
  | VNone => "NoneType"
  | VBool _ => "bool"
  | VInt _ => "int"
  | VFloat _ => "float"
  | VStr _ => "str"
  | VDict _ => "dict"
  | VObj e => est_type (est_class e)
  end +:+ "'>".

(** [hasattr(v, "score_samples")] and [hasattr(v, "decision_function")],
    returning the bound method. *)
Definition score_samples_of (v : PyVal) : option (ndarray -> Exc (list float)) :=
  match v with
  | VObj e =>
      match est_score_samples (est_class e) with
      | Some f => Some (f (est_self e))
      | None => None
      end
  | _ => None
  end.

Definition decision_function_of (v : PyVal) : option (ndarray -> Exc (list float)) :=
  match v with
  | VObj e =>
      match est_decision_function (est_class e) with
      | Some f => Some (f (est_self e))
      | None => None
      end
  | _ => None
  end.

(** ** Adapter classes and detector objects *)

(** A concrete detector class: its name, its constructor acting on the
    attribute dictionary of the object under construction, and the three
    class-level variables of [BaseSklearnAdapter].  The class variables are
    read from the class: nothing in the repository assigns them on an
    instance. *)
Record AdapterClass := {
  cls_name : string;
  cls_init : Dict -> ST Dict unit;
  _backend_cls : option (Dict -> Exc Estimator);
  _param_mapping : list (string * string);
  _invert_score : bool
}.

Record Detector := { __class__ : AdapterClass; __dict__ : Dict }.

(** A module of the import system: the adapter classes it defines. *)
Abbreviation PyModule := (gmap string AdapterClass).

(** ** Files

    The temporary directory of [save] and [load] is a directory tree local
    to the call, mapping the paths below it to what was written there; it is
    gone on every exit path.  The file system holds the files under the
    names the operating system keeps them by.  Which file, if any, a path
    string reaches, and what writing an archive does to the files, is the
    operating system's: the calls are fields of [Libs]. *)
Inductive Blob :=
| JsonBlob (v : PyVal)
| PickleBlob (v : PyVal)
| DirNode.

Abbreviation Tree := (gmap string Blob).

Inductive File :=
| ZipFile (members : gmap string Blob)
| TarFile (members : gmap string Blob)
| PlainFile.

Abbreviation FileSystem := (gmap string File).

(** ** Libraries outside the repository *)

(** The keyword arguments [_check_array_compat] passes to [check_array]. *)
Record CheckOpts := {
  accept_sparse : bool;
  ensure_2d : bool;
  dtype : option string
}.

Record Libs := {
  (** [numpy.asarray] *)
  np_asarray : PyAny -> Exc ndarray;
  (** [sklearn.utils.validation.check_array] *)
  check_array : ndarray -> CheckOpts -> Exc ndarray;
  (** [numpy.quantile] on a one-dimensional array *)
  np_quantile : list float -> float -> Exc float;
  (** [sklearn.ensemble.IsolationForest], called with keyword arguments *)
  sk_IsolationForest : Dict -> Exc Estimator;
  (** [importlib.import_module] *)
  import_module : string -> Exc PyModule;
  (** [os.path.exists] *)
  os_path_exists : FileSystem -> string -> bool;
  (** [shutil.make_archive(base_name, "zip", root_dir)], the directory
      [root_dir] given by its content: the outcome and the files after the
      call, which may have changed also when it raises *)
  shutil_make_archive : string -> Tree -> FileSystem -> Exc unit * FileSystem;
  (** [shutil.unpack_archive(filename, extract_dir)] into an empty
      directory: the content of that directory afterwards, or the error *)
  shutil_unpack_archive : FileSystem -> string -> Exc Tree
}.

Abbreviation loc := nat.

Record World := { heap : gmap nat Detector; fs : FileSystem }.

(** ** Strings and paths *)

Fixpoint starts_with (pre s : string) : bool :=
  match pre, s with
  | EmptyString, _ => true
  | String a pre', String b s' => Ascii.eqb a b && starts_with pre' s'
  | String _ _, EmptyString => false
  end.

(** [s.endswith(suf)] *)
Fixpoint ends_with (suf s : string) : bool :=
  if String.eqb s suf then true
  else match s with
       | EmptyString => false
       | String _ s' => ends_with suf s'
       end.

(** [s.rfind(c)], -1 when [c] does not occur; [i] is the index of the head. *)
Fixpoint rfind_from (c : ascii) (s : string) (i : Z) : Z :=
  match s with
  | EmptyString => (-1)%Z
  | String a s' =>
      let j := rfind_from c s' (i + 1)%Z in
      if (0 <=? j)%Z then j else if Ascii.eqb a c then i else (-1)%Z
  end.

Definition rfind (c : ascii) (s : string) : Z := rfind_from c s 0%Z.

(** [(s[:k], s[k:])] *)
Fixpoint split_at (k : nat) (s : string) : string * string :=
  match k, s with
  | O, _ => (EmptyString, s)
  | S _, EmptyString => (EmptyString, EmptyString)
  | S k', String a s' => let (l, r) := split_at k' s' in (String a l, r)
  end.

Fixpoint all_dots (s : string) : bool :=
  match s with
  | EmptyString => true
  | String a s' => Ascii.eqb a "."%char && all_dots s'
  end.

(** [os.path.splitext] (posixpath): split at the last dot of the last path
    component, unless that component has only leading dots before it. *)
Definition os_path_splitext (p : string) : string * string :=
  let sepIndex := rfind "/"%char p in
  let dotIndex := rfind "."%char p in
  if (sepIndex <? dotIndex)%Z then
    let filename_head :=
      fst (split_at (Z.to_nat (dotIndex - (sepIndex + 1)))
                    (snd (split_at (Z.to_nat (sepIndex + 1)) p))) in
    if all_dots filename_head then (p, EmptyString)
    else split_at (Z.to_nat dotIndex) p
  else (p, EmptyString).

(** [os.path.join] of two components. *)
Definition os_path_join (a b : string) : string :=
  if starts_with "/" b then b
  else if String.eqb a EmptyString || ends_with "/" a then a +:+ b
  else a +:+ "/" +:+ b.

(** [", ".join(l)] and the like. *)
Fixpoint join (sep : string) (l : list string) : string :=
  match l with
  | [] => EmptyString
  | [x] => x
  | x :: rest => x +:+ sep +:+ join sep rest
  end.

(** [repr] of a string without quotes or escapes in it, and of a list of
    such strings. *)
Definition py_repr_str (s : string) : string := "'" +:+ s +:+ "'".

Definition py_repr_list (l : list string) : string :=
  "[" +:+ join ", " (map py_repr_str l) +:+ "]".

(** ** omniad/registry.py *)

(** Key: algorithm name; value: module path.  A Python dict keeps insertion
    order, which the error message of [get_detector] shows. *)
Definition _REGISTRY : list (string * string) :=
  [("IsolationForest", "omniad.algos.tabular.iforest")].

Fixpoint registry_get (name : string) (registry : list (string * string))
  : option string :=
  match registry with
  | [] => None
  | (k, v) :: rest => if String.eqb k name then Some v else registry_get name rest
  end.

Definition registry_keys (registry : list (string * string)) : list string :=
  map fst registry.

(** [omniad.__version__] *)
Definition __version__ : string := "0.1.0".

(** ** Heap access *)

Definition dangling {A : Type} : Exc A :=
  inl (mkExn ReferenceError "object does not exist").

Definition get_obj (self : loc) : ST World Detector :=
  fun w =>
    match heap w !! self with
    | Some o => (inr o, w)
    | None => (dangling, w)
    end.

(** Replace [self.__dict__]. *)
Definition set_dict (self : loc) (d : Dict) : ST World unit :=
  fun w =>
    match heap w !! self with
    | Some o =>
        (inr tt,
         {| heap := <[self := {| __class__ := __class__ o; __dict__ := d |}]> (heap w);
            fs := fs w |})
    | None => (dangling, w)
    end.

(** [self.name] *)
Definition getattr (self : loc) (name : string) : ST World PyVal :=
  let* o := get_obj self in
  match __dict__ o !! name with
  | Some v => ret v
  | None => raise AttributeError ("object has no attribute '" +:+ name +:+ "'")
  end.

(** [self.name = v] *)
Definition setattr (self : loc) (name : string) (v : PyVal) : ST World unit :=
  let* o := get_obj self in
  set_dict self (<[name := v]> (__dict__ o)).

(** [self.name = v] inside a constructor. *)
Definition set_item (name : string) (v : PyVal) : ST Dict unit :=
  fun d => (inr tt, <[name := v]> d).

(** A call of the class with keyword arguments: run [__init__] on an empty
    attribute dictionary and allocate the object.  Binding the keywords to
    the parameters of [__init__] is the first step of [cls_init]. *)
Definition construct (c : AdapterClass) (kwargs : Dict) : ST World loc :=
  fun w =>
    match cls_init c kwargs ∅ with
    | (inr _, d) =>
        let l := fresh (dom (heap w)) in
        (inr l,
         {| heap := <[l := {| __class__ := c; __dict__ := d |}]> (heap w);
            fs := fs w |})
    | (inl e, _) => (inl e, w)
    end.

(** ** Inside the temporary directory *)

(** [joblib.load(path)] inside a directory tree. *)
Definition joblib_load (dir : Tree) (path : string) : Exc PyVal :=
  match dir !! path with
  | Some (PickleBlob v) => inr v
  | Some _ => inl (mkExn UnpicklingError path)
  | None => inl (mkExn FileNotFoundError path)
  end.

(** [d.update(other)]: the entries of [other] win. *)
Definition dict_update (d : Dict) (other : PyVal) : Exc Dict :=
  match as_dict other with
  | inr d' => inr (d' ∪ d)
  | inl e => inl e
  end.

(** Binding the keywords of a call of the class to the parameters of
    [__init__]: the new instance is bound to [self] by position, so a
    keyword of that name collides with it.  Every other keyword binds to the
    parameter of its name or is collected by the catch-all parameter. *)
Definition bind_self (qualname : string) (kwargs : Dict) : ST Dict unit :=
  match kwargs !! "self" with
  | Some _ =>
      raise TypeError (qualname +:+ "() got multiple values for argument 'self'")
  | None => ret tt
  end.

Section Model.

Variable L : Libs.

(** ** The file-system calls in the current world *)

Definition path_exists (p : string) : ST World bool :=
  fun w => (inr (os_path_exists L (fs w) p), w).

Definition make_archive (base_name : string) (root_dir : Tree) : ST World unit :=
  fun w =>
    let (r, files) := shutil_make_archive L base_name root_dir (fs w) in
    (r, {| heap := heap w; fs := files |}).

Definition unpack_archive (filename : string) : ST World Tree :=
  fun w => (shutil_unpack_archive L (fs w) filename, w).

(** ** omniad/utils/validation.py *)

Definition _is_pandas_object (X : PyAny) : bool :=
  match X with
  | XPandas _ _ => true
  | _ => false
  end.

Definition _to_numpy (X : PyAny) : Exc ndarray :=
  if _is_pandas_object X then
    match X with
    | XPandas (Some arr) _ => np_asarray L arr
    | XPandas None true => np_asarray L X
    | _ =>
        inl (mkExn DataFormatError
               "Input looks like a pandas object but cannot be converted to numpy.")
    end
  else
    match X with
    | XArray a => inr a
    | _ => np_asarray L X
    end.

(** The callers in the repository pass no extra keyword arguments, so the
    renaming of [force_all_finite] never applies and both version branches
    make the same call. *)
Definition common_args : CheckOpts :=
  {| accept_sparse := false; ensure_2d := true; dtype := None |}.

Definition _check_array_compat (X : ndarray) : Exc ndarray :=
  check_array L X common_args.

Definition validate_input (X : PyAny) : Exc ndarray :=
  match _to_numpy X with
  | inl e =>
      inl (mkExn DataFormatError
             ("Failed to convert input to numpy array: " +:+ exn_msg e))
  | inr X_arr =>
      let X_arr := if Nat.eqb (ndim X_arr) 1 then reshape_column X_arr else X_arr in
      match _check_array_compat X_arr with
      | inl e =>
          if ExnType_eqb (exn_type e) ValueError
          then inl (mkExn DataFormatError ("Input validation failed: " +:+ exn_msg e))
          else inl e
      | inr X_arr => inr X_arr
      end
  end.

(** ** omniad/core/base.py: constructor, seed hook and backend property *)

Definition BaseDetector__init__ (contamination : PyVal) (kwargs : Dict)
  : ST Dict unit :=
  set_item "contamination" contamination >>
  set_item "_backend_model" VNone >>
  set_item "threshold_" VNone >>
  set_item "_is_fitted" (VBool false).

Definition _set_seed (self : loc) : ST World unit := ret tt.

Definition backend_model (self : loc) : ST World PyVal :=
  let* m := getattr self "_backend_model" in
  if is_None m
  then raise ModelNotFittedError "The backend model is not initialized or fitted."
  else ret m.

(** ** omniad/core/adapters/sklearn_adapter.py *)

Definition BaseSklearnAdapter__init__ (contamination : PyVal) (kwargs : Dict)
  : ST Dict unit :=
  BaseDetector__init__ contamination kwargs >>
  set_item "backend_options" (default (VDict ∅) (kwargs !! "backend_options")) >>
  set_item "kwargs" (VDict kwargs).

(** The loop over [self._param_mapping.items()]: [hasattr] and [getattr]
    read the instance attributes. *)
Fixpoint apply_param_mapping (mapping : list (string * string)) (attrs : Dict)
  (init_params : Dict) : Dict :=
  match mapping with
  | [] => init_params
  | (local_name, backend_name) :: rest =>
      apply_param_mapping rest attrs
        match attrs !! local_name with
        | Some value => <[backend_name := value]> init_params
        | None => init_params
        end
  end.

(** The constructor arguments [_fit_backend] assembles from [self.kwargs],
    the mapped attributes and [self.backend_options]. *)
Definition init_params_of (mapping : list (string * string)) (attrs : Dict)
  (kwargs : Dict) (backend_options : PyVal) : Exc Dict :=
  let init_params := kwargs in
  let init_params := delete "backend_options" init_params in
  let init_params := apply_param_mapping mapping attrs init_params in
  dict_update init_params backend_options.

Definition _fit_backend (self : loc) (X : PyAny) (y : option PyAny)
  : ST World unit :=
  let* X_valid := lift (validate_input X) in
  let* o := get_obj self in
  match _backend_cls (__class__ o) with
  | None =>
      raise ConfigError
        ("Adapter " +:+ cls_name (__class__ o) +:+ " must define '_backend_cls'.")
  | Some backend_cls =>
      let* kwargs := getattr self "kwargs" in
      let* kwargs := lift (as_dict kwargs) in
      let* backend_options := getattr self "backend_options" in
      let* init_params :=
        lift (init_params_of (_param_mapping (__class__ o)) (__dict__ o)
                kwargs backend_options) in
      let* model := lift (backend_cls init_params) in
      setattr self "_backend_model" (VObj model) >>
      let (r, model') := estimator_fit model X_valid y in
      setattr self "_backend_model" (VObj model') >>
      lift r
  end.

(** [self.backend_model] is read for each [hasattr] and each call; nothing
    assigns [_backend_model] in between, so one read stands for them. *)
Definition predict_score (self : loc) (X : PyAny) : ST World (list float) :=
  let* X_valid := lift (validate_input X) in
  let* m := backend_model self in
  let* scores :=
    match score_samples_of m with
    | Some score_samples => lift (score_samples X_valid)
    | None =>
        match decision_function_of m with
        | Some decision_function => lift (decision_function X_valid)
        | None =>
            raise ConfigError
              ("Backend " +:+ type_repr m +:+
               " has neither 'score_samples' nor 'decision_function'.")
        end
    end in
  let* o := get_obj self in
  ret (if _invert_score (__class__ o) then map PrimFloat.opp scores else scores).

Definition _save_backend (self : loc) (path : string) (tmp_dir : Tree)
  : ST World Tree :=
  let model_path := os_path_join path "model.joblib" in
  let* m := backend_model self in
  ret (<[model_path := PickleBlob m]> tmp_dir).

Definition _load_backend (self : loc) (path : string) (tmp_dir : Tree)
  : ST World unit :=
  let model_path := os_path_join path "model.joblib" in
  if negb (bool_decide (is_Some (tmp_dir !! model_path)))
  then raise FileNotFoundError ("Backend model not found at " +:+ model_path)
  else
    let* m := lift (joblib_load tmp_dir model_path) in
    setattr self "_backend_model" m.

(** ** omniad/core/base.py: fit, predict, save, load *)

Definition fit (self : loc) (X : PyAny) (y : option PyAny) : ST World loc :=
  _set_seed self >>
  _fit_backend self X y >>
  let* train_scores := predict_score self X in
  let* contamination := getattr self "contamination" in
  let* q := lift (one_minus contamination) in
  let* threshold := lift (np_quantile L train_scores q) in
  setattr self "threshold_" (VFloat threshold) >>
  setattr self "_is_fitted" (VBool true) >>
  ret self.

(** [(scores > current_threshold).astype(np.int_)] *)
Definition binarize (t : float) (scores : list float) : list Z :=
  map (fun s => if PrimFloat.ltb t s then 1%Z else 0%Z) scores.

Definition predict (self : loc) (X : PyAny) (threshold : PyVal)
  : ST World (list Z) :=
  let* fitted := getattr self "_is_fitted" in
  if negb (truthy fitted)
  then raise ModelNotFittedError "Model is not fitted. Call fit() first."
  else
    let* scores := predict_score self X in
    let* current_threshold :=
      if negb (is_None threshold) then ret threshold
      else getattr self "threshold_" in
    if is_None current_threshold
    then raise ValueError "Threshold not fitted. Run fit() or pass explicit threshold."
    else
      let* t := lift (as_float current_threshold) in
      ret (binarize t scores).

(** The metadata and attribute values are taken to be serialisable, as the
    annotated types of [contamination] and [threshold_] make them. *)
Definition save (self : loc) (filepath : string) : ST World unit :=
  let base_name := fst (os_path_splitext filepath) in
  let tmp_dir : Tree := ∅ in
  let* o := get_obj self in
  let* contamination := getattr self "contamination" in
  let* threshold := getattr self "threshold_" in
  let meta : Dict :=
    <["class_name" := VStr (cls_name (__class__ o))]>
      (<["contamination" := contamination]>
         (<["threshold" := threshold]>
            (<["version" := VStr __version__]> ∅))) in
  let tmp_dir := <[os_path_join EmptyString "metadata.json" := JsonBlob (VDict meta)]> tmp_dir in
  let backend_path := os_path_join EmptyString "backend" in
  let tmp_dir := <[backend_path := DirNode]> tmp_dir in
  let* tmp_dir := _save_backend self backend_path tmp_dir in
  let* o := get_obj self in
  let state := __dict__ o in
  let state := delete "_backend_model" state in
  let tmp_dir :=
    <[os_path_join EmptyString "attributes.pkl" := PickleBlob (VDict state)]> tmp_dir in
  make_archive base_name tmp_dir.

Definition load (self : loc) (filepath : string) : ST World loc :=
  let* here := path_exists filepath in
  let* with_zip := path_exists (filepath +:+ ".zip") in
  let filepath := if negb here && with_zip then filepath +:+ ".zip" else filepath in
  let* tmp_dir := unpack_archive filepath in
  let* attributes := lift (joblib_load tmp_dir (os_path_join EmptyString "attributes.pkl")) in
  let* o := get_obj self in
  let* updated := lift (dict_update (__dict__ o) attributes) in
  set_dict self updated >>
  let backend_path := os_path_join EmptyString "backend" in
  _load_backend self backend_path tmp_dir >>
  setattr self "_is_fitted" (VBool true) >>
  ret self.

(** ** omniad/algos/tabular/iforest.py *)

(** Binding of a keyword to a parameter with a default. *)
Definition pop_arg (name : string) (dflt : PyVal) (kwargs : Dict) : PyVal * Dict :=
  (default dflt (kwargs !! name), delete name kwargs).

Definition IsolationForestAdapter__init__ (n_estimators contamination n_jobs
  random_state : PyVal) (kwargs : Dict) : ST Dict unit :=
  set_item "n_estimators" n_estimators >>
  set_item "n_jobs" n_jobs >>
  set_item "random_state" random_state >>
  BaseSklearnAdapter__init__ contamination
    (<["n_estimators" := n_estimators]>
       (<["n_jobs" := n_jobs]>
          (<["random_state" := random_state]> kwargs))).

Definition IsolationForestAdapter : AdapterClass :=
  {| cls_name := "IsolationForestAdapter";
     cls_init := fun kwargs =>
       bind_self "IsolationForestAdapter.__init__" kwargs >>
       let (n_estimators, kwargs) := pop_arg "n_estimators" (VInt 100) kwargs in
       let (contamination, kwargs) := pop_arg "contamination" (VFloat 0.1) kwargs in
       let (n_jobs, kwargs) := pop_arg "n_jobs" (VInt (-1)) kwargs in
       let (random_state, kwargs) := pop_arg "random_state" VNone kwargs in
       IsolationForestAdapter__init__ n_estimators contamination n_jobs
         random_state kwargs;
     _backend_cls := Some (sk_IsolationForest L);
     _param_mapping := [];
     _invert_score := true |}.

(** ** omniad/__init__.py *)

Definition get_detector_in (registry : list (string * string)) (name : string)
  (kwargs : Dict) : ST World loc :=
  match registry_get name registry with
  | None =>
      let available := registry_keys registry in
      raise ConfigError
        ("Unknown algorithm: '" +:+ name +:+ "'. Available algorithms: " +:+
         py_repr_list available)
  | Some module_path =>
      match import_module L module_path with
      | inl e =>
          if ExnType_eqb (exn_type e) ImportError
          then raise ImportError
                 ("Failed to import module '" +:+ module_path +:+
                  "' for algorithm '" +:+ name +:+
                  "'. Ensure all dependencies are installed. Error: " +:+ exn_msg e)
          else lift (inl e)
      | inr module =>
          let class_name := name +:+ "Adapter" in
          match module !! class_name with
          | None =>
              raise AttributeError
                ("Module '" +:+ module_path +:+ "' does not have class '" +:+
                 class_name +:+ "'. Check naming conventions.")
          | Some model_class => construct model_class kwargs
          end
      end
  end.

Definition get_detector (name : string) (kwargs : Dict) : ST World loc :=
  get_detector_in _REGISTRY name kwargs.

End Model.

(** ** An executable environment

    A small instance of [Libs] on which the model can be run: arrays are
    built from nested lists, [check_array] enforces two dimensions, at least
    one sample and finite entries, the quantile is the inverted empirical
    distribution function, the backend scores a sample by the sum of its
    features, and the file system is one directory of regular files, each
    reached by the name it is kept under.  The theorems below hold for every
    instance of [Libs]; this one runs the concrete scenarios. *)

Fixpoint all_nums (items : list PyAny) : option (list float) :=
  match items with
  | [] => Some []
  | XNum x :: rest =>
      match all_nums rest with
      | Some xs => Some (x :: xs)
      | None => None
      end
  | _ :: _ => None
  end.

Fixpoint all_rows (width : nat) (items : list PyAny) : option (list float) :=
  match items with
  | [] => Some []
  | XList row :: rest =>
      match all_nums row, all_rows width rest with
      | Some xs, Some ys =>
          if Nat.eqb (List.length xs) width then Some (app xs ys) else None
      | _, _ => None
      end
  | _ :: _ => None
  end.

Definition env_asarray (X : PyAny) : Exc ndarray :=
  match X with
  | XArray a => inr a
  | XNum x => inr {| shape := []; data := [x] |}
  | XList items =>
      match all_nums items with
      | Some xs => inr {| shape := [List.length xs]; data := xs |}
      | None =>
          match items with
          | XList row :: _ =>
              match all_rows (List.length row) items with
              | Some xs =>
                  inr {| shape := [List.length items; List.length row]; data := xs |}
              | None => inl (mkExn ValueError "inhomogeneous shape")
              end
          | _ => inl (mkExn ValueError "inhomogeneous shape")
          end
      end
  | XStr _ => inr {| shape := []; data := [] |}
  | XPandas _ _ => inl (mkExn TypeError "cannot convert")
  end.

Definition env_check_array (a : ndarray) (opts : CheckOpts) : Exc ndarray :=
  if negb (Nat.eqb (ndim a) 2)
  then inl (mkExn ValueError "Expected 2D array")
  else if Nat.eqb (n_samples a) 0
  then inl (mkExn ValueError "Found array with 0 sample(s)")
  else if forallb PrimFloat.is_finite (data a) then inr a
  else inl (mkExn ValueError "Input contains NaN or infinity").

Definition count_le (x : float) (scores : list float) : nat :=
  List.length (filter (fun s => PrimFloat.leb s x) scores).

Definition float_of_nat (n : nat) : float := Z_to_float (Z.of_nat n).

(** The smallest score [x] with [count_le x scores >= q * n]. *)
Definition env_quantile (scores : list float) (q : float) : Exc float :=
  if negb (PrimFloat.leb 0 q && PrimFloat.leb q 1)
  then inl (mkExn ValueError "Quantiles must be in the range [0, 1]")
  else
    let n := float_of_nat (List.length scores) in
    let reached x := PrimFloat.leb (PrimFloat.mul q n) (float_of_nat (count_le x scores)) in
    match filter reached scores with
    | [] => inl (mkExn ValueError "cannot take a quantile of an empty array")
    | x :: xs => inr (fold_right (fun a b => if PrimFloat.ltb a b then a else b) x xs)
    end.

Fixpoint row_sums (n width : nat) (d : list float) : list float :=
  match n with
  | O => []
  | S n' => fold_right PrimFloat.add 0%float (take width d) :: row_sums n' width (drop width d)
  end.

(** A backend in the shape of an outlier detector: [fit] records the number
    of features, and a sample scores the negated sum of its features, so
    that lower is more abnormal; scoring data of another width raises
    [ValueError]. *)
Definition sum_score (st : option nat) (X : ndarray) : Exc (list float) :=
  let width := nth 1 (shape X) 0 in
  match st with
  | None => inl (mkExn ValueError "This estimator is not fitted yet.")
  | Some n_features =>
      if Nat.eqb width n_features
      then inr (map PrimFloat.opp (row_sums (n_samples X) width (data X)))
      else inl (mkExn ValueError "X has a different number of features")
  end.

Definition sum_fit (st : option nat) (X : ndarray) (y : option PyAny)
  : Exc unit * option nat :=
  (inr tt, Some (nth 1 (shape X) 0)).

Definition SumForest : EstimatorClass :=
  {| est_type := "SumForest";
     est_state := option nat;
     est_fit := sum_fit;
     est_score_samples := Some sum_score;
     est_decision_function := Some sum_score |}.

(** A backend whose only scoring method is [decision_function]: the sum of
    the features, not negated. *)
Definition margin_score (st : option nat) (X : ndarray) : Exc (list float) :=
  match sum_score st X with
  | inr scores => inr (map PrimFloat.opp scores)
  | inl e => inl e
  end.

Definition MarginModel : EstimatorClass :=
  {| est_type := "MarginModel";
     est_state := option nat;
     est_fit := sum_fit;
     est_score_samples := None;
     est_decision_function := Some margin_score |}.

(** A backend that can be fitted but offers neither scoring method. *)
Definition Clusterer : EstimatorClass :=
  {| est_type := "Clusterer";
     est_state := option nat;
     est_fit := sum_fit;
     est_score_samples := None;
     est_decision_function := None |}.

Definition new_estimator (c : EstimatorClass) (st : est_state c) (params : Dict)
  : Exc Estimator :=
  inr {| est_class := c; est_self := st |}.

Definition env_modules (iforest : AdapterClass) (module_path : string)
  : Exc PyModule :=
  if String.eqb module_path "omniad.algos.tabular.iforest"
  then inr {["IsolationForestAdapter" := iforest]}
  else inl (mkExn ImportError ("No module named '" +:+ module_path +:+ "'")).

(** The files of one directory. *)
Definition env_path_exists (files : FileSystem) (p : string) : bool :=
  bool_decide (is_Some (files !! p)).

Definition env_make_archive (base_name : string) (root_dir : Tree)
  (files : FileSystem) : Exc unit * FileSystem :=
  (inr tt, <[base_name +:+ ".zip" := ZipFile root_dir]> files).

(** The unpacker is found from the end of the file name. *)
Definition tar_extensions : list string :=
  [".tar.bz2"; ".tbz2"; ".tar.gz"; ".tgz"; ".tar"; ".tar.xz"; ".txz"].

Definition env_unpack_archive (files : FileSystem) (filename : string) : Exc Tree :=
  if existsb (fun ext => ends_with ext filename) tar_extensions then
    match files !! filename with
    | Some (TarFile members) => inr members
    | Some _ =>
        inl (mkExn ReadError
               (filename +:+ " is not a compressed or uncompressed tar file"))
    | None =>
        inl (mkExn FileNotFoundError
               ("[Errno 2] No such file or directory: '" +:+ filename +:+ "'"))
    end
  else if ends_with ".zip" filename then
    match files !! filename with
    | Some (ZipFile members) => inr members
    | _ => inl (mkExn ReadError (filename +:+ " is not a zip file"))
    end
  else inl (mkExn ReadError ("Unknown archive format '" +:+ filename +:+ "'")).

(** The environment without its import system, which needs the classes
    defined over it. *)
Definition env0 : Libs :=
  {| np_asarray := env_asarray;
     check_array := env_check_array;
     np_quantile := env_quantile;
     sk_IsolationForest := new_estimator SumForest None;
     import_module := fun module_path =>
       inl (mkExn ImportError ("No module named '" +:+ module_path +:+ "'"));
     os_path_exists := env_path_exists;
     shutil_make_archive := env_make_archive;
     shutil_unpack_archive := env_unpack_archive |}.

Definition env : Libs :=
  {| np_asarray := env_asarray;
     check_array := env_check_array;
     np_quantile := env_quantile;
     sk_IsolationForest := new_estimator SumForest None;
     import_module := env_modules (IsolationForestAdapter env0);
     os_path_exists := env_path_exists;
     shutil_make_archive := env_make_archive;
     shutil_unpack_archive := env_unpack_archive |}.

(** An adapter over a backend class, written as a subclass of
    [BaseSklearnAdapter] that adds nothing to its constructor. *)
Definition sklearn_adapter (name : string) (backend : EstimatorClass)
  (st : est_state backend) (mapping : list (string * string)) : AdapterClass :=
  {| cls_name := name;
     cls_init := fun kwargs =>
       bind_self "BaseSklearnAdapter.__init__" kwargs >>
       let (contamination, kwargs) := pop_arg "contamination" (VFloat 0.1) kwargs in
       BaseSklearnAdapter__init__ contamination kwargs;
     _backend_cls := Some (new_estimator backend st);
     _param_mapping := mapping;
     _invert_score := true |}.

Definition empty_world : World := {| heap := ∅; fs := ∅ |}.

(** Four samples with two features each. *)
Definition X_train : PyAny :=
  XList [XList [XNum 1; XNum 2]; XList [XNum 0; XNum 1];
         XList [XNum 2; XNum 2]; XList [XNum 9; XNum 9]].

Definition X_test : PyAny :=
  XList [XList [XNum 1; XNum 1]; XList [XNum 8; XNum 9]; XList [XNum 2; XNum 2]].


(** A backend that records the [n_estimators] it was constructed with, and
    an adapter over it that calls the parameter [n_trees] and maps it to the
    backend's name. *)
Definition TreeProbe : EstimatorClass :=
  {| est_type := "TreeProbe";
     est_state := option Z;
     est_fit := fun st _ _ => (inr tt, st);
     est_score_samples := None;
     est_decision_function := None |}.

Definition new_tree_probe (params : Dict) : Exc Estimator :=
  inr {| est_class := TreeProbe;
         est_self := match params !! "n_estimators" with
                     | Some (VInt z) => Some z
                     | _ => None
                     end |}.

Definition TreeAdapter : AdapterClass :=
  {| cls_name := "TreeAdapter";
     cls_init := fun kwargs =>
       bind_self "TreeAdapter.__init__" kwargs >>
       let (n_trees, kwargs) := pop_arg "n_trees" (VInt 100) kwargs in
       let (contamination, kwargs) := pop_arg "contamination" (VFloat 0.1) kwargs in
       set_item "n_trees" n_trees >>
       BaseSklearnAdapter__init__ contamination kwargs;
     _backend_cls := Some new_tree_probe;
     _param_mapping := [("n_trees", "n_estimators")];
     _invert_score := true |}.

(** [TreeAdapter(n_trees=10, n_estimators=50)] in an empty world. *)
Definition tree_kwargs : Dict :=
  <["n_trees" := VInt 10]> (<["n_estimators" := VInt 50]> ∅).

Definition tree_world : World :=
  snd (construct TreeAdapter tree_kwargs empty_world).

(** ** Scenarios in the executable environment *)

(** The registered algorithm: detector 0 is resolved, fitted, and a second
    detector 1 is resolved next to it. *)
Definition w_new : World :=
  snd (get_detector env "IsolationForest" ∅ empty_world).

Definition w_fit : World := snd (fit env 0 X_train None w_new).

Definition w_pair : World :=
  snd (get_detector env "IsolationForest" ∅ w_fit).

(** Detector 0 saved under a name with another extension. *)
Definition w_pkl : World := snd (save env 0 "model.pkl" w_pair).

(** Detector 0 saved as [model.zip], and the archive with its backend model
    file removed. *)
Definition w_zip : World := snd (save env 0 "model.zip" w_pair).

Definition without_member (member : string) (f : File) : File :=
  match f with
  | ZipFile members => ZipFile (delete member members)
  | TarFile members => TarFile (delete member members)
  | PlainFile => PlainFile
  end.

Definition w_stripped : World :=
  {| heap := heap w_zip;
     fs := without_member "backend/model.joblib" <$> fs w_zip |}.

(** An archive holding an empty attributes part and no backend model. *)
Definition bare_archive : File :=
  ZipFile {["attributes.pkl" := PickleBlob (VDict ∅)]}.

Definition w_bare : World :=
  {| heap := heap w_pair; fs := <["bare.zip" := bare_archive]> (fs w_pair) |}.

(** An adapter over the backend without scoring methods: detector 0 is
    constructed, [fit] is attempted, the detector is saved, and detector 1
    is constructed and loaded from the archive. *)
Definition ClusterAdapter : AdapterClass :=
  sklearn_adapter "ClusterAdapter" Clusterer None [].

Definition c_new : World := snd (construct ClusterAdapter ∅ empty_world).

Definition c_fit : World := snd (fit env 0 X_train None c_new).

Definition c_saved : World := snd (save env 0 "cluster.zip" c_fit).

Definition c_pair : World := snd (construct ClusterAdapter ∅ c_saved).

Definition c_loaded : World := snd (load env 1 "cluster.zip" c_pair).

(** One sample with three features, for a backend fitted on two. *)
Definition X_wide : PyAny := XList [XList [XNum 1; XNum 2; XNum 3]].

(** The object at a location; the default is never met below. *)
Definition obj_at (w : World) (l : loc) : Detector :=
  default {| __class__ := ClusterAdapter; __dict__ := ∅ |} (heap w !! l).

(** The validated test input and the backend model fitted on [X_train]. *)
Definition X_test_valid : ndarray :=
  {| shape := [3; 2]; data := [1; 1; 8; 9; 2; 2]%float |}.

Definition fitted_forest : PyVal :=
  VObj {| est_class := SumForest; est_self := Some 2 |}.

(** An adapter that leaves [_backend_cls] at the [None] of
    [BaseSklearnAdapter], and a detector of it. *)
Definition BareAdapter : AdapterClass :=
  {| cls_name := "BareAdapter";
     cls_init := fun kwargs =>
       bind_self "BaseSklearnAdapter.__init__" kwargs >>
       let (contamination, kwargs) := pop_arg "contamination" (VFloat 0.1) kwargs in
       BaseSklearnAdapter__init__ contamination kwargs;
     _backend_cls := None;
     _param_mapping := [];
     _invert_score := true |}.

Definition b_new : World := snd (construct BareAdapter ∅ empty_world).

(** [IsolationForestAdapter(n_estimators=50, max_samples=256,
    backend_options={'n_jobs': 2})] *)
Definition forest_options : Dict := {["n_jobs" := VInt 2]}.

Definition forest_kwargs : Dict :=
  <["n_estimators" := VInt 50]>
    (<["max_samples" := VInt 256]>
       (<["backend_options" := VDict forest_options]> ∅)).

Definition forest_dict : Dict :=
  snd (cls_init (IsolationForestAdapter env0) forest_kwargs ∅).

(** The validated training input. *)
Definition X_train_valid : ndarray :=
  {| shape := [4; 2]; data := [1; 2; 0; 1; 2; 2; 9; 9]%float |}.

(** The members of the archive [model.zip] of the first scenario, and
    detector 1 loaded from it. *)
Definition model_archive : Tree :=
  match fs w_zip !! "model.zip" with
  | Some (ZipFile members) => members
  | _ => ∅
  end.

Definition w_loaded : World := snd (load env 1 "model.zip" w_zip).

(** A registry naming a module that is not installed. *)
Definition registry_kmeans : list (string * string) :=
  [("KMeans", "omniad.algos.tabular.kmeans")].

(** The error [get_detector] raises for it. *)
Definition kmeans_error : Exn :=
  mkExn ImportError
    "Failed to import module 'omniad.algos.tabular.kmeans' for algorithm 'KMeans'. Ensure all dependencies are installed. Error: No module named 'omniad.algos.tabular.kmeans'".

(** Three samples given as a flat list, and what [validate_input] makes of
    them. *)
Definition X_flat : PyAny := XList [XNum 1; XNum 2; XNum 3].

Definition X_flat_valid : ndarray :=
  {| shape := [3; 1]; data := [1; 2; 3]%float |}.

(** An adapter over the backend that has [decision_function] only, and a
    fitted detector of it. *)
Definition MarginAdapter : AdapterClass :=
  sklearn_adapter "MarginAdapter" MarginModel None [].

Definition m_fit : World :=
  snd (fit env 0 X_train None (snd (construct MarginAdapter ∅ empty_world))).

Definition fitted_margin : Estimator :=
  {| est_class := MarginModel; est_self := Some 2 |}.

(** The backend object of the first scenario. *)
Definition forest_model : Estimator :=
  {| est_class := SumForest; est_self := Some 2 |}.





(** * Vocabulary of the properties *)

(** The world after [self.__dict__] is replaced by [d]. *)
Definition with_dict (w : World) (self : loc) (o : Detector) (d : Dict) : World :=
  {| heap := <[self := {| __class__ := __class__ o; __dict__ := d |}]> (heap w);
     fs := fs w |}.

(** The result of [predict_score] on an object, read off a one-object heap. *)
Definition scores_of (L : Libs) (o : Detector) (X : PyAny) : Exc (list float) :=
  fst (predict_score L 0 X {| heap := {[0 := o]}; fs := ∅ |}).

(** The fitted flag as [predict] tests it: the truth value of [_is_fitted]. *)
Definition fitted_flag (d : Dict) : bool :=
  match d !! "_is_fitted" with
  | Some v => truthy v
  | None => false
  end.

(** An attribute that is set and is not [None]. *)
Definition non_null (d : Dict) (name : string) : bool :=
  match d !! name with
  | Some v => negb (is_None v)
  | None => false
  end.

(** The threshold [t] is available to [predict]: passed as a float, or
    fitted while the argument is [None]. *)
Definition available_threshold (threshold : PyVal) (d : Dict) (t : float) : Prop :=
  threshold = VFloat t \/ (threshold = VNone /\ d !! "threshold_" = Some (VFloat t)).

(** A string occurs inside another one. *)
Definition occurs_in (part whole : string) : Prop :=
  exists pre post, whole = pre +:+ part +:+ post.

(** Reading the heap: the attribute dictionary of an object, one attribute,
    and the keyword arguments the object keeps. *)
Definition dict_at (w : World) (l : loc) : Dict :=
  match heap w !! l with
  | Some o => __dict__ o
  | None => ∅
  end.

Definition attr (w : World) (l : loc) (name : string) : option PyVal :=
  dict_at w l !! name.

Definition kwargs_at (w : World) (l : loc) : Dict :=
  match attr w l "kwargs" with
  | Some (VDict kwargs) => kwargs
  | _ => ∅
  end.

(** The path [load] opens: [filepath], or [filepath + ".zip"] when only the
    latter exists. *)
Definition load_path (L : Libs) (filepath : string) (files : FileSystem) : string :=
  if negb (os_path_exists L files filepath)
     && os_path_exists L files (filepath +:+ ".zip")
  then filepath +:+ ".zip" else filepath.

(** The directory tree [save] packs for an object with backend model [m]. *)
Definition saved_tree (o : Detector) (m cv tv : PyVal) : Tree :=
  <["attributes.pkl" := PickleBlob (VDict (delete "_backend_model" (__dict__ o)))]>
    (<["backend/model.joblib" := PickleBlob m]>
       (<["backend" := DirNode]>
          (<["metadata.json" :=
               JsonBlob (VDict
                 (<["class_name" := VStr (cls_name (__class__ o))]>
                    (<["contamination" := cv]>
                       (<["threshold" := tv]>
                          (<["version" := VStr __version__]> ∅)))))]> ∅))).

(** The attribute dictionary after a [load] that restored the attributes
    [attrs] and the backend model [m]. *)
Definition loaded_dict (d attrs : Dict) (m : PyVal) : Dict :=
  <["_is_fitted" := VBool true]> (<["_backend_model" := m]> (attrs ∪ d)).

(** A path on which [load] opens the archive [save] wrote: its extension is
    [.zip], or it has no extension and nothing exists at it among [files],
    the files once the archive is written. *)
Definition round_trip_path (L : Libs) (filepath : string) (files : FileSystem)
  : Prop :=
  snd (os_path_splitext filepath) = ".zip" \/
  (snd (os_path_splitext filepath) = EmptyString /\
   os_path_exists L files filepath = false).

(** [numpy.testing.assert_allclose(actual, desired, rtol)]: equal entries
    (equal infinities and NaNs included) or entries within the relative
    tolerance, position by position. *)
Definition isclose (rtol actual desired : float) : Prop :=
  actual = desired \/
  PrimFloat.leb (PrimFloat.abs (PrimFloat.sub actual desired))
                (PrimFloat.mul rtol (PrimFloat.abs desired)) = true.

Definition allclose (rtol : float) (actual desired : list float) : Prop :=
  Forall2 (isclose rtol) actual desired.




(** A class whose constructor leaves the state [BaseDetector.__init__]
    sets. *)
Definition initialises (c : AdapterClass) : Prop :=
  forall kwargs u d, cls_init c kwargs ∅ = (inr u, d) ->
    d !! "_is_fitted" = Some (VBool false) /\
    d !! "threshold_" = Some VNone /\
    d !! "_backend_model" = Some VNone.



(** The value the mapping loop of [_fit_backend] leaves under the backend
    name [k]: that of the last entry of the mapping that targets [k] and
    whose attribute exists. *)
Fixpoint mapped_value (mapping : list (string * string)) (attrs : Dict)
  (k : string) : option PyVal :=
  match mapping with
  | [] => None
  | (local_name, backend_name) :: rest =>
      match mapped_value rest attrs k with
      | Some v => Some v
      | None => if String.eqb backend_name k then attrs !! local_name else None
      end
  end.

(** The keyword arguments [IsolationForestAdapter.__init__] hands to its
    base class. *)
Definition iforest_kwargs (kwargs : Dict) : Dict :=
  <["n_estimators" := default (VInt 100) (kwargs !! "n_estimators")]>
    (<["n_jobs" := default (VInt (-1)) (kwargs !! "n_jobs")]>
       (<["random_state" := default VNone (kwargs !! "random_state")]>
          (delete "random_state"
             (delete "n_jobs"
                (delete "contamination"
                   (delete "n_estimators" kwargs)))))).

(** The names of the archive members [save] writes. *)
Definition archive_members : gset string :=
  {["metadata.json"; "backend"; "backend/model.joblib"; "attributes.pkl"]}.

(** The part of [load] that follows the unpacking: restore the attributes
    from the unpacked tree, then the backend, then set the fitted flag. *)
Definition restore (self : loc) (tmp_dir : Tree) : ST World loc :=
  (let* attributes := lift (joblib_load tmp_dir "attributes.pkl") in
   let* o := get_obj self in
   let* updated := lift (dict_update (__dict__ o) attributes) in
   set_dict self updated >>
   _load_backend self "backend" tmp_dir >>
   setattr self "_is_fitted" (VBool true) >>
   ret self)%st.

(** A computation that neither reads nor writes the files: run on the same
    heap with other files, it gives the same result and the same heap, and
    leaves those files as they are. *)
Definition heap_only {A : Type} (m : ST World A) : Prop :=
  forall w F,
    m {| heap := heap w; fs := F |}
    = (fst (m w), {| heap := heap (snd (m w)); fs := F |}).

(** The result of [predict] on an object, read off a one-object heap. *)
Definition labels_of (L : Libs) (o : Detector) (X : PyAny) (threshold : PyVal)
  : Exc (list Z) :=
  fst (predict L 0 X threshold {| heap := {[0 := o]}; fs := ∅ |}).


(** The part of [fit] that follows [_fit_backend]: score the training
    input, set the threshold and the fitted flag, return the detector. *)
Definition set_threshold (L : Libs) (self : loc) (X : PyAny) : ST World loc :=
  (let* train_scores := predict_score L self X in
   let* contamination := getattr self "contamination" in
   let* q := lift (one_minus contamination) in
   let* threshold := lift (np_quantile L train_scores q) in
   setattr self "threshold_" (VFloat threshold) >>
   setattr self "_is_fitted" (VBool true) >>
   ret self)%st.

(** The part of [save] that precedes the packing: the directory tree
    written to the temporary directory. *)
Definition staged_tree (self : loc) : ST World Tree :=
  (let tmp_dir : Tree := ∅ in
   let* o := get_obj self in
   let* contamination := getattr self "contamination" in
   let* threshold := getattr self "threshold_" in
   let meta : Dict :=
     <["class_name" := VStr (cls_name (__class__ o))]>
       (<["contamination" := contamination]>
          (<["threshold" := threshold]>
             (<["version" := VStr __version__]> ∅))) in
   let tmp_dir := <["metadata.json" := JsonBlob (VDict meta)]> tmp_dir in
   let tmp_dir := <["backend" := DirNode]> tmp_dir in
   let* tmp_dir := _save_backend self "backend" tmp_dir in
   let* o := get_obj self in
   let state := delete "_backend_model" (__dict__ o) in
   ret (<["attributes.pkl" := PickleBlob (VDict state)]> tmp_dir))%st.
(** * Properties *)

(** ** Running the primitives *)

Lemma get_obj_eq (w : World) (self : loc) (o : Detector) :
  heap w !! self = Some o -> get_obj self w = (inr o, w).
Proof. intros H. unfold get_obj. now rewrite H. Qed.

Lemma getattr_eq (w : World) (self : loc) (o : Detector) (name : string) :
  heap w !! self = Some o ->
  getattr self name w =
  (match __dict__ o !! name with
   | Some v => inr v
   | None => inl (mkExn AttributeError ("object has no attribute '" +:+ name +:+ "'"))
   end, w).
Proof.
  intros H. unfold getattr, bind. rewrite (get_obj_eq _ _ _ H).
  destruct (__dict__ o !! name); reflexivity.
Qed.

Lemma set_dict_eq (w : World) (self : loc) (o : Detector) (d : Dict) :
  heap w !! self = Some o -> set_dict self d w = (inr tt, with_dict w self o d).
Proof. intros H. unfold set_dict. now rewrite H. Qed.

Lemma setattr_eq (w : World) (self : loc) (o : Detector) (name : string) (v : PyVal) :
  heap w !! self = Some o ->
  setattr self name v w = (inr tt, with_dict w self o (<[name := v]> (__dict__ o))).
Proof.
  intros H. unfold setattr, bind. rewrite (get_obj_eq _ _ _ H).
  now apply set_dict_eq.
Qed.

Lemma with_dict_lookup (w : World) (self : loc) (o : Detector) (d : Dict) :
  heap (with_dict w self o d) !! self
  = Some {| __class__ := __class__ o; __dict__ := d |}.
Proof. unfold with_dict. simpl. apply lookup_insert_eq. Qed.

Lemma with_dict_fs (w : World) (self : loc) (o : Detector) (d : Dict) :
  fs (with_dict w self o d) = fs w.
Proof. reflexivity. Qed.

Lemma with_dict_twice (w : World) (self : loc) (o o' : Detector) (d d' : Dict) :
  __class__ o' = __class__ o ->
  with_dict (with_dict w self o d) self o' d' = with_dict w self o d'.
Proof. intros E. unfold with_dict. simpl. now rewrite insert_insert_eq, E. Qed.

Lemma with_dict_other (w : World) (self l : loc) (o : Detector) (d : Dict) :
  l <> self -> heap (with_dict w self o d) !! l = heap w !! l.
Proof. intros N. unfold with_dict. simpl. now apply lookup_insert_ne. Qed.

Section Properties.

Variable L : Libs.

Lemma backend_model_eq (w : World) (self : loc) (o : Detector) :
  heap w !! self = Some o ->
  exists r, backend_model self w = (r, w) /\
    forall w' self', heap w' !! self' = Some o -> backend_model self' w' = (r, w').
Proof.
  intros H. unfold backend_model, bind.
  destruct (__dict__ o !! "_backend_model") as [m|] eqn:E.
  - destruct (is_None m) eqn:N.
    + eexists. split.
      * rewrite (getattr_eq _ _ _ _ H), E, N. reflexivity.
      * intros w' self' H'. rewrite (getattr_eq _ _ _ _ H'), E, N. reflexivity.
    + eexists. split.
      * rewrite (getattr_eq _ _ _ _ H), E, N. reflexivity.
      * intros w' self' H'. rewrite (getattr_eq _ _ _ _ H'), E, N. reflexivity.
  - eexists. split.
    + rewrite (getattr_eq _ _ _ _ H), E. reflexivity.
    + intros w' self' H'. rewrite (getattr_eq _ _ _ _ H'), E. reflexivity.
Qed.

Lemma predict_score_eq (w : World) (self : loc) (o : Detector) (X : PyAny) :
  heap w !! self = Some o ->
  predict_score L self X w = (scores_of L o X, w).
Proof.
  intros H.
  assert (H0 : heap {| heap := {[0 := o]}; fs := ∅ |} !! 0 = Some o)
    by (simpl; apply lookup_singleton_eq).
  unfold scores_of, predict_score, bind, lift.
  destruct (validate_input L X) as [e|Xv]; [reflexivity|].
  destruct (backend_model_eq _ _ _ H) as (r & Hr & Hall).
  rewrite Hr, (Hall _ _ H0).
  destruct r as [e|m]; [reflexivity|].
  destruct (score_samples_of m) as [f|].
  - destruct (f Xv); [reflexivity|].
    rewrite (get_obj_eq _ _ _ H), (get_obj_eq _ _ _ H0). reflexivity.
  - destruct (decision_function_of m) as [g|].
    + destruct (g Xv); [reflexivity|].
      rewrite (get_obj_eq _ _ _ H), (get_obj_eq _ _ _ H0). reflexivity.
    + reflexivity.
Qed.

End Properties.

Section Scoring.

Variable L : Libs.

(** ** Scoring and prediction *)

Lemma backend_model_ok (w : World) (self : loc) (o : Detector) (m : PyVal) :
  heap w !! self = Some o ->
  __dict__ o !! "_backend_model" = Some m ->
  is_None m = false ->
  backend_model self w = (inr m, w).
Proof.
  intros H Hm Hn. unfold backend_model, bind.
  rewrite (getattr_eq _ _ _ _ H), Hm, Hn. reflexivity.
Qed.

Lemma backend_model_null (w : World) (self : loc) (o : Detector) :
  heap w !! self = Some o ->
  __dict__ o !! "_backend_model" = Some VNone ->
  backend_model self w =
  (inl (mkExn ModelNotFittedError "The backend model is not initialized or fitted."), w).
Proof.
  intros H Hm. unfold backend_model, bind.
  rewrite (getattr_eq _ _ _ _ H), Hm. reflexivity.
Qed.

(** C8. With a fitted backend object and valid input, [predict_score] calls
    the backend's [score_samples] when the backend has that method, whatever
    else it has; otherwise it calls [decision_function] when the backend has
    that one; and it raises [ConfigError] when the backend has neither.  The
    scores returned are the negated native scores when [_invert_score] is
    set and the native scores themselves when it is not. *)
Theorem predict_score_method_choice (w : World) (self : loc) (o : Detector)
  (b : Estimator) (X : PyAny) (Xv : ndarray) :
  heap w !! self = Some o ->
  __dict__ o !! "_backend_model" = Some (VObj b) ->
  validate_input L X = inr Xv ->
  let oriented raw :=
    if _invert_score (__class__ o) then map PrimFloat.opp raw else raw in
  (forall score_samples raw,
     est_score_samples (est_class b) = Some score_samples ->
     score_samples (est_self b) Xv = inr raw ->
     predict_score L self X w = (inr (oriented raw), w)) /\
  (forall decision_function raw,
     est_score_samples (est_class b) = None ->
     est_decision_function (est_class b) = Some decision_function ->
     decision_function (est_self b) Xv = inr raw ->
     predict_score L self X w = (inr (oriented raw), w)) /\
  (est_score_samples (est_class b) = None ->
   est_decision_function (est_class b) = None ->
   exists msg, predict_score L self X w = (inl (mkExn ConfigError msg), w)).
Proof.
  intros H Hm HX oriented.
  assert (Hb : backend_model self w = (inr (VObj b), w))
    by (now apply (backend_model_ok w self o)).
  repeat split.
  - intros f raw Hf Hraw. unfold predict_score, bind, lift.
    rewrite HX, Hb. unfold score_samples_of. rewrite Hf, Hraw.
    rewrite (get_obj_eq _ _ _ H). reflexivity.
  - intros g raw Hf Hg Hraw. unfold predict_score, bind, lift.
    rewrite HX, Hb. unfold score_samples_of, decision_function_of.
    rewrite Hf, Hg, Hraw.
    rewrite (get_obj_eq _ _ _ H). reflexivity.
  - intros Hf Hg. eexists. unfold predict_score, bind, lift.
    rewrite HX, Hb. unfold score_samples_of, decision_function_of.
    rewrite Hf, Hg. reflexivity.
Qed.

Lemma length_binarize (t : float) (scores : list float) :
  List.length (binarize t scores) = List.length scores.
Proof. unfold binarize. apply length_map. Qed.

Lemma binarize_lookup (t : float) (scores : list float) (i : nat) :
  binarize t scores !! i
  = (fun s => if PrimFloat.ltb t s then 1%Z else 0%Z) <$> scores !! i.
Proof. unfold binarize. apply list_lookup_fmap. Qed.

Lemma predict_with_threshold (w : World) (self : loc) (o : Detector) (X : PyAny)
  (threshold : PyVal) (scores : list float) (t : float) :
  heap w !! self = Some o ->
  fitted_flag (__dict__ o) = true ->
  predict_score L self X w = (inr scores, w) ->
  available_threshold threshold (__dict__ o) t ->
  predict L self X threshold w = (inr (binarize t scores), w).
Proof.
  intros H Hf Hs Ht. unfold predict, bind.
  rewrite (getattr_eq _ _ _ _ H).
  unfold fitted_flag in Hf.
  destruct (__dict__ o !! "_is_fitted") as [v|]; [|discriminate].
  rewrite Hf. simpl. rewrite Hs.
  destruct Ht as [->|[-> Ht]]; simpl.
  - reflexivity.
  - rewrite (getattr_eq _ _ _ _ H), Ht. reflexivity.
Qed.

(** C7. On a fitted detector whose scores for [X] are [scores], one per
    sample, and with an available threshold [t], [predict] returns one label
    per score, every label is 0 or 1, and label [i] is 1 exactly when score
    [i] is strictly greater than [t]. *)
Theorem predict_labels (w : World) (self : loc) (o : Detector) (X : PyAny)
  (threshold : PyVal) (scores : list float) (t : float) (n : nat) :
  heap w !! self = Some o ->
  fitted_flag (__dict__ o) = true ->
  predict_score L self X w = (inr scores, w) ->
  List.length scores = n ->
  available_threshold threshold (__dict__ o) t ->
  exists labels,
    predict L self X threshold w = (inr labels, w) /\
    List.length labels = n /\
    (forall i l, labels !! i = Some l -> l = 0%Z \/ l = 1%Z) /\
    (forall i s, scores !! i = Some s ->
       (labels !! i = Some 1%Z <-> PrimFloat.ltb t s = true) /\
       (labels !! i = Some 0%Z <-> PrimFloat.ltb t s = false)).
Proof.
  intros H Hf Hs Hn Ht. exists (binarize t scores).
  split; [now apply (predict_with_threshold w self o)|].
  split; [now rewrite length_binarize|].
  split.
  - intros i l. rewrite binarize_lookup.
    destruct (scores !! i) as [s|]; simpl; [|discriminate].
    destruct (PrimFloat.ltb t s); intros [= <-]; auto.
  - intros i s Hi. rewrite binarize_lookup, Hi. simpl.
    destruct (PrimFloat.ltb t s); split; split; congruence.
Qed.

End Scoring.

(** An operation that raised before it changed anything. *)
Ltac raised_early := intros [= <- <-]; left; eauto.

Section Fitting.

Variable L : Libs.

(** ** Fitting *)

(** [_fit_backend] either leaves the world as it is, or assigns an estimator
    to [_backend_model] and nothing else; it does the latter whenever it
    returns. *)
Lemma fit_backend_effect (w : World) (self : loc) (X : PyAny) (y : option PyAny)
  (r : Exc unit) (w1 : World) :
  _fit_backend L self X y w = (r, w1) ->
  (w1 = w /\ exists e, r = inl e) \/
  exists o m, heap w !! self = Some o /\
    w1 = with_dict w self o (<["_backend_model" := VObj m]> (__dict__ o)).
Proof.
  unfold _fit_backend, bind, lift.
  destruct (validate_input L X) as [e|Xv].
  { raised_early. }
  destruct (heap w !! self) as [o|] eqn:H.
  2:{ unfold get_obj. rewrite H. intros [= <- <-]. left. unfold dangling. eauto. }
  rewrite (get_obj_eq _ _ _ H).
  destruct (_backend_cls (__class__ o)) as [backend_cls|].
  2:{ raised_early. }
  rewrite (getattr_eq _ _ _ _ H).
  destruct (__dict__ o !! "kwargs") as [kw|].
  2:{ raised_early. }
  destruct (as_dict kw) as [e|kwargs].
  { raised_early. }
  rewrite (getattr_eq _ _ _ _ H).
  destruct (__dict__ o !! "backend_options") as [bo|].
  2:{ raised_early. }
  destruct (init_params_of _ _ _ _) as [e|init_params].
  { raised_early. }
  destruct (backend_cls init_params) as [e|model].
  { raised_early. }
  rewrite (setattr_eq _ _ _ _ _ H).
  destruct (estimator_fit model Xv y) as [rf model'].
  rewrite (setattr_eq _ _ _ _ _ (with_dict_lookup _ _ _ _)). simpl __dict__.
  rewrite insert_insert_eq, with_dict_twice by reflexivity.
  intros E. right. exists o, model'. split; [reflexivity|].
  destruct rf; now inversion E.
Qed.

Lemma fit_backend_ok (w : World) (self : loc) (X : PyAny) (y : option PyAny)
  (u : unit) (w1 : World) :
  _fit_backend L self X y w = (inr u, w1) ->
  exists o m, heap w !! self = Some o /\
    w1 = with_dict w self o (<["_backend_model" := VObj m]> (__dict__ o)).
Proof.
  intros E. destruct (fit_backend_effect _ _ _ _ _ _ E) as [[_ [e He]]|H];
    [discriminate|exact H].
Qed.

(** [predict_score] reads the class and [_backend_model] only. *)
Lemma scores_of_ext (o o' : Detector) (X : PyAny) :
  __class__ o = __class__ o' ->
  __dict__ o !! "_backend_model" = __dict__ o' !! "_backend_model" ->
  scores_of L o X = scores_of L o' X.
Proof.
  intros Ec Ed. unfold scores_of, predict_score, backend_model, bind, lift.
  destruct (validate_input L X) as [e|Xv]; [reflexivity|].
  rewrite !(getattr_eq _ 0 _ _ (lookup_singleton_eq _ _)).
  rewrite Ed. destruct (__dict__ o' !! "_backend_model") as [m|]; [|reflexivity].
  destruct (is_None m); [reflexivity|]. unfold ret at 1 3.
  destruct (score_samples_of m) as [f|].
  - destruct (f Xv); [reflexivity|].
    rewrite !(get_obj_eq _ 0 _ (lookup_singleton_eq _ _)), Ec. reflexivity.
  - destruct (decision_function_of m) as [g|]; [|reflexivity].
    destruct (g Xv); [reflexivity|].
    rewrite !(get_obj_eq _ 0 _ (lookup_singleton_eq _ _)), Ec. reflexivity.
Qed.

(** What a successful [fit] leaves behind. *)
Lemma fit_ok_state (w : World) (self : loc) (X : PyAny) (y : option PyAny)
  (r : loc) (w' : World) :
  fit L self X y w = (inr r, w') ->
  r = self /\
  exists o m scores cv p q,
    heap w !! self = Some o /\
    scores_of L
      {| __class__ := __class__ o;
         __dict__ := <["_backend_model" := VObj m]> (__dict__ o) |} X = inr scores /\
    __dict__ o !! "contamination" = Some cv /\
    one_minus cv = inr p /\
    np_quantile L scores p = inr q /\
    w' = with_dict w self o
           (<["_is_fitted" := VBool true]>
              (<["threshold_" := VFloat q]>
                 (<["_backend_model" := VObj m]> (__dict__ o)))).
Proof.
  unfold fit, _set_seed. unfold bind at 1. unfold ret at 1. unfold bind at 1.
  destruct (_fit_backend L self X y w) as [[e|u] w1] eqn:Efb; [discriminate|].
  destruct (fit_backend_ok _ _ _ _ _ _ Efb) as (o & m & H & ->).
  set (d1 := <["_backend_model" := VObj m]> (__dict__ o)).
  pose proof (with_dict_lookup w self o d1) as H1.
  unfold bind at 1. rewrite (predict_score_eq L _ _ _ X H1).
  destruct (scores_of L _ X) as [e|scores] eqn:Es; [discriminate|].
  unfold bind at 1. rewrite (getattr_eq _ _ _ _ H1). simpl __dict__.
  destruct (d1 !! "contamination") as [cv|] eqn:Ec; [|discriminate].
  unfold bind at 1, lift at 1.
  destruct (one_minus cv) as [e|p] eqn:Ef; [discriminate|].
  unfold bind at 1, lift at 1.
  destruct (np_quantile L scores p) as [e|q] eqn:Eq; [discriminate|].
  unfold bind at 1. rewrite (setattr_eq _ _ _ _ _ H1). simpl __dict__.
  rewrite with_dict_twice by reflexivity.
  unfold bind at 1.
  rewrite (setattr_eq _ _ _ _ _ (with_dict_lookup _ _ _ _)). simpl __dict__.
  rewrite with_dict_twice by reflexivity.
  unfold ret. intros [= <- <-]. split; [reflexivity|].
  exists o, m, scores, cv, p, q. repeat split; try assumption.
  unfold d1 in Ec. rewrite lookup_insert_ne in Ec by discriminate. exact Ec.
Qed.

(** C5. When [fit] succeeds it returns the instance it was called on, the
    fitted flag of that instance is true, and [threshold_] is the quantile
    of the scores that [predict_score] gives on the training input, at the
    level [p] = 1 - contamination: the float difference for a float
    contamination, the exact integer difference for an integer one. *)
Theorem fit_sets_threshold (w : World) (self : loc) (X : PyAny) (y : option PyAny)
  (r : loc) (w' : World) :
  fit L self X y w = (inr r, w') ->
  r = self /\
  exists o' scores cv p q,
    heap w' !! self = Some o' /\
    __dict__ o' !! "_is_fitted" = Some (VBool true) /\
    predict_score L self X w' = (inr scores, w') /\
    __dict__ o' !! "contamination" = Some cv /\
    match cv with
    | VFloat c => p = PrimFloat.sub 1 c
    | VInt z => p = Z_to_float (1 - z)
    | VBool b => p = Z_to_float (1 - (if b then 1 else 0))
    | _ => False
    end /\
    np_quantile L scores p = inr q /\
    __dict__ o' !! "threshold_" = Some (VFloat q).
Proof.
  intros E. destruct (fit_ok_state _ _ _ _ _ _ E)
    as (-> & o & m & scores & cv & p & q & H & Hs & Hc & Hf & Hq & ->).
  assert (Hp : match cv with
               | VFloat c => p = PrimFloat.sub 1 c
               | VInt z => p = Z_to_float (1 - z)
               | VBool b => p = Z_to_float (1 - (if b then 1 else 0))
               | _ => False
               end).
  { destruct cv as [|b|z|c| | |]; try discriminate Hf;
      injection Hf as <-; [now destruct b | reflexivity | reflexivity]. }
  split; [reflexivity|].
  eexists _, scores, cv, p, q.
  split; [apply with_dict_lookup|]. simpl __dict__.
  split; [apply lookup_insert_eq|].
  split.
  { rewrite (predict_score_eq L _ _ _ X (with_dict_lookup _ _ _ _)).
    rewrite <- Hs. f_equal. apply scores_of_ext; [reflexivity|]. simpl.
    now rewrite !lookup_insert_ne by discriminate. }
  split.
  { rewrite !lookup_insert_ne by discriminate. exact Hc. }
  repeat split; try assumption.
  rewrite lookup_insert_ne by discriminate. apply lookup_insert_eq.
Qed.

End Fitting.

Section Guards.

Variable L : Libs.

(** ** Guards of [predict] and [save] *)

(** C6, as the code has it. [predict] on a detector whose fitted flag is
    false raises [ModelNotFittedError] for every input and every threshold
    argument.  On a fitted detector [predict] scores the input first: an
    error of [predict_score] is the error of [predict], and when
    [predict_score] returns, [predict] raises [ValueError] exactly when the
    threshold argument and the fitted [threshold_] are both [None]. *)
Theorem predict_guards (w : World) (self : loc) (o : Detector) (X : PyAny)
  (threshold : PyVal) :
  heap w !! self = Some o ->
  (__dict__ o !! "_is_fitted" = Some (VBool false) ->
     predict L self X threshold w
     = (inl (mkExn ModelNotFittedError "Model is not fitted. Call fit() first."), w)) /\
  (fitted_flag (__dict__ o) = true ->
     (forall e, predict_score L self X w = (inl e, w) ->
        predict L self X threshold w = (inl e, w)) /\
     (forall scores tv, predict_score L self X w = (inr scores, w) ->
        __dict__ o !! "threshold_" = Some tv ->
        ((exists msg, predict L self X threshold w = (inl (mkExn ValueError msg), w))
         <-> threshold = VNone /\ tv = VNone))).
Proof.
  intros H. split.
  - intros Hf. unfold predict, bind. rewrite (getattr_eq _ _ _ _ H), Hf. reflexivity.
  - intros Hf. unfold fitted_flag in Hf.
    destruct (__dict__ o !! "_is_fitted") as [v|] eqn:Ev; [|discriminate].
    split.
    + intros e He. unfold predict, bind.
      rewrite (getattr_eq _ _ _ _ H), Ev, Hf. simpl. now rewrite He.
    + intros scores tv Hs Ht. unfold predict, bind.
      rewrite (getattr_eq _ _ _ _ H), Ev, Hf. simpl. rewrite Hs.
      destruct threshold; simpl;
        try (split; [intros [msg E]; discriminate E | intros [E _]; discriminate E]).
      rewrite (getattr_eq _ _ _ _ H), Ht.
      destruct tv; simpl;
        try (split; [intros [msg E]; discriminate E | intros [_ E]; discriminate E]).
      split; [tauto|]. intros _. eexists. reflexivity.
Qed.

(** C10. [save] on a detector whose backend handle is [None] raises
    [ModelNotFittedError] and leaves the file system as it was: no archive is
    written. *)
Theorem save_unfitted_raises (w : World) (self : loc) (o : Detector)
  (filepath : string) (cv tv : PyVal) :
  heap w !! self = Some o ->
  __dict__ o !! "contamination" = Some cv ->
  __dict__ o !! "threshold_" = Some tv ->
  __dict__ o !! "_backend_model" = Some VNone ->
  save L self filepath w
  = (inl (mkExn ModelNotFittedError "The backend model is not initialized or fitted."), w).
Proof.
  intros H Hc Ht Hm. unfold save, bind.
  rewrite (get_obj_eq _ _ _ H), !(getattr_eq _ _ _ _ H), Hc, Ht.
  unfold _save_backend, bind.
  now rewrite (backend_model_null _ _ _ H Hm).
Qed.

End Guards.

(** ** Strings *)

Lemma append_cons (x : ascii) (a b : string) :
  String x a +:+ b = String x (a +:+ b).
Proof. reflexivity. Qed.

Lemma append_assoc (a b c : string) : (a +:+ b) +:+ c = a +:+ (b +:+ c).
Proof.
  induction a as [|x a IH]; [reflexivity|].
  rewrite !append_cons. f_equal. exact IH.
Qed.

Lemma append_empty_r (a : string) : a +:+ EmptyString = a.
Proof.
  induction a as [|x a IH]; [reflexivity|].
  rewrite append_cons. f_equal. exact IH.
Qed.





(** ** Registry and factory *)


Lemma construct_new (c : AdapterClass) (kwargs : Dict) (w : World) (l : loc)
  (w' : World) :
  construct c kwargs w = (inr l, w') ->
  heap w !! l = None /\
  exists d, cls_init c kwargs ∅ = (inr tt, d) /\
    heap w' !! l = Some {| __class__ := c; __dict__ := d |} /\
    (forall l', l' <> l -> heap w' !! l' = heap w !! l') /\
    fs w' = fs w.
Proof.
  unfold construct. destruct (cls_init c kwargs ∅) as [[e|[]] d]; [discriminate|].
  intros [= <- <-]. split.
  - apply not_elem_of_dom. apply is_fresh.
  - exists d. split; [reflexivity|]. simpl. split; [apply lookup_insert_eq|].
    split; [|reflexivity]. intros l' Hne. now apply lookup_insert_ne.
Qed.

Section Factory.

Variable L : Libs.


End Factory.

(** ** Constructor arguments of the backend *)

(** Explicit backend options always win. *)
Lemma init_params_backend_options (mapping : list (string * string))
  (attrs kwargs bo init_params : Dict) (k : string) (v : PyVal) :
  init_params_of mapping attrs kwargs (VDict bo) = inr init_params ->
  bo !! k = Some v ->
  init_params !! k = Some v.
Proof.
  unfold init_params_of, dict_update. simpl. intros [= <-] Hk.
  now apply lookup_union_Some_l.
Qed.

(** C1 at a failing input. The adapter maps its attribute [n_trees] to the
    backend's [n_estimators]; the caller gives [n_trees = 10] and the
    declared keyword argument [n_estimators = 50], and no backend options.
    The keyword argument should win over the mapped attribute; the backend is
    constructed with the mapped value 10. *)
Theorem mapped_attribute_overrides_kwargs :
  attr tree_world 0 "n_trees" = Some (VInt 10) /\
  kwargs_at tree_world 0 !! "n_estimators" = Some (VInt 50) /\
  attr tree_world 0 "backend_options" = Some (VDict ∅) /\
  match init_params_of (_param_mapping TreeAdapter) (dict_at tree_world 0)
          (kwargs_at tree_world 0) (VDict ∅) with
  | inr init_params => init_params !! "n_estimators"
  | inl _ => None
  end = Some (VInt 10) /\
  fst (_fit_backend env 0 X_train None tree_world) = inr tt /\
  attr (snd (_fit_backend env 0 X_train None tree_world)) 0 "_backend_model"
  = Some (VObj {| est_class := TreeProbe; est_self := Some 10%Z |}).
Proof. repeat split; vm_compute; reflexivity. Qed.

(** ** Paths *)

Lemma split_at_append (k : nat) (s : string) :
  fst (split_at k s) +:+ snd (split_at k s) = s.
Proof.
  revert s. induction k as [|k IH]; intros s; [reflexivity|].
  destruct s as [|a s]; [reflexivity|]. simpl.
  specialize (IH s). destruct (split_at k s) as [l r]. simpl in *.
  rewrite append_cons. now f_equal.
Qed.

Lemma os_path_splitext_append (p : string) :
  fst (os_path_splitext p) +:+ snd (os_path_splitext p) = p.
Proof.
  unfold os_path_splitext.
  destruct (rfind "/" p <? rfind "." p)%Z; [|apply append_empty_r].
  destruct (all_dots _); [apply append_empty_r | apply split_at_append].
Qed.

Lemma ends_with_eq (suf s : string) :
  ends_with suf s
  = if String.eqb s suf then true
    else match s with
         | EmptyString => false
         | String _ s' => ends_with suf s'
         end.
Proof. destruct s; reflexivity. Qed.

Lemma ends_with_append (suf b : string) : ends_with suf (b +:+ suf) = true.
Proof.
  induction b as [|a b IH].
  - change (EmptyString +:+ suf) with suf.
    now rewrite ends_with_eq, String.eqb_refl.
  - rewrite append_cons, ends_with_eq, IH. now destruct (String.eqb _ _).
Qed.

Lemma length_append (a b : string) :
  String.length (a +:+ b) = String.length a + String.length b.
Proof.
  induction a as [|x a IH]; [reflexivity|].
  rewrite append_cons. simpl. now rewrite IH.
Qed.

Lemma append_zip_neq (p : string) : p +:+ ".zip" <> p.
Proof.
  intros E. apply (f_equal String.length) in E.
  rewrite length_append in E. simpl in E. lia.
Qed.

(** ** Saving *)

Section Persistence.

Variable L : Libs.

(** What [save] does to the world: nothing, when it raises before the
    archive is made; otherwise one call of [shutil.make_archive], on the
    path without its extension and the tree staged for the detector. *)
Lemma save_heap (self : loc) (filepath : string) (w : World) (r : Exc unit)
  (w' : World) :
  save L self filepath w = (r, w') ->
  heap w' = heap w /\
  ((w' = w /\ exists e, r = inl e) \/
   exists o m cv tv,
     heap w !! self = Some o /\
     __dict__ o !! "_backend_model" = Some m /\ is_None m = false /\
     __dict__ o !! "contamination" = Some cv /\
     __dict__ o !! "threshold_" = Some tv /\
     shutil_make_archive L (fst (os_path_splitext filepath))
       (saved_tree o m cv tv) (fs w)
     = (r, fs w')).
Proof.
  unfold save, bind.
  destruct (heap w !! self) as [o|] eqn:H.
  2:{ unfold get_obj. rewrite H. intros [= <- <-]. unfold dangling. eauto. }
  rewrite (get_obj_eq _ _ _ H), !(getattr_eq _ _ _ _ H).
  destruct (__dict__ o !! "contamination") as [cv|] eqn:Hc.
  2:{ intros [= <- <-]. eauto. }
  destruct (__dict__ o !! "threshold_") as [tv|] eqn:Ht.
  2:{ intros [= <- <-]. eauto. }
  unfold _save_backend, bind, backend_model, bind.
  rewrite (getattr_eq _ _ _ _ H).
  destruct (__dict__ o !! "_backend_model") as [m|] eqn:Hm.
  2:{ intros [= <- <-]. eauto. }
  destruct (is_None m) eqn:Hn.
  { intros [= <- <-]. eauto. }
  unfold ret. rewrite (get_obj_eq _ _ _ H).
  unfold make_archive.
  change (os_path_join EmptyString "metadata.json") with "metadata.json".
  change (os_path_join EmptyString "backend") with "backend".
  change (os_path_join "backend" "model.joblib") with "backend/model.joblib".
  change (os_path_join EmptyString "attributes.pkl") with "attributes.pkl".
  fold (saved_tree o m cv tv).
  destruct (shutil_make_archive L _ (saved_tree o m cv tv) (fs w)) as [r0 F] eqn:E.
  intros [= <- <-]. simpl. split; [reflexivity|].
  right. exists o, m, cv, tv. repeat split; assumption.
Qed.

Lemma save_ok (self : loc) (filepath : string) (w : World) (o : Detector)
  (m cv tv : PyVal) :
  heap w !! self = Some o ->
  __dict__ o !! "_backend_model" = Some m -> is_None m = false ->
  __dict__ o !! "contamination" = Some cv ->
  __dict__ o !! "threshold_" = Some tv ->
  save L self filepath w
  = make_archive L (fst (os_path_splitext filepath)) (saved_tree o m cv tv) w.
Proof.
  intros H Hm Hn Hc Ht. unfold save, bind.
  rewrite (get_obj_eq _ _ _ H), !(getattr_eq _ _ _ _ H), Hc, Ht.
  unfold _save_backend, bind.
  rewrite (backend_model_ok _ _ _ _ H Hm Hn). unfold ret.
  rewrite (get_obj_eq _ _ _ H). reflexivity.
Qed.

Lemma save_written (self : loc) (filepath : string) (w : World) (o : Detector)
  (m cv tv : PyVal) (r : Exc unit) (files : FileSystem) :
  heap w !! self = Some o ->
  __dict__ o !! "_backend_model" = Some m -> is_None m = false ->
  __dict__ o !! "contamination" = Some cv ->
  __dict__ o !! "threshold_" = Some tv ->
  shutil_make_archive L (fst (os_path_splitext filepath)) (saved_tree o m cv tv)
    (fs w) = (r, files) ->
  save L self filepath w = (r, {| heap := heap w; fs := files |}).
Proof.
  intros H Hm Hn Hc Ht E. rewrite (save_ok _ _ _ _ _ _ _ H Hm Hn Hc Ht).
  unfold make_archive. now rewrite E.
Qed.

(** ** Loading *)

Lemma load_unpacked (self : loc) (filepath : string) (w : World) :
  load L self filepath w
  = (let* tmp_dir := unpack_archive L (load_path L filepath (fs w)) in
     let* attributes := lift (joblib_load tmp_dir "attributes.pkl") in
     let* o := get_obj self in
     let* updated := lift (dict_update (__dict__ o) attributes) in
     set_dict self updated >>
     _load_backend self "backend" tmp_dir >>
     setattr self "_is_fitted" (VBool true) >>
     ret self) w.
Proof. reflexivity. Qed.

Lemma load_backend_cases (self : loc) (t : Tree) (w1 : World) (o1 : Detector)
  (r : Exc unit) (w2 : World) :
  heap w1 !! self = Some o1 ->
  _load_backend self "backend" t w1 = (r, w2) ->
  (w2 = w1 /\ exists e, r = inl e) \/
  exists m, t !! "backend/model.joblib" = Some (PickleBlob m) /\
    r = inr tt /\
    w2 = with_dict w1 self o1 (<["_backend_model" := m]> (__dict__ o1)).
Proof.
  intros H1. unfold _load_backend.
  change (os_path_join "backend" "model.joblib") with "backend/model.joblib".
  unfold joblib_load.
  destruct (t !! "backend/model.joblib") as [[v|m|]|] eqn:Hm; simpl.
  - unfold bind, lift. intros [= <- <-]. left. eauto.
  - unfold bind, lift. rewrite (setattr_eq _ _ _ _ _ H1).
    intros [= <- <-]. right. eauto.
  - unfold bind, lift. intros [= <- <-]. left. eauto.
  - unfold raise. intros [= <- <-]. left. eauto.
Qed.

(** The outcome of [load] on an object of the heap, step by step: nothing
    is restored; or the attributes are restored and [_load_backend] raises;
    or both are restored and the fitted flag is set. *)
Lemma load_cases (self : loc) (filepath : string) (w : World) (o : Detector)
  (r : Exc loc) (w' : World) :
  heap w !! self = Some o ->
  load L self filepath w = (r, w') ->
  (w' = w /\ exists e, r = inl e) \/
  exists t attrs,
    shutil_unpack_archive L (fs w) (load_path L filepath (fs w)) = inr t /\
    t !! "attributes.pkl" = Some (PickleBlob (VDict attrs)) /\
    ((w' = with_dict w self o (attrs ∪ __dict__ o) /\
      exists e, r = inl e /\
        _load_backend self "backend" t (with_dict w self o (attrs ∪ __dict__ o))
        = (inl e, with_dict w self o (attrs ∪ __dict__ o))) \/
     (exists m, t !! "backend/model.joblib" = Some (PickleBlob m) /\
        r = inr self /\
        w' = with_dict w self o (loaded_dict (__dict__ o) attrs m))).
Proof.
  intros H. rewrite load_unpacked. unfold bind at 1. unfold unpack_archive.
  destruct (shutil_unpack_archive L (fs w) (load_path L filepath (fs w)))
    as [e|t] eqn:Hu.
  { raised_early. }
  unfold bind at 1, lift at 1. unfold joblib_load at 1.
  destruct (t !! "attributes.pkl") as [[v|v|]|] eqn:Ha.
  1,3,4: raised_early.
  unfold bind at 1. rewrite (get_obj_eq _ _ _ H).
  unfold bind at 1, lift at 1, dict_update.
  destruct v as [| | | | |attrs|]; simpl as_dict.
  1-5,7: raised_early.
  unfold bind at 1. rewrite (set_dict_eq _ _ _ _ H).
  pose proof (with_dict_lookup w self o (attrs ∪ __dict__ o)) as H1.
  unfold bind at 1.
  destruct (_load_backend self "backend" t _) as [rb w2] eqn:Elb.
  intros E. right. exists t, attrs. repeat split; try assumption.
  destruct (load_backend_cases _ _ _ _ _ _ H1 Elb) as [[-> [e ->]]|(m & Hm & -> & ->)].
  - left. inversion E. eauto.
  - right. exists m. split; [assumption|].
    simpl __dict__ in E. rewrite with_dict_twice in E by reflexivity.
    unfold bind at 1 in E.
    rewrite (setattr_eq _ _ _ _ _ (with_dict_lookup _ _ _ _)) in E.
    simpl __dict__ in E. rewrite with_dict_twice in E by reflexivity.
    unfold ret in E. inversion E. split; reflexivity.
Qed.

Lemma load_dangling (self : loc) (filepath : string) (w : World) (r : Exc loc)
  (w' : World) :
  heap w !! self = None ->
  load L self filepath w = (r, w') -> w' = w /\ exists e, r = inl e.
Proof.
  intros H. rewrite load_unpacked. unfold bind at 1. unfold unpack_archive.
  destruct (shutil_unpack_archive L (fs w) (load_path L filepath (fs w)))
    as [e|t].
  { intros [= <- <-]. eauto. }
  unfold bind at 1, lift at 1.
  destruct (joblib_load t "attributes.pkl").
  { intros [= <- <-]. eauto. }
  unfold bind at 1, get_obj. rewrite H. intros [= <- <-]. unfold dangling. eauto.
Qed.

Lemma load_after_attributes (self : loc) (filepath : string) (w : World)
  (o : Detector) (t : Tree) (attrs : Dict) :
  heap w !! self = Some o ->
  shutil_unpack_archive L (fs w) (load_path L filepath (fs w)) = inr t ->
  t !! "attributes.pkl" = Some (PickleBlob (VDict attrs)) ->
  load L self filepath w
  = (_load_backend self "backend" t >>
     setattr self "_is_fitted" (VBool true) >>
     ret self) (with_dict w self o (attrs ∪ __dict__ o)).
Proof.
  intros H Hu Ha. rewrite load_unpacked. unfold bind at 1.
  unfold unpack_archive. rewrite Hu.
  unfold bind at 1, lift at 1, joblib_load. rewrite Ha.
  unfold bind at 1. rewrite (get_obj_eq _ _ _ H).
  unfold bind at 1, lift at 1, dict_update. simpl as_dict.
  unfold bind at 1. rewrite (set_dict_eq _ _ _ _ H). reflexivity.
Qed.

Lemma load_backend_ok (self : loc) (t : Tree) (w1 : World) (o1 : Detector)
  (m : PyVal) :
  heap w1 !! self = Some o1 ->
  t !! "backend/model.joblib" = Some (PickleBlob m) ->
  _load_backend self "backend" t w1
  = (inr tt, with_dict w1 self o1 (<["_backend_model" := m]> (__dict__ o1))).
Proof.
  intros H1 Hm. unfold _load_backend.
  change (os_path_join "backend" "model.joblib") with "backend/model.joblib".
  unfold joblib_load. rewrite Hm. simpl. unfold bind, lift.
  now rewrite (setattr_eq _ _ _ _ _ H1).
Qed.

Lemma load_ok (self : loc) (filepath : string) (w : World) (o : Detector)
  (t : Tree) (attrs : Dict) (m : PyVal) :
  heap w !! self = Some o ->
  shutil_unpack_archive L (fs w) (load_path L filepath (fs w)) = inr t ->
  t !! "attributes.pkl" = Some (PickleBlob (VDict attrs)) ->
  t !! "backend/model.joblib" = Some (PickleBlob m) ->
  load L self filepath w
  = (inr self, with_dict w self o (loaded_dict (__dict__ o) attrs m)).
Proof.
  intros H Hu Ha Hm. rewrite (load_after_attributes _ _ _ _ _ _ H Hu Ha).
  unfold bind at 1.
  rewrite (load_backend_ok _ _ _ _ _ (with_dict_lookup _ _ _ _) Hm).
  simpl __dict__. rewrite with_dict_twice by reflexivity.
  unfold bind at 1.
  rewrite (setattr_eq _ _ _ _ _ (with_dict_lookup _ _ _ _)).
  simpl __dict__. rewrite with_dict_twice by reflexivity. reflexivity.
Qed.

(** The raise of [_load_backend] for an archive without the backend model
    file. *)
Lemma load_backend_missing (self : loc) (t : Tree) (w1 : World) :
  t !! "backend/model.joblib" = None ->
  _load_backend self "backend" t w1
  = (inl (mkExn FileNotFoundError "Backend model not found at backend/model.joblib"),
     w1).
Proof.
  intros Hm. unfold _load_backend.
  change (os_path_join "backend" "model.joblib") with "backend/model.joblib".
  rewrite Hm. rewrite bool_decide_eq_false_2 by (intros [? [=]]). reflexivity.
Qed.

End Persistence.

Lemma fitted_flag_union (attrs d : Dict) :
  fitted_flag attrs = false -> fitted_flag d = false ->
  fitted_flag (attrs ∪ d) = false.
Proof.
  unfold fitted_flag. intros Ha Hd. rewrite lookup_union.
  destruct (attrs !! "_is_fitted") as [v|]; simpl.
  - destruct (d !! "_is_fitted"); exact Ha.
  - destruct (d !! "_is_fitted"); [exact Hd | reflexivity].
Qed.

Lemma fitted_flag_union_l (attrs d : Dict) :
  fitted_flag attrs = true -> fitted_flag (attrs ∪ d) = true.
Proof.
  unfold fitted_flag. intros Ha. rewrite lookup_union.
  destruct (attrs !! "_is_fitted") as [v|]; [|discriminate].
  now destruct (d !! "_is_fitted").
Qed.

Lemma dict_at_with_dict (w : World) (self : loc) (o : Detector) (d : Dict) :
  dict_at (with_dict w self o d) self = d.
Proof. unfold dict_at. now rewrite with_dict_lookup. Qed.


(** The attributes [save] pickles carry the fitted flag of the detector. *)
Lemma saved_attributes_flag (o : Detector) (m cv tv : PyVal) :
  exists attrs,
    saved_tree o m cv tv !! "attributes.pkl" = Some (PickleBlob (VDict attrs)) /\
    fitted_flag attrs = fitted_flag (__dict__ o).
Proof.
  exists (delete "_backend_model" (__dict__ o)). split.
  - unfold saved_tree. apply lookup_insert_eq.
  - unfold fitted_flag. now rewrite lookup_delete_ne by discriminate.
Qed.

(** [load] from an archive that has its attributes part and lacks the
    backend model file, on any detector: [self.__dict__.update(attributes)]
    has run when [_load_backend] raises, so the detector is left with the
    fitted flag of the archive. *)
Lemma load_without_backend_file (L : Libs) (self : loc) (filepath : string)
  (w : World) (o : Detector) (t : Tree) (attrs : Dict) :
  heap w !! self = Some o ->
  shutil_unpack_archive L (fs w) (load_path L filepath (fs w)) = inr t ->
  t !! "attributes.pkl" = Some (PickleBlob (VDict attrs)) ->
  t !! "backend/model.joblib" = None ->
  load L self filepath w
  = (inl (mkExn FileNotFoundError "Backend model not found at backend/model.joblib"),
     with_dict w self o (attrs ∪ __dict__ o)) /\
  (fitted_flag attrs = true ->
   fitted_flag (dict_at (with_dict w self o (attrs ∪ __dict__ o)) self) = true).
Proof.
  intros H Hu Ha Hm. split.
  - rewrite (load_after_attributes L _ _ _ _ _ _ H Hu Ha). unfold bind at 1.
    now rewrite (load_backend_missing _ _ _ Hm).
  - intros Hf. rewrite dict_at_with_dict. now apply fitted_flag_union_l.
Qed.

(** C2 at a failing input. Detector 0 is fitted and saved as [model.zip];
    the archive then loses its backend model file.  Detector 1 is freshly
    resolved: its fitted flag is false and it has no backend.  [load] on
    detector 1 raises the [FileNotFoundError] of [_load_backend], and
    afterwards the fitted flag of detector 1 is true, while its backend is
    still [None]: the flag came with the pickled attributes, before the
    backend restore was attempted. *)
Theorem load_failure_leaves_fitted_flag :
  fitted_flag (dict_at w_stripped 1) = false /\
  attr w_stripped 1 "_backend_model" = Some VNone /\
  (exists t attrs,
     shutil_unpack_archive env (fs w_stripped) "model.zip" = inr t /\
     t !! "attributes.pkl" = Some (PickleBlob (VDict attrs)) /\
     attrs !! "_is_fitted" = Some (VBool true) /\
     t !! "backend/model.joblib" = None /\
     _load_backend 1 "backend" t (snd (load env 1 "model.zip" w_stripped))
     = (inl (mkExn FileNotFoundError
               "Backend model not found at backend/model.joblib"),
        snd (load env 1 "model.zip" w_stripped))) /\
  fst (load env 1 "model.zip" w_stripped)
  = inl (mkExn FileNotFoundError "Backend model not found at backend/model.joblib") /\
  fitted_flag (dict_at (snd (load env 1 "model.zip" w_stripped)) 1) = true /\
  attr (snd (load env 1 "model.zip" w_stripped)) 1 "_backend_model" = Some VNone.
Proof.
  split; [vm_compute; reflexivity|].
  split; [vm_compute; reflexivity|].
  split.
  { eexists _, _. split; [vm_compute; reflexivity|].
    repeat split; vm_compute; reflexivity. }
  repeat split; vm_compute; reflexivity.
Qed.

Lemma allclose_refl (rtol : float) (scores : list float) :
  allclose rtol scores scores.
Proof.
  unfold allclose. induction scores; constructor; [now left | assumption].
Qed.

Section RoundTrip.

Variable L : Libs.

(** What [load] opens once [save] has written, on a path of the round
    trip. *)
Lemma round_trip_load_path (filepath : string) (files : FileSystem) :
  os_path_exists L files (fst (os_path_splitext filepath) +:+ ".zip") = true ->
  round_trip_path L filepath files ->
  load_path L filepath files = fst (os_path_splitext filepath) +:+ ".zip".
Proof.
  intros Hex Hpath.
  pose proof (os_path_splitext_append filepath) as Hsplit.
  unfold load_path.
  destruct Hpath as [Hext|[Hext Hnone]]; rewrite Hext in Hsplit.
  - rewrite Hsplit in Hex. rewrite Hex. simpl. now rewrite Hsplit.
  - rewrite append_empty_r in Hsplit. rewrite Hsplit in Hex.
    rewrite Hnone, Hex. simpl. now rewrite Hsplit.
Qed.

(** C3, as the code has it. Take a fitted detector, holding its backend
    model, and any detector of the same class, a freshly constructed one
    included.  [save] hands the staged tree to [shutil.make_archive] under
    the path without its extension.  When that call returns, and the file
    system then shows the archive at that name plus [.zip] and unpacks it to
    the tree that was packed, then on every path whose extension is [.zip],
    or that has no extension and at which nothing exists once the archive is
    written, [save] on the first detector succeeds, [load] on the second
    then succeeds, the loaded [threshold_] is exactly the saved one, and
    [predict_score] of the loaded detector gives on every input the result
    of the saved one, so the scores agree within relative tolerance 1e-5. *)
Theorem save_load_round_trip (w : World) (src dst : loc) (o o_dst : Detector)
  (filepath : string) (m cv tv : PyVal) (files : FileSystem) :
  heap w !! src = Some o ->
  __dict__ o !! "_backend_model" = Some m ->
  is_None m = false ->
  __dict__ o !! "contamination" = Some cv ->
  __dict__ o !! "threshold_" = Some tv ->
  heap w !! dst = Some o_dst ->
  __class__ o_dst = __class__ o ->
  shutil_make_archive L (fst (os_path_splitext filepath)) (saved_tree o m cv tv)
    (fs w) = (inr tt, files) ->
  os_path_exists L files (fst (os_path_splitext filepath) +:+ ".zip") = true ->
  shutil_unpack_archive L files (fst (os_path_splitext filepath) +:+ ".zip")
  = inr (saved_tree o m cv tv) ->
  round_trip_path L filepath files ->
  exists w1 w2,
    save L src filepath w = (inr tt, w1) /\
    fs w1 = files /\
    load L dst filepath w1 = (inr dst, w2) /\
    attr w2 dst "threshold_" = Some tv /\
    forall X,
      fst (predict_score L dst X w2) = fst (predict_score L src X w) /\
      forall scores, fst (predict_score L src X w) = inr scores ->
        exists scores',
          fst (predict_score L dst X w2) = inr scores' /\
          allclose 1e-5 scores' scores.
Proof.
  intros H Hm Hn Hc Ht Hd Hcls Hw Hex Hu Hpath.
  set (w1 := {| heap := heap w; fs := files |}).
  exists w1. eexists.
  split; [exact (save_written L _ _ _ _ _ _ _ _ _ H Hm Hn Hc Ht Hw)|].
  split; [reflexivity|].
  assert (Hlp : load_path L filepath (fs w1)
                = fst (os_path_splitext filepath) +:+ ".zip")
    by (now apply round_trip_load_path).
  assert (Hd1 : heap w1 !! dst = Some o_dst) by exact Hd.
  assert (Hload : load L dst filepath w1
                  = (inr dst, with_dict w1 dst o_dst
                       (loaded_dict (__dict__ o_dst)
                          (delete "_backend_model" (__dict__ o)) m))).
  { apply (load_ok L _ _ _ _ (saved_tree o m cv tv)); [exact Hd1 | | |].
    - rewrite Hlp. exact Hu.
    - unfold saved_tree. apply lookup_insert_eq.
    - unfold saved_tree. rewrite lookup_insert_ne by discriminate.
      apply lookup_insert_eq. }
  split; [exact Hload|]. split.
  - unfold attr. rewrite dict_at_with_dict. unfold loaded_dict.
    rewrite !lookup_insert_ne by discriminate.
    apply lookup_union_Some_l. rewrite lookup_delete_ne by discriminate. exact Ht.
  - intros X.
    assert (E : fst (predict_score L dst X
                       (with_dict w1 dst o_dst
                          (loaded_dict (__dict__ o_dst)
                             (delete "_backend_model" (__dict__ o)) m)))
                = fst (predict_score L src X w)).
    { rewrite (predict_score_eq L _ _ _ X (with_dict_lookup _ _ _ _)).
      rewrite (predict_score_eq L _ _ _ X H). simpl.
      apply scores_of_ext; [exact Hcls|]. simpl. unfold loaded_dict.
      rewrite lookup_insert_ne by discriminate.
      now rewrite lookup_insert_eq, Hm. }
    split; [exact E|]. intros scores Hs. exists scores.
    split; [exact (eq_trans E Hs) | apply allclose_refl].
Qed.

End RoundTrip.

(** ** The lifecycle invariant *)

Lemma base_init_state (contamination : PyVal) (kwargs d0 : Dict) (u : unit)
  (d : Dict) :
  BaseSklearnAdapter__init__ contamination kwargs d0 = (inr u, d) ->
  d !! "_is_fitted" = Some (VBool false) /\
  d !! "threshold_" = Some VNone /\
  d !! "_backend_model" = Some VNone /\
  d !! "contamination" = Some contamination.
Proof.
  unfold BaseSklearnAdapter__init__, BaseDetector__init__, bind, set_item.
  intros [= _ <-].
  repeat split;
    repeat (rewrite lookup_insert_ne by discriminate); apply lookup_insert_eq.
Qed.

Lemma bind_self_ok (qualname : string) (kwargs d0 : Dict) (k : ST Dict unit)
  (u : unit) (d : Dict) :
  (bind_self qualname kwargs >> k)%st d0 = (inr u, d) ->
  kwargs !! "self" = None /\ k d0 = (inr u, d).
Proof.
  unfold bind, bind_self.
  destruct (kwargs !! "self"); [discriminate|]. auto.
Qed.

Lemma sklearn_adapter_initialises (name : string) (backend : EstimatorClass)
  (st : est_state backend) (mapping : list (string * string)) :
  initialises (sklearn_adapter name backend st mapping).
Proof.
  intros kwargs u d. simpl. intros E.
  apply bind_self_ok in E as [_ E].
  destruct (base_init_state _ _ _ _ _ E) as (? & ? & ? & _). auto.
Qed.

Lemma predict_score_world (L : Libs) (self : loc) (X : PyAny) (w : World)
  (r : Exc (list float)) (w' : World) :
  predict_score L self X w = (r, w') -> w' = w.
Proof.
  destruct (heap w !! self) as [o|] eqn:H.
  - rewrite (predict_score_eq L _ _ _ X H). now intros [= _ <-].
  - unfold predict_score, bind, lift.
    destruct (validate_input L X); [now intros [= _ <-]|].
    unfold backend_model, getattr, bind, get_obj. rewrite H.
    now intros [= _ <-].
Qed.

Lemma predict_world (L : Libs) (self : loc) (X : PyAny) (threshold : PyVal)
  (w : World) (r : Exc (list Z)) (w' : World) :
  predict L self X threshold w = (r, w') -> w' = w.
Proof.
  unfold predict. unfold bind at 1.
  destruct (heap w !! self) as [o|] eqn:H.
  2:{ unfold getattr, bind, get_obj. rewrite H. now intros [= _ <-]. }
  rewrite (getattr_eq _ _ _ _ H).
  destruct (__dict__ o !! "_is_fitted") as [v|]; [|now intros [= _ <-]].
  destruct (negb (truthy v)); [now intros [= _ <-]|].
  unfold bind at 1. rewrite (predict_score_eq L _ _ _ X H).
  destruct (scores_of L o X); [now intros [= _ <-]|].
  unfold bind at 1.
  destruct (negb (is_None threshold)).
  - unfold ret at 1. destruct (is_None threshold); [now intros [= _ <-]|].
    unfold bind, lift, ret. destruct (as_float threshold); now intros [= _ <-].
  - rewrite (getattr_eq _ _ _ _ H).
    destruct (__dict__ o !! "threshold_") as [tv|]; [|now intros [= _ <-]].
    destruct (is_None tv); [now intros [= _ <-]|].
    unfold bind, lift, ret. destruct (as_float tv); now intros [= _ <-].
Qed.

(** [fit], whatever its outcome, changes only attributes of [self], and not
    [contamination]. *)
Lemma fit_effect (L : Libs) (self : loc) (X : PyAny) (y : option PyAny)
  (w : World) (r : Exc loc) (w' : World) :
  fit L self X y w = (r, w') ->
  w' = w \/
  exists o d', heap w !! self = Some o /\ w' = with_dict w self o d' /\
    d' !! "contamination" = __dict__ o !! "contamination".
Proof.
  unfold fit, _set_seed. unfold bind at 1. unfold ret at 1. unfold bind at 1.
  destruct (_fit_backend L self X y w) as [rb w1] eqn:Efb.
  destruct (fit_backend_effect _ _ _ _ _ _ _ Efb) as [[-> [e ->]]|(o & m & H & ->)].
  { intros [= _ <-]. now left. }
  set (d1 := <["_backend_model" := VObj m]> (__dict__ o)).
  assert (Hd1 : d1 !! "contamination" = __dict__ o !! "contamination")
    by (unfold d1; now rewrite lookup_insert_ne by discriminate).
  pose proof (with_dict_lookup w self o d1) as H1.
  assert (Hstop : forall (rr : Exc loc),
            (rr, with_dict w self o d1) = (r, w') ->
            w' = w \/ exists o0 d', heap w !! self = Some o0 /\
              w' = with_dict w self o0 d' /\
              d' !! "contamination" = __dict__ o0 !! "contamination").
  { intros rr [= _ <-]. right. exists o, d1. auto. }
  destruct rb as [e|u]; [apply Hstop|].
  unfold bind at 1. rewrite (predict_score_eq L _ _ _ X H1).
  destruct (scores_of L _ X) as [e|scores]; [apply Hstop|].
  unfold bind at 1. rewrite (getattr_eq _ _ _ _ H1). simpl __dict__.
  destruct (d1 !! "contamination") as [cv|]; [|apply Hstop].
  unfold bind at 1, lift at 1.
  destruct (one_minus cv) as [e|p]; [apply Hstop|].
  unfold bind at 1, lift at 1.
  destruct (np_quantile L scores p) as [e|q]; [apply Hstop|].
  unfold bind at 1. rewrite (setattr_eq _ _ _ _ _ H1). simpl __dict__.
  rewrite with_dict_twice by reflexivity.
  unfold bind at 1.
  rewrite (setattr_eq _ _ _ _ _ (with_dict_lookup _ _ _ _)). simpl __dict__.
  rewrite with_dict_twice by reflexivity.
  unfold ret. intros [= _ <-]. right. eexists o, _. split; [exact H|].
  split; [reflexivity|].
  unfold d1. now rewrite !lookup_insert_ne by discriminate.
Qed.

Lemma attr_with_dict (w : World) (self l : loc) (o : Detector) (d : Dict)
  (name : string) :
  heap w !! self = Some o ->
  d !! name = __dict__ o !! name ->
  attr (with_dict w self o d) l name = attr w l name.
Proof.
  intros H Hd. unfold attr, dict_at.
  destruct (decide (l = self)) as [->|Hne].
  - now rewrite with_dict_lookup, H.
  - now rewrite with_dict_other.
Qed.






Section Invariant.

Variable L : Libs.

Lemma IsolationForestAdapter_init (kwargs : Dict) (u : unit) (d : Dict) :
  cls_init (IsolationForestAdapter L) kwargs ∅ = (inr u, d) ->
  d !! "_is_fitted" = Some (VBool false) /\
  d !! "threshold_" = Some VNone /\
  d !! "_backend_model" = Some VNone /\
  d !! "contamination" = Some (default (VFloat 0.1) (kwargs !! "contamination")).
Proof.
  simpl. intros E. apply bind_self_ok in E as [_ E]. revert E.
  unfold pop_arg, IsolationForestAdapter__init__.
  unfold bind at 1, set_item at 1. unfold bind at 1, set_item at 1.
  unfold bind at 1, set_item at 1.
  intros E. destruct (base_init_state _ _ _ _ _ E) as (? & ? & ? & Hc).
  repeat split; try assumption.
  rewrite Hc. f_equal. now rewrite lookup_delete_ne by discriminate.
Qed.



End Invariant.

(** * Further properties of the code *)

(** ** Validation *)

Lemma ExnType_eqb_eq (a b : ExnType) : ExnType_eqb a b = true <-> a = b.
Proof. split; [destruct a, b; simpl; congruence | intros ->; now destruct b]. Qed.

Section ValidationFacts.

Variable L : Libs.

(** X1. An error of [validate_input] is never a [ValueError]: it is a
    [DataFormatError], or an error of another type that [check_array] raised
    and that is passed on as it is. *)
Theorem validate_input_errors (X : PyAny) (e : Exn) :
  validate_input L X = inl e ->
  exn_type e <> ValueError /\
  (exn_type e = DataFormatError \/
   exists a, check_array L a common_args = inl e).
Proof.
  unfold validate_input.
  destruct (_to_numpy L X) as [e0|a].
  { intros [= <-]. simpl. split; [discriminate | now left]. }
  unfold _check_array_compat.
  destruct (check_array L _ common_args) as [e1|a'] eqn:Ec; [|discriminate].
  destruct (ExnType_eqb (exn_type e1) ValueError) eqn:Et.
  - intros [= <-]. simpl. split; [discriminate | now left].
  - intros [= <-]. split.
    + intros E. apply ExnType_eqb_eq in E. congruence.
    + right. eauto.
Qed.

End ValidationFacts.

(** ** Constructor arguments of the backend *)

Lemma apply_param_mapping_lookup (mapping : list (string * string))
  (attrs init_params : Dict) (k : string) :
  apply_param_mapping mapping attrs init_params !! k
  = match mapped_value mapping attrs k with
    | Some v => Some v
    | None => init_params !! k
    end.
Proof.
  revert init_params. induction mapping as [|[local_name backend_name] rest IH];
    intros init_params; [reflexivity|].
  simpl. rewrite IH.
  destruct (mapped_value rest attrs k) as [v|]; [reflexivity|].
  destruct (attrs !! local_name) as [value|].
  - destruct (String.eqb_spec backend_name k) as [->|Hne].
    + apply lookup_insert_eq.
    + now apply lookup_insert_ne.
  - now destruct (String.eqb backend_name k).
Qed.

(** X2. The layers of the backend's constructor arguments, as
    [_fit_backend] applies them: a key of [backend_options] takes its value
    from there; otherwise a key targeted by the parameter mapping takes the
    mapped attribute; otherwise the key takes its value from [kwargs],
    except [backend_options] itself, which is never passed on. *)
Theorem init_params_layers (mapping : list (string * string))
  (attrs kwargs bo : Dict) :
  exists init_params,
    init_params_of mapping attrs kwargs (VDict bo) = inr init_params /\
    forall k,
      init_params !! k
      = match bo !! k with
        | Some v => Some v
        | None =>
            match mapped_value mapping attrs k with
            | Some v => Some v
            | None => if String.eqb k "backend_options" then None else kwargs !! k
            end
        end.
Proof.
  eexists. split; [reflexivity|]. intros k.
  rewrite lookup_union. rewrite apply_param_mapping_lookup.
  destruct (bo !! k) as [v|]; simpl.
  { now destruct (match mapped_value mapping attrs k with
                  | Some v0 => Some v0 | None => _ end). }
  destruct (mapped_value mapping attrs k) as [v|]; simpl; [reflexivity|].
  destruct (String.eqb_spec k "backend_options") as [->|Hne].
  - now rewrite lookup_delete_eq.
  - rewrite lookup_delete_ne by congruence. now destruct (kwargs !! k).
Qed.

Section ConstructorCall.

Variable L : Libs.

(** X3. On valid input [_fit_backend] calls the backend class with the
    assembled arguments.  When the constructor raises (an unexpected keyword,
    say) the error comes out of [_fit_backend] and the detector is as
    before; otherwise the new estimator is installed as [_backend_model],
    fitted in place, and the outcome of its [fit] is the outcome of
    [_fit_backend], the estimator staying installed when its [fit]
    raises. *)
Theorem fit_backend_constructor (w : World) (self : loc) (o : Detector)
  (X : PyAny) (Xv : ndarray) (y : option PyAny)
  (backend_cls : Dict -> Exc Estimator) (kwargs : Dict) (bo : PyVal)
  (init_params : Dict) :
  heap w !! self = Some o ->
  validate_input L X = inr Xv ->
  _backend_cls (__class__ o) = Some backend_cls ->
  __dict__ o !! "kwargs" = Some (VDict kwargs) ->
  __dict__ o !! "backend_options" = Some bo ->
  init_params_of (_param_mapping (__class__ o)) (__dict__ o) kwargs bo
  = inr init_params ->
  match backend_cls init_params with
  | inl e => _fit_backend L self X y w = (inl e, w)
  | inr model =>
      _fit_backend L self X y w
      = (fst (estimator_fit model Xv y),
         with_dict w self o
           (<["_backend_model" := VObj (snd (estimator_fit model Xv y))]>
              (__dict__ o)))
  end.
Proof.
  intros H HX Hcls Hkw Hbo Hip.
  unfold _fit_backend, bind, lift.
  rewrite HX, (get_obj_eq _ _ _ H), Hcls, !(getattr_eq _ _ _ _ H), Hkw.
  simpl as_dict. unfold ret. rewrite Hbo, Hip.
  destruct (backend_cls init_params) as [e|model]; [reflexivity|].
  rewrite (setattr_eq _ _ _ _ _ H).
  destruct (estimator_fit model Xv y) as [rf model']. simpl fst. simpl snd.
  rewrite (setattr_eq _ _ _ _ _ (with_dict_lookup _ _ _ _)). simpl __dict__.
  rewrite insert_insert_eq, with_dict_twice by reflexivity.
  now destruct rf.
Qed.

End ConstructorCall.

(** ** The isolation-forest adapter *)

Section IsolationForestFacts.

Variable L : Libs.

Lemma iforest_init_dict (kwargs : Dict) :
  kwargs !! "self" = None ->
  cls_init (IsolationForestAdapter L) kwargs ∅
  = (inr tt,
     <["kwargs" := VDict (iforest_kwargs kwargs)]>
       (<["backend_options" := default (VDict ∅) (kwargs !! "backend_options")]>
          (<["_is_fitted" := VBool false]>
             (<["threshold_" := VNone]>
                (<["_backend_model" := VNone]>
                   (<["contamination" := default (VFloat 0.1) (kwargs !! "contamination")]>
                      (<["random_state" := default VNone (kwargs !! "random_state")]>
                         (<["n_jobs" := default (VInt (-1)) (kwargs !! "n_jobs")]>
                            (<["n_estimators" :=
                                 default (VInt 100) (kwargs !! "n_estimators")]> ∅))))))))).
Proof.
  intros Hself. simpl. unfold bind at 1, bind_self. rewrite Hself.
  unfold ret at 1.
  unfold pop_arg, IsolationForestAdapter__init__,
    BaseSklearnAdapter__init__, BaseDetector__init__, bind, set_item.
  unfold iforest_kwargs.
  rewrite !lookup_insert_ne by discriminate.
  rewrite !lookup_delete_ne by discriminate. reflexivity.
Qed.

Lemma iforest_kwargs_lookup (kwargs : Dict) :
  iforest_kwargs kwargs !! "n_estimators"
  = Some (default (VInt 100) (kwargs !! "n_estimators")) /\
  iforest_kwargs kwargs !! "n_jobs"
  = Some (default (VInt (-1)) (kwargs !! "n_jobs")) /\
  iforest_kwargs kwargs !! "random_state"
  = Some (default VNone (kwargs !! "random_state")) /\
  iforest_kwargs kwargs !! "contamination" = None /\
  (forall k, k <> "n_estimators" -> k <> "n_jobs" -> k <> "random_state" ->
     k <> "contamination" -> iforest_kwargs kwargs !! k = kwargs !! k).
Proof.
  unfold iforest_kwargs. repeat split.
  - apply lookup_insert_eq.
  - rewrite lookup_insert_ne by discriminate. apply lookup_insert_eq.
  - rewrite !lookup_insert_ne by discriminate. apply lookup_insert_eq.
  - rewrite !lookup_insert_ne by discriminate.
    rewrite !lookup_delete_ne by discriminate. apply lookup_delete_eq.
  - intros k H1 H2 H3 H4.
    rewrite !lookup_insert_ne by congruence.
    now rewrite !lookup_delete_ne by congruence.
Qed.

(** X4. Constructing [IsolationForestAdapter] with a keyword named [self]
    raises [TypeError], the keyword colliding with the instance, and
    allocates nothing.  With any other keyword arguments it succeeds, no
    keyword being rejected: the new object is unfitted; its named parameters
    take the values given, or the defaults 100, 0.1, -1 and [None]; and the
    keyword arguments it keeps for the backend hold the three backend
    parameters and every keyword that is not a named parameter, but never
    [contamination]. *)
Theorem iforest_construct (kwargs : Dict) (w : World) :
  (is_Some (kwargs !! "self") ->
   construct (IsolationForestAdapter L) kwargs w
   = (inl (mkExn TypeError
             "IsolationForestAdapter.__init__() got multiple values for argument 'self'"),
      w)) /\
  (kwargs !! "self" = None ->
   exists l w',
    construct (IsolationForestAdapter L) kwargs w = (inr l, w') /\
    heap w !! l = None /\
    attr w' l "n_estimators" = Some (default (VInt 100) (kwargs !! "n_estimators")) /\
    attr w' l "contamination" = Some (default (VFloat 0.1) (kwargs !! "contamination")) /\
    attr w' l "n_jobs" = Some (default (VInt (-1)) (kwargs !! "n_jobs")) /\
    attr w' l "random_state" = Some (default VNone (kwargs !! "random_state")) /\
    attr w' l "backend_options"
    = Some (default (VDict ∅) (kwargs !! "backend_options")) /\
    attr w' l "_is_fitted" = Some (VBool false) /\
    attr w' l "threshold_" = Some VNone /\
    attr w' l "_backend_model" = Some VNone /\
    kwargs_at w' l !! "n_estimators"
    = Some (default (VInt 100) (kwargs !! "n_estimators")) /\
    kwargs_at w' l !! "n_jobs" = Some (default (VInt (-1)) (kwargs !! "n_jobs")) /\
    kwargs_at w' l !! "random_state"
    = Some (default VNone (kwargs !! "random_state")) /\
    kwargs_at w' l !! "contamination" = None /\
    (forall k, k <> "n_estimators" -> k <> "n_jobs" -> k <> "random_state" ->
       k <> "contamination" -> kwargs_at w' l !! k = kwargs !! k)).
Proof.
  split.
  - intros [v Hv]. unfold construct. simpl cls_init.
    unfold bind at 1, bind_self. now rewrite Hv.
  - intros Hself. unfold construct. rewrite (iforest_init_dict _ Hself).
    eexists _, _. split; [reflexivity|].
    split; [apply not_elem_of_dom, is_fresh|].
    unfold kwargs_at, attr, dict_at. simpl heap. rewrite lookup_insert_eq.
    simpl __dict__. rewrite lookup_insert_eq.
    destruct (iforest_kwargs_lookup kwargs) as (H1 & H2 & H3 & H4 & H5).
    repeat (split; [repeat (rewrite lookup_insert_ne by discriminate);
                    first [apply lookup_insert_eq | assumption]|]).
    exact H5.
Qed.

(** X5. What the backend constructor receives for a detector made by
    [IsolationForestAdapter]: the entries of [backend_options] first; then
    [n_estimators], [n_jobs] and [random_state] as given or defaulted, and
    every other keyword as given; [contamination] and [backend_options]
    themselves are not passed unless [backend_options] names them. *)
Theorem iforest_backend_params (kwargs bo : Dict) (u : unit) (d : Dict) :
  cls_init (IsolationForestAdapter L) kwargs ∅ = (inr u, d) ->
  default (VDict ∅) (kwargs !! "backend_options") = VDict bo ->
  exists stored init_params,
    d !! "kwargs" = Some (VDict stored) /\
    d !! "backend_options" = Some (VDict bo) /\
    init_params_of (_param_mapping (IsolationForestAdapter L)) d stored (VDict bo)
    = inr init_params /\
    (forall k v, bo !! k = Some v -> init_params !! k = Some v) /\
    (bo !! "n_estimators" = None ->
       init_params !! "n_estimators"
       = Some (default (VInt 100) (kwargs !! "n_estimators"))) /\
    (bo !! "n_jobs" = None ->
       init_params !! "n_jobs" = Some (default (VInt (-1)) (kwargs !! "n_jobs"))) /\
    (bo !! "random_state" = None ->
       init_params !! "random_state"
       = Some (default VNone (kwargs !! "random_state"))) /\
    (bo !! "contamination" = None -> init_params !! "contamination" = None) /\
    (bo !! "backend_options" = None -> init_params !! "backend_options" = None) /\
    (forall k, bo !! k = None ->
       k <> "n_estimators" -> k <> "n_jobs" -> k <> "random_state" ->
       k <> "contamination" -> k <> "backend_options" ->
       init_params !! k = kwargs !! k).
Proof.
  intros E. pose proof E as E0. simpl cls_init in E0.
  apply bind_self_ok in E0 as [Hself _].
  rewrite (iforest_init_dict _ Hself) in E. revert E. intros [= _ <-] Hbo.
  exists (iforest_kwargs kwargs), (bo ∪ delete "backend_options" (iforest_kwargs kwargs)).
  destruct (iforest_kwargs_lookup kwargs) as (H1 & H2 & H3 & H4 & H5).
  split; [apply lookup_insert_eq|].
  split; [rewrite lookup_insert_ne by discriminate; rewrite lookup_insert_eq;
          now rewrite Hbo|].
  split; [reflexivity|].
  assert (Hnone : forall k, bo !! k = None ->
            (bo ∪ delete "backend_options" (iforest_kwargs kwargs)) !! k
            = delete "backend_options" (iforest_kwargs kwargs) !! k).
  { intros k Hk. rewrite lookup_union, Hk.
    now destruct (delete "backend_options" (iforest_kwargs kwargs) !! k). }
  split; [intros k v Hk; now apply lookup_union_Some_l|].
  split; [intros Hk; rewrite (Hnone _ Hk), lookup_delete_ne by discriminate; exact H1|].
  split; [intros Hk; rewrite (Hnone _ Hk), lookup_delete_ne by discriminate; exact H2|].
  split; [intros Hk; rewrite (Hnone _ Hk), lookup_delete_ne by discriminate; exact H3|].
  split; [intros Hk; rewrite (Hnone _ Hk), lookup_delete_ne by discriminate; exact H4|].
  split; [intros Hk; rewrite (Hnone _ Hk); apply lookup_delete_eq|].
  intros k Hk N1 N2 N3 N4 N5.
  rewrite (Hnone _ Hk), lookup_delete_ne by congruence. now apply H5.
Qed.

(** X6. A freshly constructed [IsolationForestAdapter] is guarded on every
    path: [predict] raises [ModelNotFittedError] for every input and
    threshold, the [backend_model] property raises it, [predict_score]
    raises it on every valid input, and [save] raises it and writes
    nothing. *)
Theorem iforest_fresh_guards (kwargs : Dict) (w : World) (l : loc) (w' : World) :
  construct (IsolationForestAdapter L) kwargs w = (inr l, w') ->
  (forall X threshold,
     predict L l X threshold w'
     = (inl (mkExn ModelNotFittedError "Model is not fitted. Call fit() first."), w')) /\
  backend_model l w'
  = (inl (mkExn ModelNotFittedError "The backend model is not initialized or fitted."),
     w') /\
  (forall X Xv, validate_input L X = inr Xv ->
     predict_score L l X w'
     = (inl (mkExn ModelNotFittedError
               "The backend model is not initialized or fitted."), w')) /\
  (forall filepath,
     save L l filepath w'
     = (inl (mkExn ModelNotFittedError
               "The backend model is not initialized or fitted."), w')).
Proof.
  intros E.
  destruct (construct_new _ _ _ _ _ E) as (_ & d & Hd & Hl & _ & _).
  destruct (IsolationForestAdapter_init L _ _ _ Hd) as (Hf & Ht & Hb & Hc).
  set (o := {| __class__ := IsolationForestAdapter L; __dict__ := d |}) in *.
  assert (Hbm := backend_model_null _ _ _ Hl Hb).
  split; [|split; [exact Hbm|split]].
  - intros X threshold. unfold predict, bind.
    rewrite (getattr_eq _ _ _ _ Hl). simpl __dict__. now rewrite Hf.
  - intros X Xv HX. unfold predict_score, bind, lift. now rewrite HX, Hbm.
  - intros filepath. unfold save, bind.
    rewrite (get_obj_eq _ _ _ Hl), !(getattr_eq _ _ _ _ Hl). simpl __dict__.
    rewrite Hc, Ht. unfold _save_backend, bind. now rewrite Hbm.
Qed.

End IsolationForestFacts.

(** ** Fitting, scoring and what they leave alone *)

Section FitFacts.

Variable L : Libs.

Lemma fit_raises_effect (self : loc) (X : PyAny) (y : option PyAny) (w : World)
  (e : Exn) (w' : World) :
  fit L self X y w = (inl e, w') ->
  w' = w \/
  exists o m, heap w !! self = Some o /\
    w' = with_dict w self o (<["_backend_model" := VObj m]> (__dict__ o)).
Proof.
  unfold fit, _set_seed. unfold bind at 1. unfold ret at 1. unfold bind at 1.
  destruct (_fit_backend L self X y w) as [rb w1] eqn:Efb.
  destruct (fit_backend_effect _ _ _ _ _ _ _ Efb) as [[-> [e0 ->]]|(o & m & H & ->)].
  { intros [= _ <-]. now left. }
  set (d1 := <["_backend_model" := VObj m]> (__dict__ o)).
  pose proof (with_dict_lookup w self o d1) as H1.
  assert (Hstop : forall (rr : Exc loc),
            (rr, with_dict w self o d1) = (inl e, w') ->
            w' = w \/ exists o0 m0, heap w !! self = Some o0 /\
              w' = with_dict w self o0 (<["_backend_model" := VObj m0]> (__dict__ o0))).
  { intros rr [= _ <-]. right. exists o, m. auto. }
  destruct rb as [e0|u]; [apply Hstop|].
  unfold bind at 1. rewrite (predict_score_eq L _ _ _ X H1).
  destruct (scores_of L _ X) as [e0|scores]; [apply Hstop|].
  unfold bind at 1. rewrite (getattr_eq _ _ _ _ H1). simpl __dict__.
  destruct (d1 !! "contamination") as [cv|]; [|apply Hstop].
  unfold bind at 1, lift at 1.
  destruct (one_minus cv) as [e0|p]; [apply Hstop|].
  unfold bind at 1, lift at 1.
  destruct (np_quantile L scores p) as [e0|q]; [apply Hstop|].
  unfold bind at 1. rewrite (setattr_eq _ _ _ _ _ H1). simpl __dict__.
  rewrite with_dict_twice by reflexivity.
  unfold bind at 1.
  rewrite (setattr_eq _ _ _ _ _ (with_dict_lookup _ _ _ _)).
  unfold ret. discriminate.
Qed.

(** X7. A [fit] that raises sets neither the fitted flag nor the threshold:
    it leaves the files, every other detector, and every attribute of its
    own detector other than [_backend_model] as they were. *)
Theorem fit_failure_keeps_state (self : loc) (X : PyAny) (y : option PyAny)
  (w : World) (e : Exn) (w' : World) :
  fit L self X y w = (inl e, w') ->
  fs w' = fs w /\
  (forall l, l <> self -> heap w' !! l = heap w !! l) /\
  (forall k, k <> "_backend_model" -> attr w' self k = attr w self k).
Proof.
  intros E. destruct (fit_raises_effect _ _ _ _ _ _ E) as [->|(o & m & H & ->)];
    [auto|].
  split; [reflexivity|]. split.
  - intros l Hne. now apply with_dict_other.
  - intros k Hne. apply attr_with_dict; [exact H|].
    now rewrite lookup_insert_ne by congruence.
Qed.

(** X8. [fit] on an adapter that defines no backend class raises
    [ConfigError] naming the adapter, after validating the input (so invalid
    input raises the validation error instead), and changes nothing. *)
Theorem fit_without_backend_class (w : World) (self : loc) (o : Detector)
  (X : PyAny) (y : option PyAny) :
  heap w !! self = Some o ->
  _backend_cls (__class__ o) = None ->
  fit L self X y w
  = (match validate_input L X with
     | inl e => inl e
     | inr _ =>
         inl (mkExn ConfigError
                ("Adapter " +:+ cls_name (__class__ o) +:+
                 " must define '_backend_cls'."))
     end, w).
Proof.
  intros H Hc. unfold fit, _set_seed. unfold bind at 1. unfold ret at 1.
  unfold bind at 1. unfold _fit_backend, bind, lift.
  destruct (validate_input L X) as [e|Xv]; [reflexivity|].
  now rewrite (get_obj_eq _ _ _ H), Hc.
Qed.

(** X9. [predict_score] and [predict] are read-only: whatever they return or
    raise, the detectors and the files are as before. *)
Theorem scoring_is_read_only :
  (forall self X w r w', predict_score L self X w = (r, w') -> w' = w) /\
  (forall self X threshold w r w', predict L self X threshold w = (r, w') -> w' = w).
Proof.
  split.
  - intros self X w r w'. apply predict_score_world.
  - intros self X threshold w r w'. apply predict_world.
Qed.

(** X10. [predict_score] validates before it touches the backend: invalid
    input raises the validation error on a fitted and on an unfitted
    detector alike, and valid input on a detector without backend raises
    [ModelNotFittedError]. *)
Theorem predict_score_validates_first (w : World) (self : loc) (o : Detector)
  (X : PyAny) :
  heap w !! self = Some o ->
  (forall e, validate_input L X = inl e -> predict_score L self X w = (inl e, w)) /\
  (forall Xv, validate_input L X = inr Xv ->
     __dict__ o !! "_backend_model" = Some VNone ->
     predict_score L self X w
     = (inl (mkExn ModelNotFittedError
               "The backend model is not initialized or fitted."), w)).
Proof.
  intros H. split.
  - intros e HX. unfold predict_score, bind, lift. now rewrite HX.
  - intros Xv HX Hb. unfold predict_score, bind, lift.
    now rewrite HX, (backend_model_null _ _ _ H Hb).
Qed.

End FitFacts.

(** ** Archives *)

Section Archives.

Variable L : Libs.

Lemma saved_tree_dom (o : Detector) (m cv tv : PyVal) :
  dom (saved_tree o m cv tv) = archive_members.
Proof.
  unfold saved_tree, archive_members.
  rewrite !dom_insert_L, dom_empty_L. set_solver.
Qed.

Lemma save_returns (self : loc) (filepath : string) (w : World) (u : unit)
  (w' : World) :
  save L self filepath w = (inr u, w') ->
  exists o m cv tv,
    heap w !! self = Some o /\
    __dict__ o !! "_backend_model" = Some m /\ is_None m = false /\
    __dict__ o !! "contamination" = Some cv /\
    __dict__ o !! "threshold_" = Some tv /\
    heap w' = heap w /\
    shutil_make_archive L (fst (os_path_splitext filepath))
      (saved_tree o m cv tv) (fs w)
    = (inr u, fs w').
Proof.
  intros E.
  destruct (save_heap L _ _ _ _ _ E)
    as [Hheap [[_ [e [=]]]|(o & m & cv & tv & H & Hm & Hn & Hc & Ht & Hw)]].
  exists o, m, cv, tv. repeat split; assumption.
Qed.

(** X11. A [save] that returns has made one call of [shutil.make_archive],
    with the path stripped of its extension as the base name (the name to
    which [shutil] adds [.zip]), and has changed no detector; the files are
    as that call left them.  The tree it packed has exactly four members;
    its attributes part is the attribute dictionary of the detector without
    [_backend_model]; its backend part is the backend model, which was not
    [None]; and its metadata names the class, the contamination, the
    threshold and the library version. *)
Theorem save_archive_contents (self : loc) (filepath : string) (w : World)
  (u : unit) (w' : World) :
  save L self filepath w = (inr u, w') ->
  exists o m cv tv t,
    heap w !! self = Some o /\
    heap w' = heap w /\
    shutil_make_archive L (fst (os_path_splitext filepath)) t (fs w)
    = (inr u, fs w') /\
    dom t = archive_members /\
    t !! "attributes.pkl"
    = Some (PickleBlob (VDict (delete "_backend_model" (__dict__ o)))) /\
    t !! "backend/model.joblib" = Some (PickleBlob m) /\
    __dict__ o !! "_backend_model" = Some m /\ is_None m = false /\
    t !! "backend" = Some DirNode /\
    __dict__ o !! "contamination" = Some cv /\
    __dict__ o !! "threshold_" = Some tv /\
    t !! "metadata.json"
    = Some (JsonBlob (VDict
              (<["class_name" := VStr (cls_name (__class__ o))]>
                 (<["contamination" := cv]>
                    (<["threshold" := tv]>
                       (<["version" := VStr "0.1.0"]> ∅)))))).
Proof.
  intros E.
  destruct (save_returns _ _ _ _ _ E)
    as (o & m & cv & tv & H & Hm & Hn & Hc & Ht & Hheap & Hw).
  exists o, m, cv, tv, (saved_tree o m cv tv).
  split; [exact H|]. split; [exact Hheap|]. split; [exact Hw|].
  split; [apply saved_tree_dom|].
  split; [unfold saved_tree; apply lookup_insert_eq|].
  split; [unfold saved_tree; rewrite lookup_insert_ne by discriminate;
          apply lookup_insert_eq|].
  split; [exact Hm|]. split; [exact Hn|].
  split; [unfold saved_tree; rewrite !lookup_insert_ne by discriminate;
          apply lookup_insert_eq|].
  split; [exact Hc|]. split; [exact Ht|].
  unfold saved_tree. rewrite !lookup_insert_ne by discriminate.
  apply lookup_insert_eq.
Qed.

(** ** Loading *)

Lemma load_restore (self : loc) (filepath : string) (w : World) :
  load L self filepath w
  = (let* tmp_dir := unpack_archive L (load_path L filepath (fs w)) in
     restore self tmp_dir) w.
Proof. reflexivity. Qed.

(** X12. [load] probes for the archive extension: when nothing exists at
    the path given and something exists at that path with [.zip] appended,
    [load] behaves as on the longer path. *)
Theorem load_probes_extension (self : loc) (filepath : string) (w : World) :
  os_path_exists L (fs w) filepath = false ->
  os_path_exists L (fs w) (filepath +:+ ".zip") = true ->
  load L self filepath w = load L self (filepath +:+ ".zip") w.
Proof.
  intros Hnone Hzip. rewrite !load_restore.
  assert (E1 : load_path L filepath (fs w) = filepath +:+ ".zip").
  { unfold load_path. now rewrite Hnone, Hzip. }
  assert (E2 : load_path L (filepath +:+ ".zip") (fs w) = filepath +:+ ".zip").
  { unfold load_path. now rewrite Hzip. }
  unfold bind. now rewrite E1, E2.
Qed.

(** X13. [load] raises and changes nothing when the archive or its
    attributes part is missing.  Whatever [shutil.unpack_archive] raises for
    the path [load] opens (no such file, an unknown format, a file that is
    no archive) comes out of [load] as it is; and when the unpacked archive
    has no [attributes.pkl], [load] raises [FileNotFoundError]. *)
Theorem load_missing_parts (self : loc) (filepath : string) (w : World) :
  (forall e,
     shutil_unpack_archive L (fs w) (load_path L filepath (fs w)) = inl e ->
     load L self filepath w = (inl e, w)) /\
  (forall t,
     shutil_unpack_archive L (fs w) (load_path L filepath (fs w)) = inr t ->
     t !! "attributes.pkl" = None ->
     exists msg, load L self filepath w = (inl (mkExn FileNotFoundError msg), w)).
Proof.
  split.
  - intros e Hu. rewrite load_restore. unfold bind, unpack_archive.
    now rewrite Hu.
  - intros t Hu Ha. rewrite load_restore. unfold bind at 1.
    unfold unpack_archive. rewrite Hu.
    unfold restore, bind, lift, joblib_load. rewrite Ha. eauto.
Qed.

(** The restoring part of [load] reads two members of the tree and no
    file. *)
Lemma restore_tree_ext (self : loc) (t t2 : Tree) (w : World) :
  t2 !! "attributes.pkl" = t !! "attributes.pkl" ->
  t2 !! "backend/model.joblib" = t !! "backend/model.joblib" ->
  restore self t2 w = restore self t w.
Proof.
  intros Ha Hm. unfold restore, _load_backend, joblib_load.
  change (os_path_join "backend" "model.joblib") with "backend/model.joblib".
  now rewrite Ha, Hm.
Qed.

(** ** Computations that leave the files alone *)

Lemma heap_only_ret {A : Type} (a : A) : heap_only (ret a).
Proof. intros w F. reflexivity. Qed.

Lemma heap_only_lift {A : Type} (r : Exc A) : heap_only (lift r).
Proof. intros w F. reflexivity. Qed.

Lemma heap_only_raise {A : Type} (t : ExnType) (msg : string) :
  heap_only (@raise World A t msg).
Proof. intros w F. reflexivity. Qed.

Lemma heap_only_bind {A B : Type} (m : ST World A) (k : A -> ST World B) :
  heap_only m -> (forall a, heap_only (k a)) -> heap_only (bind m k).
Proof.
  intros Hm Hk w F. unfold bind. rewrite Hm.
  destruct (m w) as [[e|a] w1]; simpl; [reflexivity|].
  apply Hk.
Qed.

Lemma heap_only_get_obj (self : loc) : heap_only (get_obj self).
Proof. intros w F. unfold get_obj. simpl. now destruct (heap w !! self). Qed.

Lemma heap_only_set_dict (self : loc) (d : Dict) : heap_only (set_dict self d).
Proof. intros w F. unfold set_dict. simpl. now destruct (heap w !! self). Qed.

Lemma heap_only_getattr (self : loc) (name : string) : heap_only (getattr self name).
Proof.
  apply heap_only_bind; [apply heap_only_get_obj|].
  intros o. destruct (__dict__ o !! name); [apply heap_only_ret | apply heap_only_raise].
Qed.

Lemma heap_only_setattr (self : loc) (name : string) (v : PyVal) :
  heap_only (setattr self name v).
Proof.
  apply heap_only_bind; [apply heap_only_get_obj|].
  intros o. apply heap_only_set_dict.
Qed.

Lemma heap_only_load_backend (self : loc) (path : string) (t : Tree) :
  heap_only (_load_backend self path t).
Proof.
  unfold _load_backend. destruct (negb _); [apply heap_only_raise|].
  apply heap_only_bind; [apply heap_only_lift|].
  intros m. apply heap_only_setattr.
Qed.

Lemma heap_only_restore (self : loc) (t : Tree) : heap_only (restore self t).
Proof.
  unfold restore.
  apply heap_only_bind; [apply heap_only_lift|]. intros attributes.
  apply heap_only_bind; [apply heap_only_get_obj|]. intros o.
  apply heap_only_bind; [apply heap_only_lift|]. intros updated.
  apply heap_only_bind; [apply heap_only_set_dict|]. intros _.
  apply heap_only_bind; [apply heap_only_load_backend|]. intros _.
  apply heap_only_bind; [apply heap_only_setattr|]. intros _.
  apply heap_only_ret.
Qed.

Lemma heap_only_fs {A : Type} (m : ST World A) (w : World) :
  heap_only m -> fs (snd (m w)) = fs w.
Proof.
  intros Hm. specialize (Hm w (fs w)). destruct w as [h F]. simpl in *.
  now rewrite Hm.
Qed.

(** X14. [load] reads the attributes part and the backend model file of the
    archive and nothing else: with other files, among which the same two
    paths exist and the archive unpacks to a tree with the same two members
    (another metadata part, or none), [load] gives the same result and the
    same detectors. *)
Theorem load_reads_two_members (self : loc) (filepath : string) (w : World)
  (files2 : FileSystem) (t t2 : Tree) :
  os_path_exists L files2 filepath = os_path_exists L (fs w) filepath ->
  os_path_exists L files2 (filepath +:+ ".zip")
  = os_path_exists L (fs w) (filepath +:+ ".zip") ->
  shutil_unpack_archive L (fs w) (load_path L filepath (fs w)) = inr t ->
  shutil_unpack_archive L files2 (load_path L filepath (fs w)) = inr t2 ->
  t2 !! "attributes.pkl" = t !! "attributes.pkl" ->
  t2 !! "backend/model.joblib" = t !! "backend/model.joblib" ->
  fst (load L self filepath {| heap := heap w; fs := files2 |})
  = fst (load L self filepath w) /\
  heap (snd (load L self filepath {| heap := heap w; fs := files2 |}))
  = heap (snd (load L self filepath w)).
Proof.
  intros He1 He2 Hu Hu2 Ha Hm.
  assert (Hlp : load_path L filepath files2 = load_path L filepath (fs w)).
  { unfold load_path. now rewrite He1, He2. }
  rewrite !load_restore. unfold bind, unpack_archive.
  simpl fs. rewrite Hlp, Hu, Hu2.
  rewrite (restore_tree_ext self t t2 _ Ha Hm).
  rewrite (heap_only_restore self t w). split; reflexivity.
Qed.


(** [load] of the archive [save] wrote, under the name [shutil] gave it. *)
Lemma load_written (w : World) (src dst : loc) (o o_dst : Detector)
  (filepath : string) (m cv tv : PyVal) (files : FileSystem) :
  heap w !! src = Some o ->
  __dict__ o !! "_backend_model" = Some m ->
  is_None m = false ->
  __dict__ o !! "contamination" = Some cv ->
  __dict__ o !! "threshold_" = Some tv ->
  heap w !! dst = Some o_dst ->
  shutil_make_archive L (fst (os_path_splitext filepath)) (saved_tree o m cv tv)
    (fs w) = (inr tt, files) ->
  os_path_exists L files (fst (os_path_splitext filepath) +:+ ".zip") = true ->
  shutil_unpack_archive L files (fst (os_path_splitext filepath) +:+ ".zip")
  = inr (saved_tree o m cv tv) ->
  save L src filepath w = (inr tt, {| heap := heap w; fs := files |}) /\
  load L dst (fst (os_path_splitext filepath) +:+ ".zip")
    {| heap := heap w; fs := files |}
  = (inr dst,
     with_dict {| heap := heap w; fs := files |} dst o_dst
       (loaded_dict (__dict__ o_dst) (delete "_backend_model" (__dict__ o)) m)).
Proof.
  intros H Hm Hn Hc Ht Hd Hw Hex Hu.
  split; [exact (save_written L _ _ _ _ _ _ _ _ _ H Hm Hn Hc Ht Hw)|].
  set (q := fst (os_path_splitext filepath) +:+ ".zip") in *.
  assert (Hlp : load_path L q files = q)
    by (unfold load_path; now rewrite Hex).
  apply (load_ok L _ _ _ _ (saved_tree o m cv tv)); [exact Hd | | |].
  - simpl fs. rewrite Hlp. exact Hu.
  - unfold saved_tree. apply lookup_insert_eq.
  - unfold saved_tree. rewrite lookup_insert_ne by discriminate.
    apply lookup_insert_eq.
Qed.

(** X16. For every path, [save] followed by [load] of the path [save]
    wrote, the path with its extension replaced by [.zip], restores every
    attribute of the saved detector, the backend model included, on any
    target detector, and the fitted flag of the target is true: provided
    the call of [shutil.make_archive] returns and the file system then
    shows the archive under that name and unpacks it to the tree that was
    packed.  When the target has no attribute the saved detector lacks, as a
    fresh detector of the same class has none, its whole attribute
    dictionary is the saved one with the flag set. *)
Theorem save_load_written_path (w : World) (src dst : loc) (o o_dst : Detector)
  (filepath : string) (m cv tv : PyVal) (files : FileSystem) :
  heap w !! src = Some o ->
  __dict__ o !! "_backend_model" = Some m ->
  is_None m = false ->
  __dict__ o !! "contamination" = Some cv ->
  __dict__ o !! "threshold_" = Some tv ->
  heap w !! dst = Some o_dst ->
  shutil_make_archive L (fst (os_path_splitext filepath)) (saved_tree o m cv tv)
    (fs w) = (inr tt, files) ->
  os_path_exists L files (fst (os_path_splitext filepath) +:+ ".zip") = true ->
  shutil_unpack_archive L files (fst (os_path_splitext filepath) +:+ ".zip")
  = inr (saved_tree o m cv tv) ->
  exists w1 w2,
    save L src filepath w = (inr tt, w1) /\
    fs w1 = files /\
    load L dst (fst (os_path_splitext filepath) +:+ ".zip") w1 = (inr dst, w2) /\
    attr w2 dst "_is_fitted" = Some (VBool true) /\
    (forall k v, k <> "_is_fitted" -> __dict__ o !! k = Some v ->
       attr w2 dst k = Some v) /\
    ((forall k, is_Some (__dict__ o_dst !! k) -> is_Some (__dict__ o !! k)) ->
     dict_at w2 dst = <["_is_fitted" := VBool true]> (__dict__ o)).
Proof.
  intros H Hm Hn Hc Ht Hd Hw Hex Hu.
  destruct (load_written _ _ _ _ _ _ _ _ _ _ H Hm Hn Hc Ht Hd Hw Hex Hu)
    as [Hsave Hload].
  eexists _, _. split; [exact Hsave|]. split; [reflexivity|].
  split; [exact Hload|].
  assert (Hlook : forall k v, k <> "_is_fitted" -> __dict__ o !! k = Some v ->
            loaded_dict (__dict__ o_dst) (delete "_backend_model" (__dict__ o)) m !! k
            = Some v).
  { intros k v Hk Hv. unfold loaded_dict. rewrite lookup_insert_ne by congruence.
    destruct (decide (k = "_backend_model")) as [->|Hne].
    - rewrite lookup_insert_eq. congruence.
    - rewrite lookup_insert_ne by congruence.
      apply lookup_union_Some_l. now rewrite lookup_delete_ne by congruence. }
  unfold attr. rewrite dict_at_with_dict.
  split; [unfold loaded_dict; apply lookup_insert_eq|].
  split; [exact Hlook|].
  intros Hdom. apply map_eq. intros k.
  destruct (decide (k = "_is_fitted")) as [->|Hk].
  - unfold loaded_dict. now rewrite !lookup_insert_eq.
  - rewrite (lookup_insert_ne _ "_is_fitted" k) by congruence.
    destruct (__dict__ o !! k) as [v|] eqn:Ev; [now apply Hlook|].
    unfold loaded_dict. rewrite lookup_insert_ne by congruence.
    assert (Hbm : k <> "_backend_model") by congruence.
    rewrite lookup_insert_ne by congruence.
    rewrite lookup_union, lookup_delete_ne, Ev by congruence.
    destruct (__dict__ o_dst !! k) as [v|] eqn:Edst; [|reflexivity].
    destruct (Hdom k) as [v' Hv']; [eauto|congruence].
Qed.

End Archives.

(** ** Frames *)

Section Frames.

Variable L : Libs.

(** X17. Operations on one detector leave the rest alone.  [fit] and
    [load], returning or raising, change no file and no other detector;
    [save] changes no detector, and changes the files only through its one
    call of [shutil.make_archive], on the path stripped of its extension. *)
Theorem operations_frame :
  (forall self X y w r w',
     fit L self X y w = (r, w') ->
     fs w' = fs w /\ forall l, l <> self -> heap w' !! l = heap w !! l) /\
  (forall self filepath w r w',
     load L self filepath w = (r, w') ->
     fs w' = fs w /\ forall l, l <> self -> heap w' !! l = heap w !! l) /\
  (forall self filepath w r w',
     save L self filepath w = (r, w') ->
     heap w' = heap w /\
     (fs w' = fs w \/
      exists t,
        shutil_make_archive L (fst (os_path_splitext filepath)) t (fs w)
        = (r, fs w'))).
Proof.
  split; [|split].
  - intros self X y w r w' E.
    destruct (fit_effect _ _ _ _ _ _ _ E) as [->|(o & d' & H & -> & _)]; [auto|].
    split; [reflexivity|]. intros l Hne. now apply with_dict_other.
  - intros self filepath w r w' E.
    destruct (heap w !! self) as [o|] eqn:H.
    + destruct (load_cases _ _ _ _ _ _ _ H E)
        as [[-> _]|(t & attrs & _ & _ & [[-> _]|(m & _ & _ & ->)])];
        [auto| |]; (split; [reflexivity|]; intros l Hne; now apply with_dict_other).
    + destruct (load_dangling _ _ _ _ _ _ H E) as [-> _]. auto.
  - intros self filepath w r w' E.
    destruct (save_heap _ _ _ _ _ _ E)
      as [Hheap [[-> _]|(o & m & cv & tv & _ & _ & _ & _ & _ & Hw)]];
      [auto|].
    split; [exact Hheap|]. right. eauto.
Qed.

(** X18. When [get_detector] raises it has allocated nothing, and the error
    tells the step that failed: [ConfigError] for a name that is not
    registered; for a module that does not load, [ImportError] with the
    module path and the cause in the message when the cause is an
    [ImportError], and the cause itself otherwise; [AttributeError] naming
    the class when the module lacks it; or the error of the class's
    constructor. *)
Theorem get_detector_failures (registry : list (string * string)) (name : string)
  (kwargs : Dict) (w : World) (e : Exn) (w' : World) :
  get_detector_in L registry name kwargs w = (inl e, w') ->
  w' = w /\
  ((registry_get name registry = None /\ exn_type e = ConfigError) \/
   (exists module_path e0,
      registry_get name registry = Some module_path /\
      import_module L module_path = inl e0 /\
      ((exn_type e0 = ImportError /\ exn_type e = ImportError /\
        occurs_in module_path (exn_msg e) /\ occurs_in (exn_msg e0) (exn_msg e)) \/
       (exn_type e0 <> ImportError /\ e = e0))) \/
   (exists module_path module,
      registry_get name registry = Some module_path /\
      import_module L module_path = inr module /\
      module !! (name +:+ "Adapter") = None /\
      exn_type e = AttributeError /\
      occurs_in (name +:+ "Adapter") (exn_msg e)) \/
   (exists module_path module model_class d,
      registry_get name registry = Some module_path /\
      import_module L module_path = inr module /\
      module !! (name +:+ "Adapter") = Some model_class /\
      cls_init model_class kwargs ∅ = (inl e, d))).
Proof.
  unfold get_detector_in.
  destruct (registry_get name registry) as [module_path|] eqn:Hr.
  2:{ intros [= <- <-]. split; [reflexivity|]. left. auto. }
  destruct (import_module L module_path) as [e0|module] eqn:Hi.
  - destruct (ExnType_eqb (exn_type e0) ImportError) eqn:Et.
    + intros [= <- <-]. split; [reflexivity|]. right. left.
      exists module_path, e0. split; [solve [reflexivity|assumption]|]. split; [solve [reflexivity|assumption]|].
      left. apply ExnType_eqb_eq in Et.
      split; [exact Et|]. split; [reflexivity|]. simpl. split.
      * exists "Failed to import module '". eexists. reflexivity.
      * eexists _, EmptyString.
        rewrite append_empty_r, <- !append_assoc. reflexivity.
    + intros [= <- <-]. split; [reflexivity|]. right. left.
      exists module_path, e0. split; [solve [reflexivity|assumption]|]. split; [solve [reflexivity|assumption]|].
      right. split; [|reflexivity]. intros E. apply ExnType_eqb_eq in E. congruence.
  - destruct (module !! (name +:+ "Adapter")) as [model_class|] eqn:Hc.
    + unfold construct.
      destruct (cls_init model_class kwargs ∅) as [[e1|u] d] eqn:Hinit; [|discriminate].
      intros [= <- <-]. split; [reflexivity|]. right. right. right.
      exists module_path, module, model_class, d. auto.
    + intros [= <- <-]. split; [reflexivity|]. right. right. left.
      exists module_path, module. split; [solve [reflexivity|assumption]|].
      split; [solve [reflexivity|assumption]|].
      split; [solve [reflexivity|assumption]|]. split; [reflexivity|]. simpl.
      exists ("Module '" +:+ module_path +:+ "' does not have class '").
      eexists. rewrite !append_assoc. reflexivity.
Qed.

End Frames.

(** ** Prediction after fitting and after loading *)

Section PredictFacts.

Variable L : Libs.

Lemma predict_eq (w : World) (self : loc) (o : Detector) (X : PyAny)
  (threshold : PyVal) :
  heap w !! self = Some o ->
  predict L self X threshold w = (labels_of L o X threshold, w).
Proof.
  intros H.
  assert (H0 : heap {| heap := {[0 := o]}; fs := ∅ |} !! 0 = Some o)
    by (simpl; apply lookup_singleton_eq).
  unfold labels_of, predict. unfold bind at 1 5.
  rewrite (getattr_eq _ _ _ _ H), (getattr_eq _ _ _ _ H0).
  destruct (__dict__ o !! "_is_fitted") as [v|]; [|reflexivity].
  destruct (negb (truthy v)); [reflexivity|].
  unfold bind at 1 4.
  rewrite (predict_score_eq L _ _ _ X H), (predict_score_eq L _ _ _ X H0).
  destruct (scores_of L o X); [reflexivity|].
  unfold bind at 1 3.
  destruct (negb (is_None threshold)).
  - unfold ret at 1 3. destruct (is_None threshold); [reflexivity|].
    unfold bind, lift, ret. now destruct (as_float threshold).
  - rewrite (getattr_eq _ _ _ _ H), (getattr_eq _ _ _ _ H0).
    destruct (__dict__ o !! "threshold_") as [tv|]; [|reflexivity].
    destruct (is_None tv); [reflexivity|].
    unfold bind, lift, ret. now destruct (as_float tv).
Qed.

(** [predict] reads the class, the fitted flag, the threshold and the
    backend model. *)
Lemma labels_of_ext (o o' : Detector) (X : PyAny) (threshold : PyVal) :
  __class__ o = __class__ o' ->
  __dict__ o !! "_is_fitted" = __dict__ o' !! "_is_fitted" ->
  __dict__ o !! "threshold_" = __dict__ o' !! "threshold_" ->
  __dict__ o !! "_backend_model" = __dict__ o' !! "_backend_model" ->
  labels_of L o X threshold = labels_of L o' X threshold.
Proof.
  intros Ec Ef Et Eb.
  assert (H0 : forall x, heap {| heap := {[0 := x]}; fs := ∅ |} !! 0 = Some x)
    by (intros x; simpl; apply lookup_singleton_eq).
  unfold labels_of, predict. unfold bind at 1 5.
  rewrite (getattr_eq _ _ _ _ (H0 o)), (getattr_eq _ _ _ _ (H0 o')), Ef.
  destruct (__dict__ o' !! "_is_fitted") as [v|]; [|reflexivity].
  destruct (negb (truthy v)); [reflexivity|].
  unfold bind at 1 4.
  rewrite (predict_score_eq L _ _ _ X (H0 o)), (predict_score_eq L _ _ _ X (H0 o')).
  rewrite (scores_of_ext L o o' X Ec Eb).
  destruct (scores_of L o' X); [reflexivity|].
  unfold bind at 1 3.
  destruct (negb (is_None threshold)).
  - unfold ret at 1 3. destruct (is_None threshold); [reflexivity|].
    unfold bind, lift, ret. now destruct (as_float threshold).
  - rewrite (getattr_eq _ _ _ _ (H0 o)), (getattr_eq _ _ _ _ (H0 o')), Et.
    destruct (__dict__ o' !! "threshold_") as [tv|]; [|reflexivity].
    destruct (is_None tv); [reflexivity|].
    unfold bind, lift, ret. now destruct (as_float tv).
Qed.

(** X19. After a [fit] that returns, [predict] on the training input with
    no threshold argument returns: one label per training score, each the
    comparison of the score with the fitted threshold. *)
Theorem fit_then_predict (w : World) (self : loc) (X : PyAny) (y : option PyAny)
  (r : loc) (w' : World) :
  fit L self X y w = (inr r, w') ->
  exists scores q,
    predict_score L self X w' = (inr scores, w') /\
    attr w' self "threshold_" = Some (VFloat q) /\
    predict L self X VNone w' = (inr (binarize q scores), w') /\
    List.length (binarize q scores) = List.length scores.
Proof.
  intros E. destruct (fit_ok_state _ _ _ _ _ _ _ E)
    as (_ & o & m & scores & cv & p & q & H & Hs & _ & _ & _ & ->).
  exists scores, q.
  pose proof (with_dict_lookup w self o
    (<["_is_fitted" := VBool true]>
       (<["threshold_" := VFloat q]>
          (<["_backend_model" := VObj m]> (__dict__ o))))) as H1.
  assert (Hscore : predict_score L self X (with_dict w self o
            (<["_is_fitted" := VBool true]>
               (<["threshold_" := VFloat q]>
                  (<["_backend_model" := VObj m]> (__dict__ o)))))
          = (inr scores, with_dict w self o
            (<["_is_fitted" := VBool true]>
               (<["threshold_" := VFloat q]>
                  (<["_backend_model" := VObj m]> (__dict__ o)))))).
  { rewrite (predict_score_eq L _ _ _ X H1), <- Hs. f_equal.
    apply scores_of_ext; [reflexivity|]. simpl.
    now rewrite !lookup_insert_ne by discriminate. }
  split; [exact Hscore|].
  assert (Ht : (<["_is_fitted" := VBool true]>
               (<["threshold_" := VFloat q]>
                  (<["_backend_model" := VObj m]> (__dict__ o)))) !! "threshold_"
               = Some (VFloat q)).
  { rewrite lookup_insert_ne by discriminate. apply lookup_insert_eq. }
  split; [unfold attr; now rewrite dict_at_with_dict|].
  split; [|apply length_binarize].
  apply (predict_with_threshold L _ _ _ _ _ _ _ H1); [| exact Hscore |].
  - simpl. unfold fitted_flag. now rewrite lookup_insert_eq.
  - right. split; [reflexivity | exact Ht].
Qed.

(** X20. A detector loaded from the archive of a fitted detector of the
    same class predicts as the saved one: for every input and every
    threshold argument, [predict] returns the same labels or raises the same
    error.  This holds whenever the call of [shutil.make_archive] returns
    and the file system then shows the archive under the name written and
    unpacks it to the tree that was packed. *)
Theorem loaded_detector_predicts_alike (w : World) (src dst : loc)
  (o o_dst : Detector) (filepath : string) (m cv tv : PyVal)
  (files : FileSystem) :
  heap w !! src = Some o ->
  __dict__ o !! "_is_fitted" = Some (VBool true) ->
  __dict__ o !! "_backend_model" = Some m ->
  is_None m = false ->
  __dict__ o !! "contamination" = Some cv ->
  __dict__ o !! "threshold_" = Some tv ->
  heap w !! dst = Some o_dst ->
  __class__ o_dst = __class__ o ->
  shutil_make_archive L (fst (os_path_splitext filepath)) (saved_tree o m cv tv)
    (fs w) = (inr tt, files) ->
  os_path_exists L files (fst (os_path_splitext filepath) +:+ ".zip") = true ->
  shutil_unpack_archive L files (fst (os_path_splitext filepath) +:+ ".zip")
  = inr (saved_tree o m cv tv) ->
  exists w1 w2,
    save L src filepath w = (inr tt, w1) /\
    fs w1 = files /\
    load L dst (fst (os_path_splitext filepath) +:+ ".zip") w1 = (inr dst, w2) /\
    forall X threshold,
      fst (predict L dst X threshold w2) = fst (predict L src X threshold w).
Proof.
  intros H Hflag Hm Hn Hc Ht Hd Hcls Hw Hex Hu.
  destruct (load_written L _ _ _ _ _ _ _ _ _ _ H Hm Hn Hc Ht Hd Hw Hex Hu)
    as [Hsave Hload].
  eexists _, _. split; [exact Hsave|]. split; [reflexivity|].
  split; [exact Hload|]. intros X threshold.
  rewrite (predict_eq _ _ _ X threshold (with_dict_lookup _ _ _ _)).
  rewrite (predict_eq _ _ _ X threshold H). simpl fst.
  apply labels_of_ext; simpl; unfold loaded_dict.
  - exact Hcls.
  - now rewrite lookup_insert_eq, Hflag.
  - rewrite !lookup_insert_ne by discriminate. rewrite Ht.
    apply lookup_union_Some_l. now rewrite lookup_delete_ne by discriminate.
  - rewrite lookup_insert_ne by discriminate. now rewrite lookup_insert_eq, Hm.
Qed.

(** The order of binary64 numbers: below-or-equal followed by strictly
    below is strictly below (a NaN compares false with everything). *)
Lemma SFleb_SFltb_trans (a b c : spec_float) :
  SFleb a b = true -> SFltb b c = true -> SFltb a c = true.
Proof.
  unfold SFleb, SFltb, SFcompare.
  destruct a as [s1|s1| |s1 m1 e1], b as [s2|s2| |s2 m2 e2], c as [s3|s3| |s3 m3 e3];
    try discriminate; try reflexivity;
    repeat match goal with s : bool |- _ => destruct s end;
    try discriminate; try reflexivity;
    change (Pos.compare_cont Eq) with Pos.compare;
    destruct (Z.compare_spec e1 e2), (Z.compare_spec e2 e3), (Z.compare_spec e1 e3);
    try discriminate; try reflexivity; try lia;
    destruct (Pos.compare_spec m1 m2), (Pos.compare_spec m2 m3), (Pos.compare_spec m1 m3);
    simpl; try discriminate; try reflexivity; intros; lia.
Qed.

Lemma leb_ltb_trans (a b c : float) :
  PrimFloat.leb a b = true -> PrimFloat.ltb b c = true -> PrimFloat.ltb a c = true.
Proof. rewrite leb_spec, !ltb_spec. apply SFleb_SFltb_trans. Qed.

(** X21. Lowering the explicit threshold never clears a flag: on a fitted
    detector whose scoring returns, [predict] with the thresholds
    [t1 <= t2] returns both label vectors, and every sample flagged under
    [t2] is flagged under [t1]. *)
Theorem predict_threshold_monotone (w : World) (self : loc) (o : Detector)
  (X : PyAny) (scores : list float) (t1 t2 : float) :
  heap w !! self = Some o ->
  fitted_flag (__dict__ o) = true ->
  predict_score L self X w = (inr scores, w) ->
  PrimFloat.leb t1 t2 = true ->
  exists l1 l2,
    predict L self X (VFloat t1) w = (inr l1, w) /\
    predict L self X (VFloat t2) w = (inr l2, w) /\
    List.length l1 = List.length l2 /\
    forall i, l2 !! i = Some 1%Z -> l1 !! i = Some 1%Z.
Proof.
  intros H Hf Hs Hle. exists (binarize t1 scores), (binarize t2 scores).
  split; [apply (predict_with_threshold L _ _ _ _ _ _ _ H Hf Hs); now left|].
  split; [apply (predict_with_threshold L _ _ _ _ _ _ _ H Hf Hs); now left|].
  split; [now rewrite !length_binarize|].
  intros i. rewrite !binarize_lookup.
  destruct (scores !! i) as [s|]; simpl; [|discriminate].
  destruct (PrimFloat.ltb t2 s) eqn:E2; [|discriminate].
  intros _. now rewrite (leb_ltb_trans _ _ _ Hle E2).
Qed.

End PredictFacts.

(** ** Fitting again *)

Section Refit.

Variable L : Libs.

Lemma apply_param_mapping_ext (mapping : list (string * string))
  (attrs attrs' init_params : Dict) :
  (forall local_name backend_name, In (local_name, backend_name) mapping ->
     attrs' !! local_name = attrs !! local_name) ->
  apply_param_mapping mapping attrs' init_params
  = apply_param_mapping mapping attrs init_params.
Proof.
  revert init_params.
  induction mapping as [|[local_name backend_name] rest IH]; intros init_params Hm;
    [reflexivity|].
  simpl. rewrite (Hm local_name backend_name) by now left.
  apply IH. intros l b Hin. apply (Hm l b). now right.
Qed.

(** [_fit_backend] on two states of one detector that differ in attributes
    the constructor arguments are not read from: the same error and no
    change, or the same outcome and the same estimator installed. *)
Lemma fit_backend_ext (w : World) (self : loc) (o : Detector) (d' : Dict)
  (X : PyAny) (y : option PyAny) :
  heap w !! self = Some o ->
  d' !! "kwargs" = __dict__ o !! "kwargs" ->
  d' !! "backend_options" = __dict__ o !! "backend_options" ->
  (forall local_name backend_name,
     In (local_name, backend_name) (_param_mapping (__class__ o)) ->
     d' !! local_name = __dict__ o !! local_name) ->
  (exists e,
     _fit_backend L self X y w = (inl e, w) /\
     _fit_backend L self X y (with_dict w self o d')
     = (inl e, with_dict w self o d')) \/
  (exists r m,
     _fit_backend L self X y w
     = (r, with_dict w self o (<["_backend_model" := VObj m]> (__dict__ o))) /\
     _fit_backend L self X y (with_dict w self o d')
     = (r, with_dict w self o (<["_backend_model" := VObj m]> d'))).
Proof.
  intros H Hkw Hbo Hmap.
  pose proof (with_dict_lookup w self o d') as H'.
  unfold _fit_backend, bind, lift.
  destruct (validate_input L X) as [e|Xv]; [left; eauto|].
  rewrite (get_obj_eq _ _ _ H), (get_obj_eq _ _ _ H'). cbn [__class__ __dict__].
  destruct (_backend_cls (__class__ o)) as [backend_cls|]; [|left; eauto].
  rewrite !(getattr_eq _ _ _ _ H), !(getattr_eq _ _ _ _ H'). simpl __dict__.
  rewrite Hkw, Hbo.
  destruct (__dict__ o !! "kwargs") as [kw|]; [|left; eauto].
  destruct (as_dict kw) as [e|kwargs]; [left; eauto|].
  destruct (__dict__ o !! "backend_options") as [bo|]; [|left; eauto].
  unfold init_params_of. rewrite (apply_param_mapping_ext _ _ _ _ Hmap).
  destruct (dict_update _ bo) as [e|init_params]; [left; eauto|].
  destruct (backend_cls init_params) as [e|model]; [left; eauto|].
  rewrite (setattr_eq _ _ _ _ _ H), (setattr_eq _ _ _ _ _ H').
  destruct (estimator_fit model Xv y) as [rf model'].
  rewrite !(setattr_eq _ _ _ _ _ (with_dict_lookup _ _ _ _)). simpl __dict__.
  rewrite !insert_insert_eq, !with_dict_twice by reflexivity.
  right. exists rf, model'. now destruct rf.
Qed.

(** The attributes [fit] assigns. *)
Lemma fitted_dict_ext (d d' : Dict) (m q : PyVal) :
  (forall k, k <> "_backend_model" -> k <> "threshold_" -> k <> "_is_fitted" ->
     d' !! k = d !! k) ->
  <["_is_fitted" := VBool true]> (<["threshold_" := q]> (<["_backend_model" := m]> d'))
  = <["_is_fitted" := VBool true]> (<["threshold_" := q]> (<["_backend_model" := m]> d)).
Proof.
  intros Hd. apply map_eq. intros k.
  destruct (decide (k = "_is_fitted")) as [->|N1];
    [now rewrite !lookup_insert_eq|].
  rewrite !(lookup_insert_ne _ "_is_fitted") by congruence.
  destruct (decide (k = "threshold_")) as [->|N2];
    [now rewrite !lookup_insert_eq|].
  rewrite !(lookup_insert_ne _ "threshold_") by congruence.
  destruct (decide (k = "_backend_model")) as [->|N3];
    [now rewrite !lookup_insert_eq|].
  rewrite !(lookup_insert_ne _ "_backend_model") by congruence.
  now apply Hd.
Qed.

Lemma fit_run (self : loc) (X : PyAny) (y : option PyAny) (w : World) :
  fit L self X y w
  = (let (rb, w1) := _fit_backend L self X y w in
     match rb with
     | inl e => (inl e, w1)
     | inr _ => set_threshold L self X w1
     end).
Proof. reflexivity. Qed.

Lemma set_threshold_run (w : World) (self : loc) (o : Detector) (X : PyAny) :
  heap w !! self = Some o ->
  set_threshold L self X w
  = match scores_of L o X with
    | inl e => (inl e, w)
    | inr scores =>
        match __dict__ o !! "contamination" with
        | None =>
            (inl (mkExn AttributeError
                    ("object has no attribute '" +:+ "contamination" +:+ "'")), w)
        | Some cv =>
            match one_minus cv with
            | inl e => (inl e, w)
            | inr p =>
                match np_quantile L scores p with
                | inl e => (inl e, w)
                | inr q =>
                    (inr self,
                     with_dict w self o
                       (<["_is_fitted" := VBool true]>
                          (<["threshold_" := VFloat q]> (__dict__ o))))
                end
            end
        end
    end.
Proof.
  intros H. unfold set_threshold. unfold bind at 1.
  rewrite (predict_score_eq L _ _ _ X H).
  destruct (scores_of L o X) as [e|scores]; [reflexivity|].
  unfold bind at 1. rewrite (getattr_eq _ _ _ _ H).
  destruct (__dict__ o !! "contamination") as [cv|]; [|reflexivity].
  unfold bind at 1, lift at 1.
  destruct (one_minus cv) as [e|p]; [reflexivity|].
  unfold bind at 1, lift at 1.
  destruct (np_quantile L scores p) as [e|q]; [reflexivity|].
  unfold bind, ret. rewrite (setattr_eq _ _ _ _ _ H).
  rewrite (setattr_eq _ _ _ _ _ (with_dict_lookup _ _ _ _)). cbn [__dict__].
  now rewrite with_dict_twice by reflexivity.
Qed.

(** [fit] on two states of one detector that differ in [_backend_model],
    [threshold_] and [_is_fitted] only. *)
Lemma fit_ext (w : World) (self : loc) (o : Detector) (d' : Dict)
  (X : PyAny) (y : option PyAny) :
  heap w !! self = Some o ->
  (forall k, k <> "_backend_model" -> k <> "threshold_" -> k <> "_is_fitted" ->
     d' !! k = __dict__ o !! k) ->
  (forall local_name backend_name,
     In (local_name, backend_name) (_param_mapping (__class__ o)) ->
     local_name <> "_backend_model" /\ local_name <> "threshold_" /\
     local_name <> "_is_fitted") ->
  fst (fit L self X y (with_dict w self o d')) = fst (fit L self X y w) /\
  forall r w2, fit L self X y w = (inr r, w2) ->
    fit L self X y (with_dict w self o d') = (inr r, w2).
Proof.
  intros H Hd Hmap.
  assert (Hfb := fit_backend_ext w self o d' X y H
                   (Hd "kwargs" ltac:(discriminate) ltac:(discriminate)
                      ltac:(discriminate))
                   (Hd "backend_options" ltac:(discriminate) ltac:(discriminate)
                      ltac:(discriminate))
                   (fun l b Hin =>
                      Hd l (proj1 (Hmap l b Hin)) (proj1 (proj2 (Hmap l b Hin)))
                        (proj2 (proj2 (Hmap l b Hin))))).
  rewrite !fit_run.
  destruct Hfb as [(e & -> & ->)|(r & m & -> & ->)].
  { split; [reflexivity|]. intros r w2 E. discriminate E. }
  destruct r as [e|u].
  { split; [reflexivity|]. intros r w2 E. discriminate E. }
  set (d1 := <["_backend_model" := VObj m]> (__dict__ o)).
  set (d1' := <["_backend_model" := VObj m]> d').
  rewrite (set_threshold_run _ _ _ X (with_dict_lookup w self o d1)).
  rewrite (set_threshold_run _ _ _ X (with_dict_lookup w self o d1')).
  cbn [__dict__].
  rewrite (scores_of_ext L {| __class__ := __class__ o; __dict__ := d1' |}
             {| __class__ := __class__ o; __dict__ := d1 |} X eq_refl)
    by (unfold d1, d1'; simpl; now rewrite !lookup_insert_eq).
  destruct (scores_of L _ X) as [e|scores].
  { split; [reflexivity|]. intros r w2 E. discriminate E. }
  assert (Hc : d1' !! "contamination" = d1 !! "contamination").
  { unfold d1, d1'. rewrite !lookup_insert_ne by discriminate.
    apply Hd; discriminate. }
  rewrite Hc.
  destruct (d1 !! "contamination") as [cv|].
  2:{ split; [reflexivity|]. intros r w2 E. discriminate E. }
  destruct (one_minus cv) as [e|p].
  { split; [reflexivity|]. intros r w2 E. discriminate E. }
  destruct (np_quantile L scores p) as [e|q].
  { split; [reflexivity|]. intros r w2 E. discriminate E. }
  rewrite !with_dict_twice by reflexivity.
  unfold d1, d1'. rewrite (fitted_dict_ext (__dict__ o) d' (VObj m) (VFloat q) Hd).
  split; [reflexivity|]. intros r w2 E. exact E.
Qed.

(** X22. Fitting again forgets the earlier fit.  After a [fit] that
    returned, on a detector whose parameter mapping reads none of the
    attributes [fit] assigns, a second [fit] returns or raises as it would
    have on the detector before the first, and when it returns it leaves the
    same state; fitting again on the same input changes nothing. *)
Theorem refit_forgets (w : World) (self : loc) (o : Detector) (X1 : PyAny)
  (y1 : option PyAny) (r1 : loc) (w1 : World) :
  heap w !! self = Some o ->
  (forall local_name backend_name,
     In (local_name, backend_name) (_param_mapping (__class__ o)) ->
     local_name <> "_backend_model" /\ local_name <> "threshold_" /\
     local_name <> "_is_fitted") ->
  fit L self X1 y1 w = (inr r1, w1) ->
  (forall X2 y2,
     fst (fit L self X2 y2 w1) = fst (fit L self X2 y2 w) /\
     forall r2 w2, fit L self X2 y2 w = (inr r2, w2) ->
       fit L self X2 y2 w1 = (inr r2, w2)) /\
  fit L self X1 y1 w1 = (inr r1, w1).
Proof.
  intros H Hmap E.
  destruct (fit_ok_state _ _ _ _ _ _ _ E)
    as (_ & o0 & m & scores & cv & p & q & H0 & _ & _ & _ & _ & Ew).
  assert (o0 = o) as -> by congruence.
  assert (Hd : forall k, k <> "_backend_model" -> k <> "threshold_" ->
                 k <> "_is_fitted" ->
                 <["_is_fitted" := VBool true]>
                   (<["threshold_" := VFloat q]>
                      (<["_backend_model" := VObj m]> (__dict__ o))) !! k
                 = __dict__ o !! k).
  { intros k N1 N2 N3. now rewrite !lookup_insert_ne by congruence. }
  assert (Hall : forall X2 y2,
            fst (fit L self X2 y2 w1) = fst (fit L self X2 y2 w) /\
            forall r2 w2, fit L self X2 y2 w = (inr r2, w2) ->
              fit L self X2 y2 w1 = (inr r2, w2)).
  { intros X2 y2. rewrite Ew. exact (fit_ext w self o _ X2 y2 H Hd Hmap). }
  split; [exact Hall|].
  exact (proj2 (Hall X1 y1) r1 w1 E).
Qed.

End Refit.

(** ** What reaches [check_array] *)

Section Validation2D.

Variable L : Libs.

(** X23. [validate_input] never hands [check_array] a one-dimensional
    array.  What it returns is what [check_array] returned for the
    converted input: a one-dimensional array of [n] values reaches it as a
    column of shape [(n, 1)] with the same values, every other array as it
    is; and an [ndarray] is not converted at all. *)
Theorem validate_input_column (X : PyAny) (r : ndarray) :
  validate_input L X = inr r ->
  exists a b,
    _to_numpy L X = inr a /\
    check_array L b common_args = inr r /\
    ndim b <> 1 /\
    data b = data a /\
    (ndim a = 1 -> shape b = [List.length (data a); 1]) /\
    (ndim a <> 1 -> b = a) /\
    (forall x, X = XArray x -> a = x).
Proof.
  unfold validate_input, _check_array_compat.
  destruct (_to_numpy L X) as [e|a] eqn:Ea; [discriminate|].
  set (b := if Nat.eqb (ndim a) 1 then reshape_column a else a).
  destruct (check_array L b common_args) as [e|r'] eqn:Ec.
  { destruct (ExnType_eqb (exn_type e) ValueError); discriminate. }
  intros [= <-]. exists a, b.
  split; [reflexivity|]. split; [exact Ec|].
  unfold b. destruct (Nat.eqb (ndim a) 1) eqn:En.
  - apply Nat.eqb_eq in En.
    split; [discriminate|]. split; [reflexivity|]. split; [reflexivity|].
    split; [intros N; now destruct N|].
    intros x ->. unfold _to_numpy in Ea. simpl in Ea. congruence.
  - apply Nat.eqb_neq in En.
    split; [exact En|]. split; [reflexivity|].
    split; [intros E; now destruct En|].
    split; [reflexivity|].
    intros x ->. unfold _to_numpy in Ea. simpl in Ea. congruence.
Qed.

End Validation2D.

(** ** Saving and loading again *)

Section Again.

Variable L : Libs.

Lemma save_staged (self : loc) (filepath : string) (w : World) :
  save L self filepath w
  = (let* tmp_dir := staged_tree self in
     make_archive L (fst (os_path_splitext filepath)) tmp_dir) w.
Proof.
  unfold save, staged_tree, bind, ret.
  change (os_path_join EmptyString "metadata.json") with "metadata.json".
  change (os_path_join EmptyString "backend") with "backend".
  change (os_path_join EmptyString "attributes.pkl") with "attributes.pkl".
  repeat match goal with
         | |- context [let (_, _) := ?c in _] => destruct c as [[?|?] ?]
         end; reflexivity.
Qed.

Lemma heap_only_backend_model (self : loc) : heap_only (backend_model self).
Proof.
  apply heap_only_bind; [apply heap_only_getattr|].
  intros m. destruct (is_None m); [apply heap_only_raise | apply heap_only_ret].
Qed.

Lemma heap_only_staged_tree (self : loc) : heap_only (staged_tree self).
Proof.
  unfold staged_tree.
  apply heap_only_bind; [apply heap_only_get_obj|]. intros o.
  apply heap_only_bind; [apply heap_only_getattr|]. intros cv.
  apply heap_only_bind; [apply heap_only_getattr|]. intros tv.
  apply heap_only_bind.
  { apply heap_only_bind; [apply heap_only_backend_model|].
    intros m. apply heap_only_ret. }
  intros t.
  apply heap_only_bind; [apply heap_only_get_obj|]. intros o'.
  apply heap_only_ret.
Qed.

(** [save] on the same detectors with other files: the staging has the
    same outcome, and the tree staged is packed among those files. *)
Lemma save_frame (self : loc) (filepath : string) (w : World)
  (files : FileSystem) :
  save L self filepath {| heap := heap w; fs := files |}
  = match fst (staged_tree self w) with
    | inl e => (inl e, {| heap := heap w; fs := files |})
    | inr t =>
        make_archive L (fst (os_path_splitext filepath)) t
          {| heap := heap w; fs := files |}
    end.
Proof.
  assert (Hh : heap (snd (staged_tree self w)) = heap w).
  { pose proof (save_heap L self filepath w _ _
                  (surjective_pairing (save L self filepath w))) as [Hh _].
    rewrite save_staged in Hh. unfold bind in Hh.
    destruct (staged_tree self w) as [[e|t] w1]; [exact Hh|].
    unfold make_archive in Hh.
    destruct (shutil_make_archive L _ t (fs w1)); exact Hh. }
  rewrite save_staged. unfold bind.
  rewrite (heap_only_staged_tree self w files).
  destruct (staged_tree self w) as [[e|t] w1]; simpl in *; rewrite Hh;
    reflexivity.
Qed.

(** X24. [save] reads no file: its outcome and the tree it packs depend on
    the detectors only.  So where packing an archive under a name replaces
    the archive of that name (after the first [save], [shutil.make_archive]
    on that base name acts as it did before it), a [save] of any detector to
    a path with the same stem has, after a [save] that returned, the outcome
    it would have had before and leaves the state it would have left
    before: nothing of the first archive remains.  Saving the same detector
    again changes nothing. *)
Theorem save_overwrites (w : World) (a : loc) (p1 : string) (u : unit)
  (w1 : World) :
  save L a p1 w = (inr u, w1) ->
  (forall t,
     shutil_make_archive L (fst (os_path_splitext p1)) t (fs w1)
     = shutil_make_archive L (fst (os_path_splitext p1)) t (fs w)) ->
  (forall b p2, fst (os_path_splitext p2) = fst (os_path_splitext p1) ->
     fst (save L b p2 w1) = fst (save L b p2 w) /\
     forall u2 w2, save L b p2 w = (inr u2, w2) -> save L b p2 w1 = (inr u2, w2)) /\
  save L a p1 w1 = (inr u, w1).
Proof.
  intros E Hover.
  destruct (save_heap L _ _ _ _ _ E) as [Hheap _].
  assert (Hw1 : w1 = {| heap := heap w; fs := fs w1 |})
    by (destruct w1; simpl in *; now subst).
  assert (Hw : w = {| heap := heap w; fs := fs w |}) by now destruct w.
  assert (Hall : forall b p2,
            fst (os_path_splitext p2) = fst (os_path_splitext p1) ->
            fst (save L b p2 w1) = fst (save L b p2 w) /\
            forall u2 w2, save L b p2 w = (inr u2, w2) ->
              save L b p2 w1 = (inr u2, w2)).
  { intros b p2 Hstem.
    pose proof (save_frame b p2 w (fs w1)) as E1. rewrite <- Hw1 in E1.
    pose proof (save_frame b p2 w (fs w)) as E0. rewrite <- Hw in E0.
    rewrite E1, E0.
    destruct (fst (staged_tree b w)) as [e|t].
    - split; [reflexivity|]. intros u2 w2 E2. discriminate E2.
    - unfold make_archive. rewrite Hstem, Hover, Hheap.
      split; [reflexivity|]. intros u2 w2 E2. exact E2. }
  split; [exact Hall|].
  exact (proj2 (Hall a p1 eq_refl) u w1 E).
Qed.

Lemma loaded_dict_twice (d attrs : Dict) (m : PyVal) :
  loaded_dict (loaded_dict d attrs m) attrs m = loaded_dict d attrs m.
Proof.
  unfold loaded_dict. apply map_eq. intros k.
  destruct (decide (k = "_is_fitted")) as [->|N1];
    [now rewrite !lookup_insert_eq|].
  rewrite !(lookup_insert_ne _ "_is_fitted" k) by congruence.
  destruct (decide (k = "_backend_model")) as [->|N2];
    [now rewrite !lookup_insert_eq|].
  rewrite !(lookup_insert_ne _ "_backend_model" k) by congruence.
  rewrite !lookup_union.
  rewrite !(lookup_insert_ne _ "_is_fitted" k) by congruence.
  rewrite !(lookup_insert_ne _ "_backend_model" k) by congruence.
  rewrite lookup_union.
  now destruct (attrs !! k), (d !! k).
Qed.

(** X25. Loading the same archive twice is loading it once: after a
    [load] that returned, the same [load] returns again and leaves the
    state as it is. *)
Theorem load_twice (self : loc) (filepath : string) (w : World) (o : Detector)
  (r : loc) (w1 : World) :
  heap w !! self = Some o ->
  load L self filepath w = (inr r, w1) ->
  load L self filepath w1 = (inr r, w1).
Proof.
  intros H E.
  destruct (load_cases L _ _ _ _ _ _ H E)
    as [[_ [e He]]|(t & attrs & Hu & Ha & [(_ & e & He & _)|(m & Hm & Hr & ->)])];
    try discriminate He.
  injection Hr as ->.
  rewrite (load_ok L self filepath _ _ t attrs m (with_dict_lookup _ _ _ _));
    try assumption.
  cbn [__dict__]. now rewrite loaded_dict_twice, with_dict_twice by reflexivity.
Qed.

End Again.

(** * The theorems at concrete inputs *)

(** ** Counterexamples *)

(** C3. Detector 0 is fitted, detector 1 is freshly resolved for the same
    algorithm and no file exists; [save] on the path [model.pkl] writes
    [model.zip], and [load] on the same path raises. *)
Lemma C3_refuted :
  fst (fit env 0 X_train None w_new) = inr 0 /\
  fitted_flag (dict_at w_pair 0) = true /\
  non_null (dict_at w_pair 0) "_backend_model" = true /\
  fitted_flag (dict_at w_pair 1) = false /\
  fs w_pair = ∅ /\
  fst (save env 0 "model.pkl" w_pair) = inr tt /\
  dom (fs w_pkl) = {["model.zip"]} /\
  fst (load env 1 "model.pkl" w_pkl)
  = inl (mkExn ReadError "Unknown archive format 'model.pkl'").
Proof. repeat split; vm_compute; reflexivity. Qed.


(** C6. Detector 1 of the second scenario is fitted, no threshold is passed
    and [threshold_] is [None], yet [predict] raises [ConfigError], the
    error of [predict_score], and not [ValueError].  Detector 0 of the first
    scenario is fitted and has its threshold, yet [predict] raises the
    [ValueError] of the backend on an input of another width. *)
Lemma C6_refuted :
  (fitted_flag (dict_at c_loaded 1) = true /\
   attr c_loaded 1 "threshold_" = Some VNone /\
   fst (predict env 1 X_test VNone c_loaded)
   = inl (mkExn ConfigError
            "Backend <class 'Clusterer'> has neither 'score_samples' nor 'decision_function'.") /\
   ExnType_eqb ConfigError ValueError = false) /\
  (fitted_flag (dict_at w_fit 0) = true /\
   attr w_fit 0 "threshold_" = Some (VFloat 18) /\
   fst (predict env 0 X_wide VNone w_fit)
   = inl (mkExn ValueError "X has a different number of features")).
Proof. repeat split; vm_compute; reflexivity. Qed.

(** ** Instances *)

Lemma save_load_round_trip_witness :
  heap w_pair !! 0 = Some (obj_at w_pair 0) /\
  __dict__ (obj_at w_pair 0) !! "_backend_model" = Some fitted_forest /\
  is_None fitted_forest = false /\
  __dict__ (obj_at w_pair 0) !! "contamination" = Some (VFloat 0.1) /\
  __dict__ (obj_at w_pair 0) !! "threshold_" = Some (VFloat 18) /\
  heap w_pair !! 1 = Some (obj_at w_pair 1) /\
  __class__ (obj_at w_pair 1) = __class__ (obj_at w_pair 0) /\
  shutil_make_archive env (fst (os_path_splitext "model.zip"))
    (saved_tree (obj_at w_pair 0) fitted_forest (VFloat 0.1) (VFloat 18))
    (fs w_pair)
  = (inr tt, fs w_zip) /\
  os_path_exists env (fs w_zip) (fst (os_path_splitext "model.zip") +:+ ".zip")
  = true /\
  shutil_unpack_archive env (fs w_zip)
    (fst (os_path_splitext "model.zip") +:+ ".zip")
  = inr (saved_tree (obj_at w_pair 0) fitted_forest (VFloat 0.1) (VFloat 18)) /\
  round_trip_path env "model.zip" (fs w_zip) /\
  exists w1 w2,
    save env 0 "model.zip" w_pair = (inr tt, w1) /\
    fs w1 = fs w_zip /\
    load env 1 "model.zip" w1 = (inr 1, w2) /\
    attr w2 1 "threshold_" = Some (VFloat 18) /\
    forall X,
      fst (predict_score env 1 X w2) = fst (predict_score env 0 X w_pair) /\
      forall scores, fst (predict_score env 0 X w_pair) = inr scores ->
        exists scores',
          fst (predict_score env 1 X w2) = inr scores' /\
          allclose 1e-5 scores' scores.
Proof.
  assert (H0 : heap w_pair !! 0 = Some (obj_at w_pair 0)) by reflexivity.
  assert (Hm : __dict__ (obj_at w_pair 0) !! "_backend_model" = Some fitted_forest)
    by reflexivity.
  assert (Hn : is_None fitted_forest = false) by reflexivity.
  assert (Hc : __dict__ (obj_at w_pair 0) !! "contamination" = Some (VFloat 0.1))
    by reflexivity.
  assert (Ht : __dict__ (obj_at w_pair 0) !! "threshold_" = Some (VFloat 18))
    by reflexivity.
  assert (H1 : heap w_pair !! 1 = Some (obj_at w_pair 1)) by reflexivity.
  assert (Hcls : __class__ (obj_at w_pair 1) = __class__ (obj_at w_pair 0))
    by reflexivity.
  assert (Hw : shutil_make_archive env (fst (os_path_splitext "model.zip"))
                 (saved_tree (obj_at w_pair 0) fitted_forest (VFloat 0.1) (VFloat 18))
                 (fs w_pair)
               = (inr tt, fs w_zip)) by reflexivity.
  assert (Hex : os_path_exists env (fs w_zip)
                  (fst (os_path_splitext "model.zip") +:+ ".zip") = true)
    by reflexivity.
  assert (Hu : shutil_unpack_archive env (fs w_zip)
                 (fst (os_path_splitext "model.zip") +:+ ".zip")
               = inr (saved_tree (obj_at w_pair 0) fitted_forest (VFloat 0.1)
                        (VFloat 18))) by reflexivity.
  assert (Hp : round_trip_path env "model.zip" (fs w_zip))
    by (left; reflexivity).
  repeat (split; [assumption|]).
  exact (save_load_round_trip env w_pair 0 1 _ _ "model.zip" _ _ _ _
           H0 Hm Hn Hc Ht H1 Hcls Hw Hex Hu Hp).
Defined.


Lemma fit_sets_threshold_witness :
  fit env 0 X_train None w_new = (inr 0, w_fit) /\
  0 = 0 /\
  exists o' scores cv p q,
    heap w_fit !! 0 = Some o' /\
    __dict__ o' !! "_is_fitted" = Some (VBool true) /\
    predict_score env 0 X_train w_fit = (inr scores, w_fit) /\
    __dict__ o' !! "contamination" = Some cv /\
    match cv with
    | VFloat c => p = PrimFloat.sub 1 c
    | VInt z => p = Z_to_float (1 - z)
    | VBool b => p = Z_to_float (1 - (if b then 1 else 0))
    | _ => False
    end /\
    np_quantile env scores p = inr q /\
    __dict__ o' !! "threshold_" = Some (VFloat q).
Proof.
  assert (H : fit env 0 X_train None w_new = (inr 0, w_fit))
    by reflexivity.
  split; [exact H|].
  exact (fit_sets_threshold env w_new 0 X_train None 0 w_fit H).
Defined.

Lemma predict_guards_witness :
  heap w_new !! 0 = Some (obj_at w_new 0) /\
  __dict__ (obj_at w_new 0) !! "_is_fitted" = Some (VBool false) /\
  predict env 0 X_test (VFloat 3) w_new
  = (inl (mkExn ModelNotFittedError "Model is not fitted. Call fit() first."), w_new).
Proof.
  assert (H : heap w_new !! 0 = Some (obj_at w_new 0)) by reflexivity.
  assert (Hf : __dict__ (obj_at w_new 0) !! "_is_fitted" = Some (VBool false))
    by reflexivity.
  split; [exact H|]. split; [exact Hf|].
  exact (proj1 (predict_guards env w_new 0 (obj_at w_new 0) X_test (VFloat 3) H) Hf).
Defined.

Lemma predict_labels_witness :
  heap w_fit !! 0 = Some (obj_at w_fit 0) /\
  fitted_flag (__dict__ (obj_at w_fit 0)) = true /\
  predict_score env 0 X_test w_fit = (inr [2; 17; 4]%float, w_fit) /\
  List.length [2; 17; 4]%float = 3 /\
  available_threshold (VFloat 3) (__dict__ (obj_at w_fit 0)) 3 /\
  exists labels,
    predict env 0 X_test (VFloat 3) w_fit = (inr labels, w_fit) /\
    List.length labels = 3 /\
    (forall i l, labels !! i = Some l -> l = 0%Z \/ l = 1%Z) /\
    (forall i s, [2; 17; 4]%float !! i = Some s ->
       (labels !! i = Some 1%Z <-> PrimFloat.ltb 3 s = true) /\
       (labels !! i = Some 0%Z <-> PrimFloat.ltb 3 s = false)).
Proof.
  assert (H : heap w_fit !! 0 = Some (obj_at w_fit 0)) by reflexivity.
  assert (Hf : fitted_flag (__dict__ (obj_at w_fit 0)) = true)
    by reflexivity.
  assert (Hs : predict_score env 0 X_test w_fit = (inr [2; 17; 4]%float, w_fit))
    by reflexivity.
  assert (Hn : List.length [2; 17; 4]%float = 3) by reflexivity.
  assert (Ht : available_threshold (VFloat 3) (__dict__ (obj_at w_fit 0)) 3)
    by (left; reflexivity).
  repeat (split; [assumption|]).
  exact (predict_labels env w_fit 0 (obj_at w_fit 0) X_test (VFloat 3)
           [2; 17; 4]%float 3 3 H Hf Hs Hn Ht).
Defined.

Lemma predict_score_method_choice_witness :
  (heap w_fit !! 0 = Some (obj_at w_fit 0) /\
   __dict__ (obj_at w_fit 0) !! "_backend_model" = Some (VObj forest_model) /\
   validate_input env X_test = inr X_test_valid /\
   predict_score env 0 X_test w_fit
   = (inr (map PrimFloat.opp [-2; -17; -4]%float), w_fit)) /\
  (heap m_fit !! 0 = Some (obj_at m_fit 0) /\
   __dict__ (obj_at m_fit 0) !! "_backend_model" = Some (VObj fitted_margin) /\
   predict_score env 0 X_test m_fit
   = (inr (map PrimFloat.opp [2; 17; 4]%float), m_fit)).
Proof.
  assert (H : heap w_fit !! 0 = Some (obj_at w_fit 0)) by reflexivity.
  assert (Hm : __dict__ (obj_at w_fit 0) !! "_backend_model"
               = Some (VObj forest_model)) by reflexivity.
  assert (HX : validate_input env X_test = inr X_test_valid)
    by reflexivity.
  assert (H' : heap m_fit !! 0 = Some (obj_at m_fit 0)) by reflexivity.
  assert (Hm' : __dict__ (obj_at m_fit 0) !! "_backend_model"
                = Some (VObj fitted_margin)) by reflexivity.
  split.
  - repeat (split; [assumption|]).
    exact (proj1 (predict_score_method_choice env w_fit 0 (obj_at w_fit 0)
                    forest_model X_test X_test_valid H Hm HX)
             sum_score [-2; -17; -4]%float
             ltac:(reflexivity) ltac:(reflexivity)).
  - repeat (split; [assumption|]).
    exact (proj1 (proj2 (predict_score_method_choice env m_fit 0 (obj_at m_fit 0)
                           fitted_margin X_test X_test_valid H' Hm' HX))
             margin_score [2; 17; 4]%float
             ltac:(reflexivity) ltac:(reflexivity) ltac:(reflexivity)).
Defined.


Lemma save_unfitted_raises_witness :
  heap w_new !! 0 = Some (obj_at w_new 0) /\
  __dict__ (obj_at w_new 0) !! "contamination" = Some (VFloat 0.1) /\
  __dict__ (obj_at w_new 0) !! "threshold_" = Some VNone /\
  __dict__ (obj_at w_new 0) !! "_backend_model" = Some VNone /\
  save env 0 "model.zip" w_new
  = (inl (mkExn ModelNotFittedError "The backend model is not initialized or fitted."),
     w_new).
Proof.
  assert (H : heap w_new !! 0 = Some (obj_at w_new 0)) by reflexivity.
  assert (Hc : __dict__ (obj_at w_new 0) !! "contamination" = Some (VFloat 0.1))
    by reflexivity.
  assert (Ht : __dict__ (obj_at w_new 0) !! "threshold_" = Some VNone)
    by reflexivity.
  assert (Hm : __dict__ (obj_at w_new 0) !! "_backend_model" = Some VNone)
    by reflexivity.
  repeat (split; [assumption|]).
  exact (save_unfitted_raises env w_new 0 (obj_at w_new 0) "model.zip" _ _ H Hc Ht Hm).
Defined.

(** ** Instances of the further properties *)

Lemma validate_input_errors_witness :
  validate_input env (XStr "abc")
  = inl (mkExn DataFormatError "Input validation failed: Expected 2D array") /\
  exn_type (mkExn DataFormatError "Input validation failed: Expected 2D array")
  <> ValueError /\
  (exn_type (mkExn DataFormatError "Input validation failed: Expected 2D array")
   = DataFormatError \/
   exists a, check_array env a common_args
             = inl (mkExn DataFormatError "Input validation failed: Expected 2D array")).
Proof.
  assert (H : validate_input env (XStr "abc")
              = inl (mkExn DataFormatError "Input validation failed: Expected 2D array"))
    by reflexivity.
  split; [exact H|].
  exact (validate_input_errors env (XStr "abc") _ H).
Defined.

Lemma fit_backend_constructor_witness :
  heap tree_world !! 0 = Some (obj_at tree_world 0) /\
  validate_input env X_train = inr X_train_valid /\
  _backend_cls (__class__ (obj_at tree_world 0)) = Some new_tree_probe /\
  __dict__ (obj_at tree_world 0) !! "kwargs"
  = Some (VDict {["n_estimators" := VInt 50]}) /\
  __dict__ (obj_at tree_world 0) !! "backend_options" = Some (VDict ∅) /\
  init_params_of (_param_mapping (__class__ (obj_at tree_world 0)))
    (__dict__ (obj_at tree_world 0)) {["n_estimators" := VInt 50]} (VDict ∅)
  = inr {["n_estimators" := VInt 10]} /\
  _fit_backend env 0 X_train None tree_world
  = (inr tt,
     with_dict tree_world 0 (obj_at tree_world 0)
       (<["_backend_model" := VObj {| est_class := TreeProbe; est_self := Some 10%Z |}]>
          (__dict__ (obj_at tree_world 0)))).
Proof.
  assert (H : heap tree_world !! 0 = Some (obj_at tree_world 0)) by reflexivity.
  assert (HX : validate_input env X_train = inr X_train_valid) by reflexivity.
  assert (Hb : _backend_cls (__class__ (obj_at tree_world 0)) = Some new_tree_probe)
    by reflexivity.
  assert (Hk : __dict__ (obj_at tree_world 0) !! "kwargs"
               = Some (VDict {["n_estimators" := VInt 50]})) by reflexivity.
  assert (Ho : __dict__ (obj_at tree_world 0) !! "backend_options" = Some (VDict ∅))
    by reflexivity.
  assert (Hi : init_params_of (_param_mapping (__class__ (obj_at tree_world 0)))
                 (__dict__ (obj_at tree_world 0)) {["n_estimators" := VInt 50]} (VDict ∅)
               = inr {["n_estimators" := VInt 10]}) by reflexivity.
  repeat (split; [assumption|]).
  exact (fit_backend_constructor env tree_world 0 (obj_at tree_world 0) X_train
           X_train_valid None new_tree_probe _ _ _ H HX Hb Hk Ho Hi).
Defined.

Lemma iforest_backend_params_witness :
  cls_init (IsolationForestAdapter env0) forest_kwargs ∅ = (inr tt, forest_dict) /\
  default (VDict ∅) (forest_kwargs !! "backend_options") = VDict forest_options /\
  exists stored init_params,
    forest_dict !! "kwargs" = Some (VDict stored) /\
    forest_dict !! "backend_options" = Some (VDict forest_options) /\
    init_params_of (_param_mapping (IsolationForestAdapter env0)) forest_dict stored
      (VDict forest_options)
    = inr init_params /\
    (forall k v, forest_options !! k = Some v -> init_params !! k = Some v) /\
    (forest_options !! "n_estimators" = None ->
       init_params !! "n_estimators"
       = Some (default (VInt 100) (forest_kwargs !! "n_estimators"))) /\
    (forest_options !! "n_jobs" = None ->
       init_params !! "n_jobs"
       = Some (default (VInt (-1)) (forest_kwargs !! "n_jobs"))) /\
    (forest_options !! "random_state" = None ->
       init_params !! "random_state"
       = Some (default VNone (forest_kwargs !! "random_state"))) /\
    (forest_options !! "contamination" = None ->
       init_params !! "contamination" = None) /\
    (forest_options !! "backend_options" = None ->
       init_params !! "backend_options" = None) /\
    (forall k, forest_options !! k = None ->
       k <> "n_estimators" -> k <> "n_jobs" -> k <> "random_state" ->
       k <> "contamination" -> k <> "backend_options" ->
       init_params !! k = forest_kwargs !! k).
Proof.
  assert (H : cls_init (IsolationForestAdapter env0) forest_kwargs ∅
              = (inr tt, forest_dict)) by reflexivity.
  assert (Hb : default (VDict ∅) (forest_kwargs !! "backend_options")
               = VDict forest_options) by reflexivity.
  split; [exact H|]. split; [exact Hb|].
  exact (iforest_backend_params env0 forest_kwargs forest_options tt forest_dict H Hb).
Defined.

Lemma iforest_fresh_guards_witness :
  construct (IsolationForestAdapter env0) ∅ empty_world = (inr 0, w_new) /\
  (forall X threshold,
     predict env0 0 X threshold w_new
     = (inl (mkExn ModelNotFittedError "Model is not fitted. Call fit() first."),
        w_new)) /\
  backend_model 0 w_new
  = (inl (mkExn ModelNotFittedError "The backend model is not initialized or fitted."),
     w_new) /\
  (forall X Xv, validate_input env0 X = inr Xv ->
     predict_score env0 0 X w_new
     = (inl (mkExn ModelNotFittedError
               "The backend model is not initialized or fitted."), w_new)) /\
  (forall filepath,
     save env0 0 filepath w_new
     = (inl (mkExn ModelNotFittedError
               "The backend model is not initialized or fitted."), w_new)).
Proof.
  assert (H : construct (IsolationForestAdapter env0) ∅ empty_world = (inr 0, w_new))
    by reflexivity.
  split; [exact H|].
  exact (iforest_fresh_guards env0 ∅ empty_world 0 w_new H).
Defined.

Lemma fit_failure_keeps_state_witness :
  fit env 0 X_train None c_new
  = (inl (mkExn ConfigError
            "Backend <class 'Clusterer'> has neither 'score_samples' nor 'decision_function'."),
     c_fit) /\
  fs c_fit = fs c_new /\
  (forall l, l <> 0 -> heap c_fit !! l = heap c_new !! l) /\
  (forall k, k <> "_backend_model" -> attr c_fit 0 k = attr c_new 0 k).
Proof.
  assert (H : fit env 0 X_train None c_new
              = (inl (mkExn ConfigError
                        "Backend <class 'Clusterer'> has neither 'score_samples' nor 'decision_function'."),
                 c_fit)) by reflexivity.
  split; [exact H|].
  exact (fit_failure_keeps_state env 0 X_train None c_new _ c_fit H).
Defined.

Lemma fit_without_backend_class_witness :
  heap b_new !! 0 = Some (obj_at b_new 0) /\
  _backend_cls (__class__ (obj_at b_new 0)) = None /\
  fit env 0 X_train None b_new
  = (inl (mkExn ConfigError "Adapter BareAdapter must define '_backend_cls'."), b_new) /\
  fit env 0 (XStr "abc") None b_new
  = (inl (mkExn DataFormatError "Input validation failed: Expected 2D array"), b_new).
Proof.
  assert (H : heap b_new !! 0 = Some (obj_at b_new 0)) by reflexivity.
  assert (Hb : _backend_cls (__class__ (obj_at b_new 0)) = None) by reflexivity.
  split; [exact H|]. split; [exact Hb|]. split.
  - exact (fit_without_backend_class env b_new 0 (obj_at b_new 0) X_train None H Hb).
  - exact (fit_without_backend_class env b_new 0 (obj_at b_new 0) (XStr "abc") None H Hb).
Defined.

Lemma predict_score_validates_first_witness :
  heap w_fit !! 0 = Some (obj_at w_fit 0) /\
  (forall e, validate_input env (XStr "abc") = inl e ->
     predict_score env 0 (XStr "abc") w_fit = (inl e, w_fit)) /\
  (forall Xv, validate_input env (XStr "abc") = inr Xv ->
     __dict__ (obj_at w_fit 0) !! "_backend_model" = Some VNone ->
     predict_score env 0 (XStr "abc") w_fit
     = (inl (mkExn ModelNotFittedError
               "The backend model is not initialized or fitted."), w_fit)).
Proof.
  assert (H : heap w_fit !! 0 = Some (obj_at w_fit 0)) by reflexivity.
  split; [exact H|].
  exact (predict_score_validates_first env w_fit 0 (obj_at w_fit 0) (XStr "abc") H).
Defined.

Lemma save_archive_contents_witness :
  save env 0 "model.pkl" w_pair = (inr tt, w_pkl) /\
  exists o m cv tv t,
    heap w_pair !! 0 = Some o /\
    heap w_pkl = heap w_pair /\
    shutil_make_archive env (fst (os_path_splitext "model.pkl")) t (fs w_pair)
    = (inr tt, fs w_pkl) /\
    dom t = archive_members /\
    t !! "attributes.pkl"
    = Some (PickleBlob (VDict (delete "_backend_model" (__dict__ o)))) /\
    t !! "backend/model.joblib" = Some (PickleBlob m) /\
    __dict__ o !! "_backend_model" = Some m /\ is_None m = false /\
    t !! "backend" = Some DirNode /\
    __dict__ o !! "contamination" = Some cv /\
    __dict__ o !! "threshold_" = Some tv /\
    t !! "metadata.json"
    = Some (JsonBlob (VDict
              (<["class_name" := VStr (cls_name (__class__ o))]>
                 (<["contamination" := cv]>
                    (<["threshold" := tv]>
                       (<["version" := VStr "0.1.0"]> ∅)))))).
Proof.
  assert (H : save env 0 "model.pkl" w_pair = (inr tt, w_pkl)) by reflexivity.
  split; [exact H|].
  exact (save_archive_contents env 0 "model.pkl" w_pair tt w_pkl H).
Defined.

Lemma load_probes_extension_witness :
  os_path_exists env (fs w_zip) "model" = false /\
  os_path_exists env (fs w_zip) ("model" +:+ ".zip") = true /\
  load env 1 "model" w_zip = load env 1 ("model" +:+ ".zip") w_zip.
Proof.
  assert (H : os_path_exists env (fs w_zip) "model" = false) by reflexivity.
  assert (Hz : os_path_exists env (fs w_zip) ("model" +:+ ".zip") = true)
    by reflexivity.
  split; [exact H|]. split; [exact Hz|].
  exact (load_probes_extension env 1 "model" w_zip H Hz).
Defined.

Lemma load_reads_two_members_witness :
  os_path_exists env
    (<["model.zip" := ZipFile (delete "metadata.json" model_archive)]> (fs w_zip))
    "model.zip"
  = os_path_exists env (fs w_zip) "model.zip" /\
  os_path_exists env
    (<["model.zip" := ZipFile (delete "metadata.json" model_archive)]> (fs w_zip))
    ("model.zip" +:+ ".zip")
  = os_path_exists env (fs w_zip) ("model.zip" +:+ ".zip") /\
  shutil_unpack_archive env (fs w_zip) (load_path env "model.zip" (fs w_zip))
  = inr model_archive /\
  shutil_unpack_archive env
    (<["model.zip" := ZipFile (delete "metadata.json" model_archive)]> (fs w_zip))
    (load_path env "model.zip" (fs w_zip))
  = inr (delete "metadata.json" model_archive) /\
  delete "metadata.json" model_archive !! "attributes.pkl"
  = model_archive !! "attributes.pkl" /\
  delete "metadata.json" model_archive !! "backend/model.joblib"
  = model_archive !! "backend/model.joblib" /\
  fst (load env 1 "model.zip"
         {| heap := heap w_zip;
            fs := <["model.zip" := ZipFile (delete "metadata.json" model_archive)]>
                    (fs w_zip) |})
  = fst (load env 1 "model.zip" w_zip) /\
  heap (snd (load env 1 "model.zip"
               {| heap := heap w_zip;
                  fs := <["model.zip" := ZipFile (delete "metadata.json" model_archive)]>
                          (fs w_zip) |}))
  = heap (snd (load env 1 "model.zip" w_zip)).
Proof.
  assert (He : os_path_exists env
                 (<["model.zip" := ZipFile (delete "metadata.json" model_archive)]>
                    (fs w_zip)) "model.zip"
               = os_path_exists env (fs w_zip) "model.zip") by reflexivity.
  assert (Hz : os_path_exists env
                 (<["model.zip" := ZipFile (delete "metadata.json" model_archive)]>
                    (fs w_zip)) ("model.zip" +:+ ".zip")
               = os_path_exists env (fs w_zip) ("model.zip" +:+ ".zip"))
    by reflexivity.
  assert (H : shutil_unpack_archive env (fs w_zip)
                (load_path env "model.zip" (fs w_zip))
              = inr model_archive) by reflexivity.
  assert (H2 : shutil_unpack_archive env
                 (<["model.zip" := ZipFile (delete "metadata.json" model_archive)]>
                    (fs w_zip))
                 (load_path env "model.zip" (fs w_zip))
               = inr (delete "metadata.json" model_archive)) by reflexivity.
  assert (Ha : delete "metadata.json" model_archive !! "attributes.pkl"
               = model_archive !! "attributes.pkl")
    by (apply lookup_delete_ne; discriminate).
  assert (Hb : delete "metadata.json" model_archive !! "backend/model.joblib"
               = model_archive !! "backend/model.joblib")
    by (apply lookup_delete_ne; discriminate).
  repeat (split; [assumption|]).
  exact (load_reads_two_members env 1 "model.zip" w_zip _ model_archive
           (delete "metadata.json" model_archive) He Hz H H2 Ha Hb).
Defined.


Lemma save_load_written_path_witness :
  heap w_pair !! 0 = Some (obj_at w_pair 0) /\
  __dict__ (obj_at w_pair 0) !! "_backend_model" = Some fitted_forest /\
  is_None fitted_forest = false /\
  __dict__ (obj_at w_pair 0) !! "contamination" = Some (VFloat 0.1) /\
  __dict__ (obj_at w_pair 0) !! "threshold_" = Some (VFloat 18) /\
  heap w_pair !! 1 = Some (obj_at w_pair 1) /\
  shutil_make_archive env (fst (os_path_splitext "model.pkl"))
    (saved_tree (obj_at w_pair 0) fitted_forest (VFloat 0.1) (VFloat 18))
    (fs w_pair)
  = (inr tt, fs w_pkl) /\
  os_path_exists env (fs w_pkl) (fst (os_path_splitext "model.pkl") +:+ ".zip")
  = true /\
  shutil_unpack_archive env (fs w_pkl)
    (fst (os_path_splitext "model.pkl") +:+ ".zip")
  = inr (saved_tree (obj_at w_pair 0) fitted_forest (VFloat 0.1) (VFloat 18)) /\
  exists w1 w2,
    save env 0 "model.pkl" w_pair = (inr tt, w1) /\
    fs w1 = fs w_pkl /\
    load env 1 (fst (os_path_splitext "model.pkl") +:+ ".zip") w1 = (inr 1, w2) /\
    attr w2 1 "_is_fitted" = Some (VBool true) /\
    (forall k v, k <> "_is_fitted" -> __dict__ (obj_at w_pair 0) !! k = Some v ->
       attr w2 1 k = Some v) /\
    ((forall k, is_Some (__dict__ (obj_at w_pair 1) !! k) ->
                is_Some (__dict__ (obj_at w_pair 0) !! k)) ->
     dict_at w2 1 = <["_is_fitted" := VBool true]> (__dict__ (obj_at w_pair 0))).
Proof.
  assert (H0 : heap w_pair !! 0 = Some (obj_at w_pair 0)) by reflexivity.
  assert (Hm : __dict__ (obj_at w_pair 0) !! "_backend_model" = Some fitted_forest)
    by reflexivity.
  assert (Hn : is_None fitted_forest = false) by reflexivity.
  assert (Hc : __dict__ (obj_at w_pair 0) !! "contamination" = Some (VFloat 0.1))
    by reflexivity.
  assert (Ht : __dict__ (obj_at w_pair 0) !! "threshold_" = Some (VFloat 18))
    by reflexivity.
  assert (H1 : heap w_pair !! 1 = Some (obj_at w_pair 1)) by reflexivity.
  assert (Hw : shutil_make_archive env (fst (os_path_splitext "model.pkl"))
                 (saved_tree (obj_at w_pair 0) fitted_forest (VFloat 0.1) (VFloat 18))
                 (fs w_pair)
               = (inr tt, fs w_pkl)) by reflexivity.
  assert (Hex : os_path_exists env (fs w_pkl)
                  (fst (os_path_splitext "model.pkl") +:+ ".zip") = true)
    by reflexivity.
  assert (Hu : shutil_unpack_archive env (fs w_pkl)
                 (fst (os_path_splitext "model.pkl") +:+ ".zip")
               = inr (saved_tree (obj_at w_pair 0) fitted_forest (VFloat 0.1)
                        (VFloat 18))) by reflexivity.
  repeat (split; [assumption|]).
  exact (save_load_written_path env w_pair 0 1 _ _ "model.pkl" _ _ _ _
           H0 Hm Hn Hc Ht H1 Hw Hex Hu).
Defined.

Lemma get_detector_failures_witness :
  get_detector_in env registry_kmeans "KMeans" ∅ w_fit = (inl kmeans_error, w_fit) /\
  w_fit = w_fit /\
  ((registry_get "KMeans" registry_kmeans = None /\
    exn_type kmeans_error = ConfigError) \/
   (exists module_path e0,
      registry_get "KMeans" registry_kmeans = Some module_path /\
      import_module env module_path = inl e0 /\
      ((exn_type e0 = ImportError /\ exn_type kmeans_error = ImportError /\
        occurs_in module_path (exn_msg kmeans_error) /\
        occurs_in (exn_msg e0) (exn_msg kmeans_error)) \/
       (exn_type e0 <> ImportError /\ kmeans_error = e0))) \/
   (exists module_path module,
      registry_get "KMeans" registry_kmeans = Some module_path /\
      import_module env module_path = inr module /\
      module !! ("KMeans" +:+ "Adapter") = None /\
      exn_type kmeans_error = AttributeError /\
      occurs_in ("KMeans" +:+ "Adapter") (exn_msg kmeans_error)) \/
   (exists module_path module model_class d,
      registry_get "KMeans" registry_kmeans = Some module_path /\
      import_module env module_path = inr module /\
      module !! ("KMeans" +:+ "Adapter") = Some model_class /\
      cls_init model_class ∅ ∅ = (inl kmeans_error, d))).
Proof.
  assert (H : get_detector_in env registry_kmeans "KMeans" ∅ w_fit
              = (inl kmeans_error, w_fit)) by reflexivity.
  split; [exact H|].
  exact (get_detector_failures env registry_kmeans "KMeans" ∅ w_fit _ w_fit H).
Defined.

Lemma fit_then_predict_witness :
  fit env 0 X_train None w_new = (inr 0, w_fit) /\
  exists scores q,
    predict_score env 0 X_train w_fit = (inr scores, w_fit) /\
    attr w_fit 0 "threshold_" = Some (VFloat q) /\
    predict env 0 X_train VNone w_fit = (inr (binarize q scores), w_fit) /\
    List.length (binarize q scores) = List.length scores.
Proof.
  assert (H : fit env 0 X_train None w_new = (inr 0, w_fit)) by reflexivity.
  split; [exact H|].
  exact (fit_then_predict env w_new 0 X_train None 0 w_fit H).
Defined.

Lemma loaded_detector_predicts_alike_witness :
  heap w_pair !! 0 = Some (obj_at w_pair 0) /\
  __dict__ (obj_at w_pair 0) !! "_is_fitted" = Some (VBool true) /\
  __dict__ (obj_at w_pair 0) !! "_backend_model" = Some fitted_forest /\
  is_None fitted_forest = false /\
  __dict__ (obj_at w_pair 0) !! "contamination" = Some (VFloat 0.1) /\
  __dict__ (obj_at w_pair 0) !! "threshold_" = Some (VFloat 18) /\
  heap w_pair !! 1 = Some (obj_at w_pair 1) /\
  __class__ (obj_at w_pair 1) = __class__ (obj_at w_pair 0) /\
  shutil_make_archive env (fst (os_path_splitext "model.pkl"))
    (saved_tree (obj_at w_pair 0) fitted_forest (VFloat 0.1) (VFloat 18))
    (fs w_pair)
  = (inr tt, fs w_pkl) /\
  os_path_exists env (fs w_pkl) (fst (os_path_splitext "model.pkl") +:+ ".zip")
  = true /\
  shutil_unpack_archive env (fs w_pkl)
    (fst (os_path_splitext "model.pkl") +:+ ".zip")
  = inr (saved_tree (obj_at w_pair 0) fitted_forest (VFloat 0.1) (VFloat 18)) /\
  exists w1 w2,
    save env 0 "model.pkl" w_pair = (inr tt, w1) /\
    fs w1 = fs w_pkl /\
    load env 1 (fst (os_path_splitext "model.pkl") +:+ ".zip") w1 = (inr 1, w2) /\
    forall X threshold,
      fst (predict env 1 X threshold w2) = fst (predict env 0 X threshold w_pair).
Proof.
  assert (H0 : heap w_pair !! 0 = Some (obj_at w_pair 0)) by reflexivity.
  assert (Hf : __dict__ (obj_at w_pair 0) !! "_is_fitted" = Some (VBool true))
    by reflexivity.
  assert (Hm : __dict__ (obj_at w_pair 0) !! "_backend_model" = Some fitted_forest)
    by reflexivity.
  assert (Hn : is_None fitted_forest = false) by reflexivity.
  assert (Hc : __dict__ (obj_at w_pair 0) !! "contamination" = Some (VFloat 0.1))
    by reflexivity.
  assert (Ht : __dict__ (obj_at w_pair 0) !! "threshold_" = Some (VFloat 18))
    by reflexivity.
  assert (H1 : heap w_pair !! 1 = Some (obj_at w_pair 1)) by reflexivity.
  assert (Hcls : __class__ (obj_at w_pair 1) = __class__ (obj_at w_pair 0))
    by reflexivity.
  assert (Hw : shutil_make_archive env (fst (os_path_splitext "model.pkl"))
                 (saved_tree (obj_at w_pair 0) fitted_forest (VFloat 0.1) (VFloat 18))
                 (fs w_pair)
               = (inr tt, fs w_pkl)) by reflexivity.
  assert (Hex : os_path_exists env (fs w_pkl)
                  (fst (os_path_splitext "model.pkl") +:+ ".zip") = true)
    by reflexivity.
  assert (Hu : shutil_unpack_archive env (fs w_pkl)
                 (fst (os_path_splitext "model.pkl") +:+ ".zip")
               = inr (saved_tree (obj_at w_pair 0) fitted_forest (VFloat 0.1)
                        (VFloat 18))) by reflexivity.
  repeat (split; [assumption|]).
  exact (loaded_detector_predicts_alike env w_pair 0 1 _ _ "model.pkl" _ _ _ _
           H0 Hf Hm Hn Hc Ht H1 Hcls Hw Hex Hu).
Defined.

Lemma predict_threshold_monotone_witness :
  heap w_fit !! 0 = Some (obj_at w_fit 0) /\
  fitted_flag (__dict__ (obj_at w_fit 0)) = true /\
  predict_score env 0 X_test w_fit = (inr [2; 17; 4]%float, w_fit) /\
  PrimFloat.leb 3 5 = true /\
  exists l1 l2,
    predict env 0 X_test (VFloat 3) w_fit = (inr l1, w_fit) /\
    predict env 0 X_test (VFloat 5) w_fit = (inr l2, w_fit) /\
    List.length l1 = List.length l2 /\
    forall i, l2 !! i = Some 1%Z -> l1 !! i = Some 1%Z.
Proof.
  assert (H : heap w_fit !! 0 = Some (obj_at w_fit 0)) by reflexivity.
  assert (Hf : fitted_flag (__dict__ (obj_at w_fit 0)) = true) by reflexivity.
  assert (Hs : predict_score env 0 X_test w_fit = (inr [2; 17; 4]%float, w_fit))
    by reflexivity.
  assert (Hle : PrimFloat.leb 3 5 = true) by reflexivity.
  repeat (split; [assumption|]).
  exact (predict_threshold_monotone env w_fit 0 (obj_at w_fit 0) X_test
           [2; 17; 4]%float 3 5 H Hf Hs Hle).
Defined.

Lemma refit_forgets_witness :
  heap w_new !! 0 = Some (obj_at w_new 0) /\
  (forall local_name backend_name,
     In (local_name, backend_name) (_param_mapping (__class__ (obj_at w_new 0))) ->
     local_name <> "_backend_model" /\ local_name <> "threshold_" /\
     local_name <> "_is_fitted") /\
  fit env 0 X_train None w_new = (inr 0, w_fit) /\
  (forall X2 y2,
     fst (fit env 0 X2 y2 w_fit) = fst (fit env 0 X2 y2 w_new) /\
     forall r2 w2, fit env 0 X2 y2 w_new = (inr r2, w2) ->
       fit env 0 X2 y2 w_fit = (inr r2, w2)) /\
  fit env 0 X_train None w_fit = (inr 0, w_fit).
Proof.
  assert (H : heap w_new !! 0 = Some (obj_at w_new 0)) by reflexivity.
  assert (Hmap : forall local_name backend_name,
            In (local_name, backend_name)
               (_param_mapping (__class__ (obj_at w_new 0))) ->
            local_name <> "_backend_model" /\ local_name <> "threshold_" /\
            local_name <> "_is_fitted").
  { intros local_name backend_name Hin. change False in Hin. contradiction. }
  assert (E : fit env 0 X_train None w_new = (inr 0, w_fit)) by reflexivity.
  repeat (split; [assumption|]).
  exact (refit_forgets env w_new 0 (obj_at w_new 0) X_train None 0 w_fit H Hmap E).
Defined.

Lemma validate_input_column_witness :
  validate_input env X_flat = inr X_flat_valid /\
  exists a b,
    _to_numpy env X_flat = inr a /\
    check_array env b common_args = inr X_flat_valid /\
    ndim b <> 1 /\
    data b = data a /\
    (ndim a = 1 -> shape b = [List.length (data a); 1]) /\
    (ndim a <> 1 -> b = a) /\
    (forall x, X_flat = XArray x -> a = x).
Proof.
  assert (H : validate_input env X_flat = inr X_flat_valid) by reflexivity.
  split; [exact H|].
  exact (validate_input_column env X_flat X_flat_valid H).
Defined.

Lemma save_overwrites_witness :
  save env 0 "model.pkl" w_pair = (inr tt, w_pkl) /\
  (forall t,
     shutil_make_archive env (fst (os_path_splitext "model.pkl")) t (fs w_pkl)
     = shutil_make_archive env (fst (os_path_splitext "model.pkl")) t (fs w_pair)) /\
  (forall b p2, fst (os_path_splitext p2) = fst (os_path_splitext "model.pkl") ->
     fst (save env b p2 w_pkl) = fst (save env b p2 w_pair) /\
     forall u2 w2, save env b p2 w_pair = (inr u2, w2) ->
       save env b p2 w_pkl = (inr u2, w2)) /\
  save env 0 "model.pkl" w_pkl = (inr tt, w_pkl).
Proof.
  assert (H : save env 0 "model.pkl" w_pair = (inr tt, w_pkl)) by reflexivity.
  assert (Ho : forall t,
             shutil_make_archive env (fst (os_path_splitext "model.pkl")) t (fs w_pkl)
             = shutil_make_archive env (fst (os_path_splitext "model.pkl")) t
                 (fs w_pair)).
  { intros t. reflexivity. }
  split; [exact H|]. split; [exact Ho|].
  exact (save_overwrites env w_pair 0 "model.pkl" tt w_pkl H Ho).
Defined.

Lemma load_twice_witness :
  heap w_zip !! 1 = Some (obj_at w_zip 1) /\
  load env 1 "model.zip" w_zip = (inr 1, w_loaded) /\
  load env 1 "model.zip" w_loaded = (inr 1, w_loaded).
Proof.
  assert (H : heap w_zip !! 1 = Some (obj_at w_zip 1)) by reflexivity.
  assert (E : load env 1 "model.zip" w_zip = (inr 1, w_loaded)) by reflexivity.
  split; [exact H|]. split; [exact E|].
  exact (load_twice env 1 "model.zip" w_zip (obj_at w_zip 1) 1 w_loaded H E).
Defined.
